(** * Task controller: permission evaluator, handlers and the task query
      builder, with the task page of the frontend

    A shallow embedding of [backend/src/controllers/task.controller.ts] and
    of the parts of [frontend/src] that call it or mirror it ([TaskList],
    [TasksPage], [TaskForm]).  JavaScript strings are [string] (ASCII
    texts), the role array of the token payload is a [list string],
    optional body and query fields are [option]s, numbers are integers
    (exact on the safe integers), and the two repositories are tables
    (lists of rows in insertion order).  The first part of the file is the
    model, the second part the theory. *)

From Stdlib Require Import String Ascii List Bool ZArith Lia.
From Stdlib Require Import Sorting.Sorted Sorting.Permutation.
From Stdlib Require Decimal DecimalString DecimalPos.
Import ListNotations.
Local Open Scope string_scope.
Local Open Scope list_scope.

(* ===================================================================== *)
(** ** Data model *)
(* ===================================================================== *)

(** Modelled from the spec: the [User] entity ([entities/User.ts] is not
    among the sources).  The controller only ever reads [id]. *)
Module User.
Record t : Type := mk { id : string; email : string }.
End User.

(** The three-valued status enumeration of the DTOs
    (['todo' | 'in_progress' | 'done']). *)
Inductive Status : Type := todo | in_progress | done.

Definition status_name (s : Status) : string :=
  match s with
  | todo => "todo"
  | in_progress => "in_progress"
  | done => "done"
  end.

(** Modelled from the spec: the [Task] entity ([entities/Task.ts] is not
    among the sources): identifier, title, description, status, owner,
    assignees and the creation timestamp.  [description] is nullable (the
    create DTO leaves it optional).  The [updatedAt] column is maintained by
    the persistence layer and is not part of the model. *)
Module Task.
Record t : Type := mk {
  id : string;
  title : string;
  description : option string;
  status : Status;
  owner : User.t;
  assignees : list User.t;
  createdAt : Z
}.

Definition with_title (x : string) (k : t) : t :=
  mk (id k) x (description k) (status k) (owner k) (assignees k) (createdAt k).

Definition with_description (x : option string) (k : t) : t :=
  mk (id k) (title k) x (status k) (owner k) (assignees k) (createdAt k).

Definition with_status (x : Status) (k : t) : t :=
  mk (id k) (title k) (description k) x (owner k) (assignees k) (createdAt k).

Definition with_assignees (x : list User.t) (k : t) : t :=
  mk (id k) (title k) (description k) (status k) (owner k) x (createdAt k).
End Task.

(** Modelled from the spec: the authenticated-actor context
    ([AuthTokenPayload] of [utils/auth], which is not among the sources):
    the actor's id and role names. *)
Record AuthTokenPayload : Type := {
  userId : string;
  roles : list string
}.

(** The body of [PUT /tasks/:id] as [UpdateTaskDto] declares it: every field
    optional, [None] standing for [undefined]. *)
Module UpdateTaskDto.
Record t : Type := mk {
  title : option string;
  description : option string;
  status : option Status;
  assigneeIds : option (list string)
}.
End UpdateTaskDto.

(** What the handlers read of an Express request: [req.user],
    [req.params.id] and [req.body]. *)
Record Request : Type := {
  req_user : option AuthTokenPayload;
  req_params_id : string;
  req_body : UpdateTaskDto.t
}.

(** A value of [req.query]: a string, or an array when the key is repeated
    (so an array is never empty). *)
Inductive QueryValue : Type :=
| QString (s : string)
| QArray (x : string) (xs : list string).

(** The query parameters [list] destructures, with the types its casts
    assume; [None] stands for [undefined]. *)
Module Query.
Record t : Type := mk {
  search : option string;
  status : option QueryValue;
  assigneeId : option string;
  page : option string;
  limit : option string;
  sortBy : option string;
  sortOrder : option string
}.

Definition with_sortBy (x : option string) (q : t) : t :=
  mk (search q) (status q) (assigneeId q) (page q) (limit q) x (sortOrder q).

Definition with_sortOrder (x : option string) (q : t) : t :=
  mk (search q) (status q) (assigneeId q) (page q) (limit q) (sortBy q) x.
End Query.

(** The [pagination] object of the list response.  A number that is not
    finite ([NaN], an infinite [Math.ceil(total / limitNum)]) is [None], as
    JSON prints it ([null]). *)
Record Pagination : Type := {
  pg_page : option Z;
  pg_limit : option Z;
  pg_total : Z;
  pg_totalPages : option Z
}.

Inductive Body : Type :=
| Message (message : string)
| TaskJson (task : Task.t)
| TaskPageJson (tasks : list Task.t) (pagination : Pagination)
| NoBody.

(** [res.status(code).json(body)]; [res.json] alone answers 200. *)
Record Response : Type := {
  code : Z;
  payload : Body
}.

(* ===================================================================== *)
(** ** JavaScript primitives used by the controller *)
(* ===================================================================== *)

(** Truthiness of a string: every string but the empty one. *)
Definition truthy_string (s : string) : bool := negb (String.eqb s "").

(** Truthiness of an array: every object is truthy, the empty array too. *)
Definition truthy_array {A : Type} (l : list A) : bool := true.

Definition truthy_query (v : QueryValue) : bool :=
  match v with
  | QString s => truthy_string s
  | QArray _ _ => true
  end.

(** [x = d] in a destructuring pattern: the default replaces [undefined]
    only. *)
Definition or_default {A : Type} (d : A) (x : option A) : A :=
  match x with
  | Some a => a
  | None => d
  end.

(** [Array.prototype.includes] on an array of strings. *)
Definition includes (l : list string) (x : string) : bool :=
  existsb (String.eqb x) l.

Definition is_space (c : ascii) : bool :=
  let n := nat_of_ascii c in
  Nat.eqb n 32 || (Nat.leb 9 n && Nat.leb n 13).

Fixpoint skip_spaces (s : string) : string :=
  match s with
  | String c s' => if is_space c then skip_spaces s' else s
  | EmptyString => s
  end.

Definition digit_of (c : ascii) : option Z :=
  let n := nat_of_ascii c in
  if Nat.leb 48 n && Nat.leb n 57 then Some (Z.of_nat (n - 48)) else None.

(** The longest prefix of decimal digits, [None] when there is none. *)
Fixpoint read_digits (s : string) (acc : option Z) : option Z :=
  match s with
  | String c s' =>
      match digit_of c with
      | Some d => read_digits s' (Some (10 * or_default 0%Z acc + d)%Z)
      | None => acc
      end
  | EmptyString => acc
  end.

(** [parseInt(s, 10)] on an ASCII text: leading white space skipped, an
    optional sign, then decimal digits; [None] is [NaN].  The result is the
    integer the digits denote; JavaScript holds it in a double, so the two
    agree on the safe integers ([safe_integer] below) and nowhere else is
    the model relied on for the value of a number. *)
Definition parseInt (s : string) : option Z :=
  match skip_spaces s with
  | String "-"%char s' => option_map Z.opp (read_digits s' None)
  | String "+"%char s' => read_digits s' None
  | s' => read_digits s' None
  end.

(** The integers a JavaScript number holds exactly
    ([Number.isSafeInteger]); they also fit the 64-bit integers of the
    databases. *)
Definition safe_integer (z : Z) : Prop := (- 2 ^ 53 < z < 2 ^ 53)%Z.

(** [Math.ceil(a / b)] on integers, as JSON prints it: [None] for a zero
    divisor (the quotient is infinite or [NaN]). *)
Definition math_ceil_div (a b : Z) : option Z :=
  if Z.eqb b 0 then None else Some (- ((- a) / b))%Z.

(* ===================================================================== *)
(** ** Permission helpers *)
(* ===================================================================== *)

(** [hasRole(user, role)]: [user.roles.includes(role)]. *)
Definition hasRole (user : AuthTokenPayload) (role : string) : bool :=
  includes (roles user) role.

(** [isOwner(user, task)]: [task.owner.id === user.userId]. *)
Definition isOwner (user : AuthTokenPayload) (task : Task.t) : bool :=
  String.eqb (User.id (Task.owner task)) (userId user).

Definition canEditTask (user : AuthTokenPayload) (task : Task.t) : bool :=
  if hasRole user "admin" || hasRole user "manager" then true
  else isOwner user task.

Definition canDeleteTask (user : AuthTokenPayload) (task : Task.t) : bool :=
  if hasRole user "admin" then true
  else if hasRole user "manager" || hasRole user "user" then isOwner user task
  else false.

(* ===================================================================== *)
(** ** The data source and the handler monad *)
(* ===================================================================== *)

(** The two repositories of [AppDataSource]. *)
Record DataSource : Type := {
  taskRepository : list Task.t;
  userRepository : list User.t
}.

Inductive Permission : Type := Edit | Delete.

(** What a handler does that an observer can tell apart, in program order:
    repository calls and calls of the permission helpers. *)
Inductive Event : Type :=
| FindOneTask (id : string)
| FindUsersBy (ids : list string)
| Evaluate (p : Permission) (verdict : bool)
| SaveTask (task : Task.t)
| RemoveTask (task : Task.t).

(** The events that write to the task table. *)
Definition mutation (e : Event) : bool :=
  match e with
  | SaveTask _ | RemoveTask _ => true
  | _ => false
  end.

(** The events that are a call of the permission evaluator. *)
Definition evaluation (e : Event) : bool :=
  match e with
  | Evaluate _ _ => true
  | _ => false
  end.

Record HState : Type := {
  source : DataSource;
  trace : list Event
}.

(** A handler step either goes on with a value or has sent the response
    ([return res...]); the state is threaded through both. *)
Definition Handler (A : Type) : Type := HState -> (Response + A) * HState.

Definition ret {A : Type} (a : A) : Handler A := fun s => (inr a, s).

Definition bind {A B : Type} (m : Handler A) (f : A -> Handler B) : Handler B :=
  fun s =>
    match m s with
    | (inl r, s') => (inl r, s')
    | (inr a, s') => f a s'
    end.

Declare Scope handler_scope.
Delimit Scope handler_scope with handler.
Notation "x <- c ;; k" := (bind c (fun x => k))
  (at level 100, c at next level, right associativity) : handler_scope.
Local Open Scope handler_scope.

Definition respond {A : Type} (c : Z) (b : Body) : Handler A :=
  fun s => (inl {| code := c; payload := b |}, s).

Definition emit (e : Event) (s : HState) : HState :=
  {| source := source s; trace := trace s ++ [e] |}.

(** The response a handler ends with, and the state it leaves. *)
Definition run (h : Handler Response) (s : HState) : Response * HState :=
  match h s with
  | (inl r, s') => (r, s')
  | (inr r, s') => (r, s')
  end.

Definition start (ds : DataSource) : HState := {| source := ds; trace := [] |}.

(* --------------------------------------------------------------------- *)
(** *** Repository operations *)

Definition has_id (id : string) (t : Task.t) : bool := String.eqb (Task.id t) id.

(** [taskRepository.findOne({ where: { id } })]; the entity comes with its
    owner and its assignees. *)
Definition findOne (id : string) : Handler (option Task.t) :=
  fun s => (inr (find (has_id id) (taskRepository (source s))),
            emit (FindOneTask id) s).

(** [userRepository.findBy({ id: In(ids) })]. *)
Definition findBy (ids : list string) : Handler (list User.t) :=
  fun s => (inr (filter (fun u => includes ids (User.id u))
                        (userRepository (source s))),
            emit (FindUsersBy ids) s).

(** [save] writes the row with the entity's primary key, inserting it when
    the key is new. *)
Fixpoint upsert (t : Task.t) (rows : list Task.t) : list Task.t :=
  match rows with
  | [] => [t]
  | r :: rows' =>
      if has_id (Task.id t) r then t :: rows' else r :: upsert t rows'
  end.

Definition save (t : Task.t) : Handler Task.t :=
  fun s =>
    (inr t,
     emit (SaveTask t)
       {| source := {| taskRepository := upsert t (taskRepository (source s));
                       userRepository := userRepository (source s) |};
          trace := trace s |}).

(** [taskRepository.remove(task)]: a hard delete of the row. *)
Definition remove_task (t : Task.t) : Handler unit :=
  fun s =>
    (inr tt,
     emit (RemoveTask t)
       {| source := {| taskRepository :=
                         filter (fun r => negb (has_id (Task.id t) r))
                                (taskRepository (source s));
                       userRepository := userRepository (source s) |};
          trace := trace s |}).

(** A call of [canEditTask] or [canDeleteTask], recorded in the trace. *)
Definition evaluate (p : Permission) (user : AuthTokenPayload) (task : Task.t)
  : Handler bool :=
  fun s =>
    let verdict := match p with
                   | Edit => canEditTask user task
                   | Delete => canDeleteTask user task
                   end in
    (inr verdict, emit (Evaluate p verdict) s).

(* ===================================================================== *)
(** ** [update] and [remove] *)
(* ===================================================================== *)

(** [update], the body of its [try] block.  The repository calls of the
    model do not fail, so the [catch] branch (500) is never taken.  The
    entity is changed in memory and reaches the table with [save] only. *)
Definition update (req : Request) : Handler Response :=
  let taskId := req_params_id req in
  let title := UpdateTaskDto.title (req_body req) in
  let description := UpdateTaskDto.description (req_body req) in
  let status := UpdateTaskDto.status (req_body req) in
  let assigneeIds := or_default [] (UpdateTaskDto.assigneeIds (req_body req)) in
  match req_user req with
  | None => respond 401 (Message "Unauthorized")
  | Some user =>
      if negb (truthy_string taskId)
      then respond 400 (Message "Task id is required")
      else
        found <- findOne taskId ;;
        match found with
        | None => respond 404 (Message "Task not found")
        | Some task =>
            allowed <- evaluate Edit user task ;;
            if negb allowed
            then respond 403
                   (Message "You do not have permission to edit this task")
            else
              let task := match title with
                          | Some x => Task.with_title x task
                          | None => task
                          end in
              let task := match description with
                          | Some x => Task.with_description (Some x) task
                          | None => task
                          end in
              let task := match status with
                          | Some x => Task.with_status x task
                          | None => task
                          end in
              task <- (if truthy_array assigneeIds
                       then
                         users <- (if truthy_array assigneeIds
                                      && negb (Nat.eqb (length assigneeIds) 0)
                                   then findBy assigneeIds
                                   else ret []) ;;
                         ret (Task.with_assignees users task)
                       else ret task) ;;
              updated <- save task ;;
              respond 200 (TaskJson updated)
        end
  end.

(** The three answers both handlers give before any write. *)
Definition unauthorized : Response :=
  {| code := 401; payload := Message "Unauthorized" |}.

Definition id_required : Response :=
  {| code := 400; payload := Message "Task id is required" |}.

Definition task_not_found : Response :=
  {| code := 404; payload := Message "Task not found" |}.

(** [remove], the body of its [try] block. *)
Definition remove (req : Request) : Handler Response :=
  let taskId := req_params_id req in
  match req_user req with
  | None => respond 401 (Message "Unauthorized")
  | Some user =>
      if negb (truthy_string taskId)
      then respond 400 (Message "Task id is required")
      else
        found <- findOne taskId ;;
        match found with
        | None => respond 404 (Message "Task not found")
        | Some task =>
            allowed <- evaluate Delete user task ;;
            if negb allowed
            then respond 403
                   (Message "You do not have permission to delete this task")
            else
              _ <- remove_task task ;;
              respond 204 NoBody
        end
  end.

(** The outcome of a refused [update]: the 403 answer, the data source as
    it was, and no write among the events. *)
Definition denied_unchanged (req : Request) (ds : DataSource) : Prop :=
  fst (run (update req) (start ds)) =
    {| code := 403;
       payload := Message "You do not have permission to edit this task" |} /\
  source (snd (run (update req) (start ds))) = ds /\
  forallb (fun e => negb (mutation e))
          (trace (snd (run (update req) (start ds)))) = true.

(** A request as the router hands it to [update] and [remove]: both are
    mounted on the path ['/:id'], and a path segment that matches [:id] is
    never empty. *)
Definition routed (req : Request) : Prop := req_params_id req <> "".

(** The order of the checks of a handler, on every routed request and from
    an empty trace: without an actor the answer is 401 and nothing has
    happened; with an actor and no task of the id it is 404 after the one
    lookup, the data source being as before; and the permission evaluator
    is called only when the actor and the task are both there. *)
Definition checks_in_order (h : Request -> Handler Response) : Prop :=
  forall (req : Request) (ds : DataSource),
    routed req ->
    (req_user req = None ->
       run (h req) (start ds) = (unauthorized, start ds)) /\
    (req_user req <> None ->
     find (has_id (req_params_id req)) (taskRepository ds) = None ->
       run (h req) (start ds) =
         (task_not_found,
          {| source := ds; trace := [FindOneTask (req_params_id req)] |})) /\
    (existsb evaluation (trace (snd (run (h req) (start ds)))) = true ->
       req_user req <> None /\
       find (has_id (req_params_id req)) (taskRepository ds) <> None).

(* ===================================================================== *)
(** ** The task query builder *)
(* ===================================================================== *)

(** What the controller relies on from the SQL dialect behind the data
    source: the [LIKE] operator (pattern first, text second), the collation
    order of text columns, and whether a negative [OFFSET] or [LIMIT] is an
    error.  All three differ between the supported databases (PostgreSQL
    and SQLite), so the handler is modelled for any of them. *)
Record Dialect : Type := {
  like : string -> string -> bool;
  text_leb : string -> string -> bool;
  rejects_negative_window : bool
}.

(** The three clauses the controller ever adds, each a condition text
    handed to [where] or [andWhere]. *)
Inductive Cond : Type :=
| TitleOrDescriptionLike (search : string)
| StatusIn (statuses : list string)
| AssigneeIdIs (assigneeId : string).

(** The comparisons the condition texts are made of. *)
Inductive Atom : Type :=
| TitleLike (search : string)
| DescriptionLike (search : string)
| StatusAmong (statuses : list string)
| AssigneeIs (assigneeId : string).

(** A condition text as the comparisons it joins with [OR]:
    ['task.title LIKE :search OR task.description LIKE :search'],
    ['task.status IN (:...statuses)'] and ['assignees.id = :assigneeId']. *)
Definition alternatives (c : Cond) : list Atom :=
  match c with
  | TitleOrDescriptionLike p => [TitleLike p; DescriptionLike p]
  | StatusIn ss => [StatusAmong ss]
  | AssigneeIdIs a => [AssigneeIs a]
  end.

Inductive SortField : Type := task_title | task_createdAt.

Inductive Order : Type := ASC | DESC.

(** The state of a [SelectQueryBuilder] over
    [task LEFT JOIN owner LEFT JOIN assignees LEFT JOIN attachments]. *)
Record QueryBuilder : Type := {
  qb_where : list Cond;
  qb_orderBy : option (SortField * Order);
  qb_skip : option Z;
  qb_take : option Z
}.

Definition createQueryBuilder : QueryBuilder :=
  {| qb_where := []; qb_orderBy := None; qb_skip := None; qb_take := None |}.

(** [where] replaces the clauses, [andWhere] adds one. *)
Definition where_ (c : Cond) (qb : QueryBuilder) : QueryBuilder :=
  {| qb_where := [c]; qb_orderBy := qb_orderBy qb;
     qb_skip := qb_skip qb; qb_take := qb_take qb |}.

Definition andWhere (c : Cond) (qb : QueryBuilder) : QueryBuilder :=
  {| qb_where := qb_where qb ++ [c]; qb_orderBy := qb_orderBy qb;
     qb_skip := qb_skip qb; qb_take := qb_take qb |}.

Definition orderBy (f : SortField) (o : Order) (qb : QueryBuilder)
  : QueryBuilder :=
  {| qb_where := qb_where qb; qb_orderBy := Some (f, o);
     qb_skip := qb_skip qb; qb_take := qb_take qb |}.

(** [skip] and [take] throw on [NaN] ([None] on both sides). *)
Definition skip (n : option Z) (qb : QueryBuilder) : option QueryBuilder :=
  match n with
  | Some z => Some {| qb_where := qb_where qb; qb_orderBy := qb_orderBy qb;
                      qb_skip := Some z; qb_take := qb_take qb |}
  | None => None
  end.

Definition take (n : option Z) (qb : QueryBuilder) : option QueryBuilder :=
  match n with
  | Some z => Some {| qb_where := qb_where qb; qb_orderBy := qb_orderBy qb;
                      qb_skip := qb_skip qb; qb_take := Some z |}
  | None => None
  end.

(* --------------------------------------------------------------------- *)
(** *** Evaluation of a built query *)

(** The rows the left join on assignees yields for one task: one per
    assignee, or a single row with a null assignee.  (The owner and
    attachment joins carry no clause and leave the selection unchanged.) *)
Definition joined (t : Task.t) : list (Task.t * option User.t) :=
  match Task.assignees t with
  | [] => [(t, None)]
  | us => map (fun u => (t, Some u)) us
  end.

(** One comparison on one joined row.  A comparison with [NULL] is not
    true; as the texts have no [NOT], taking it for false selects the same
    rows as SQL's three-valued logic. *)
Definition holds (d : Dialect) (a : Atom) (row : Task.t * option User.t)
  : bool :=
  match a with
  | TitleLike p => like d p (Task.title (fst row))
  | DescriptionLike p =>
      match Task.description (fst row) with
      | Some x => like d p x
      | None => false
      end
  | StatusAmong ss => includes ss (status_name (Task.status (fst row)))
  | AssigneeIs x =>
      match snd row with
      | Some u => String.eqb (User.id u) x
      | None => false
      end
  end.

(** The query builder writes the condition texts one after the other with
    [AND] between them and no brackets around any of them, and SQL reads
    [AND] before [OR].  So the last alternative of a condition and the first
    alternative of the next one end up in the same conjunction:
    [and_onto alts rest] is the text [alts] followed by [AND] and the text
    read as [rest], as a disjunction of conjunctions. *)
Fixpoint and_onto (alts : list Atom) (rest : list (list Atom))
  : list (list Atom) :=
  match alts with
  | [] => rest
  | [a] =>
      match rest with
      | conjunction :: rest' => (a :: conjunction) :: rest'
      | [] => [[a]]
      end
  | a :: alts' => [a] :: and_onto alts' rest
  end.

(** The [WHERE] expression of the clauses, as the database reads it: a
    disjunction of conjunctions of comparisons. *)
Definition where_expression (clauses : list Cond) : list (list Atom) :=
  fold_right (fun c rest => and_onto (alternatives c) rest) [] clauses.

(** Whether the [WHERE] expression is true of a joined row; without a
    clause there is no [WHERE] and every row is selected. *)
Definition selected (d : Dialect) (clauses : list Cond)
  (row : Task.t * option User.t) : bool :=
  match clauses with
  | [] => true
  | _ :: _ =>
      existsb (forallb (fun a => holds d a row)) (where_expression clauses)
  end.

Definition joined_user (row : Task.t * option User.t) : list User.t :=
  match snd row with
  | Some u => [u]
  | None => []
  end.

(** The entity built from the selected rows of one task: the task with the
    assignees of those rows, or nothing when no row is selected. *)
Definition hydrate (d : Dialect) (clauses : list Cond) (t : Task.t)
  : list Task.t :=
  match filter (selected d clauses) (joined t) with
  | [] => []
  | rows => [Task.with_assignees (flat_map joined_user rows) t]
  end.

Definition entities (d : Dialect) (clauses : list Cond)
  (table : list Task.t) : list Task.t :=
  flat_map (hydrate d clauses) table.

(** The comparison [ORDER BY field order] sorts with. *)
Definition order_leb (d : Dialect) (f : SortField) (o : Order)
  (a b : Task.t) : bool :=
  match f, o with
  | task_title, ASC => text_leb d (Task.title a) (Task.title b)
  | task_title, DESC => text_leb d (Task.title b) (Task.title a)
  | task_createdAt, ASC => (Task.createdAt a <=? Task.createdAt b)%Z
  | task_createdAt, DESC => (Task.createdAt b <=? Task.createdAt a)%Z
  end.

Fixpoint insert_by {A : Type} (leb : A -> A -> bool) (x : A) (l : list A)
  : list A :=
  match l with
  | [] => [x]
  | y :: l' => if leb x y then x :: l else y :: insert_by leb x l'
  end.

(** A stable sort; SQL leaves the order of ties open, the model keeps them
    in table order. *)
Definition sort_by {A : Type} (leb : A -> A -> bool) (l : list A) : list A :=
  fold_right (insert_by leb) [] l.

Definition ordered (d : Dialect) (by_ : option (SortField * Order))
  (l : list Task.t) : list Task.t :=
  match by_ with
  | Some (f, o) => sort_by (order_leb d f o) l
  | None => l
  end.

(** [OFFSET off LIMIT lim] on the sorted entities; a zero [take] leaves the
    statement without a limit. *)
Definition paginate {A : Type} (off lim : nat) (l : list A) : list A :=
  let rest := skipn off l in
  if Nat.eqb lim 0 then rest else firstn lim rest.

(** [getManyAndCount]: the page of entities and the number of entities the
    clauses select, whatever the page.  A negative offset or limit is an
    error on a database that rejects it ([None]: the call throws); one that
    accepts it reads a negative [OFFSET] as zero and a negative [LIMIT] as
    no limit, which is what [Z.to_nat] and [paginate] make of them. *)
Definition getManyAndCount (d : Dialect) (qb : QueryBuilder)
  (table : list Task.t) : option (list Task.t * Z) :=
  let offset := or_default 0%Z (qb_skip qb) in
  let limit := or_default 0%Z (qb_take qb) in
  if ((offset <? 0)%Z || (limit <? 0)%Z) && rejects_negative_window d
  then None
  else
    let found :=
      ordered d (qb_orderBy qb) (entities d (qb_where qb) table) in
    Some (paginate (Z.to_nat offset) (Z.to_nat limit) found,
          Z.of_nat (length found)).

(* --------------------------------------------------------------------- *)
(** *** The [list] handler *)

(** Arithmetic on JavaScript numbers that may be [NaN]. *)
Definition js_sub (a b : option Z) : option Z :=
  match a, b with
  | Some x, Some y => Some (x - y)%Z
  | _, _ => None
  end.

Definition js_mul (a b : option Z) : option Z :=
  match a, b with
  | Some x, Some y => Some (x * y)%Z
  | _, _ => None
  end.

Definition js_ceil_div (total : Z) (b : option Z) : option Z :=
  match b with
  | Some y => math_ceil_div total y
  | None => None
  end.

(** [Array.isArray(status) ? status : [status]]. *)
Definition statusArray (v : QueryValue) : list string :=
  match v with
  | QString s => [s]
  | QArray x xs => x :: xs
  end.

Definition page_json (tasks : list Task.t) (pageNum limitNum : option Z)
  (total : Z) : Response :=
  {| code := 200;
     payload := TaskPageJson tasks
                  {| pg_page := pageNum;
                     pg_limit := limitNum;
                     pg_total := total;
                     pg_totalPages := js_ceil_div total limitNum |} |}.

(** The [try] block of [list]; [None] when a call inside it throws. *)
Definition list_try (d : Dialect) (ds : DataSource) (q : Query.t)
  : option Response :=
  let search := or_default "" (Query.search q) in
  let status := Query.status q in
  let assigneeId := Query.assigneeId q in
  let page := or_default "1" (Query.page q) in
  let limit := or_default "10" (Query.limit q) in
  let sortBy := or_default "createdAt" (Query.sortBy q) in
  let sortOrder := or_default "DESC" (Query.sortOrder q) in
  let pageNum := parseInt page in
  let limitNum := parseInt limit in
  let offset := js_mul (js_sub pageNum (Some 1%Z)) limitNum in
  if truthy_string search then
    let searchTerm := ("%" ++ search ++ "%")%string in
    let queryBuilder :=
      where_ (TitleOrDescriptionLike searchTerm) createQueryBuilder in
    let queryBuilder :=
      match status with
      | Some st => if truthy_query st
                   then andWhere (StatusIn (statusArray st)) queryBuilder
                   else queryBuilder
      | None => queryBuilder
      end in
    let queryBuilder :=
      match assigneeId with
      | Some a => if truthy_string a
                  then andWhere (AssigneeIdIs a) queryBuilder
                  else queryBuilder
      | None => queryBuilder
      end in
    let order := if String.eqb sortOrder "ASC" then ASC else DESC in
    let sortField :=
      if String.eqb sortBy "title" then task_title else task_createdAt in
    let queryBuilder := orderBy sortField order queryBuilder in
    match skip offset queryBuilder with
    | None => None
    | Some queryBuilder =>
        match take limitNum queryBuilder with
        | None => None
        | Some queryBuilder =>
            match getManyAndCount d queryBuilder (taskRepository ds) with
            | None => None
            | Some (tasks, total) =>
                Some (page_json tasks pageNum limitNum total)
            end
        end
    end
  else
    let where' : option Cond :=
      match status with
      | Some st => if truthy_query st
                   then Some (StatusIn (statusArray st))
                   else None
      | None => None
      end in
    let queryBuilder := createQueryBuilder in
    let queryBuilder :=
      match where' with
      | Some c => where_ c queryBuilder
      | None => queryBuilder
      end in
    let queryBuilder :=
      match assigneeId with
      | Some a => if truthy_string a
                  then andWhere (AssigneeIdIs a) queryBuilder
                  else queryBuilder
      | None => queryBuilder
      end in
    let order := if String.eqb sortOrder "ASC" then ASC else DESC in
    let sortField :=
      if String.eqb sortBy "title" then task_title else task_createdAt in
    let queryBuilder := orderBy sortField order queryBuilder in
    match skip offset queryBuilder with
    | None => None
    | Some queryBuilder =>
        match take limitNum queryBuilder with
        | None => None
        | Some queryBuilder =>
            match getManyAndCount d queryBuilder (taskRepository ds) with
            | None => None
            | Some (tasks, total) =>
                Some (page_json tasks pageNum limitNum total)
            end
        end
    end.

(** [list]: the [try] block, or the 500 answer of its [catch]. *)
Definition listTasks (d : Dialect) (ds : DataSource) (q : Query.t)
  : Response :=
  match list_try d ds q with
  | Some r => r
  | None => {| code := 500; payload := Message "Failed to fetch tasks" |}
  end.

(* ===================================================================== *)
(** ** The filter of the specification *)
(* ===================================================================== *)

(** The filters of the specification's query contract, read on one stored
    task: the search text occurs (for the dialect's [LIKE]) in the title or
    the description, the status is one of the given ones, the given user is
    among the assignees. *)
Definition title_matches (d : Dialect) (s : string) (t : Task.t) : bool :=
  like d ("%" ++ s ++ "%")%string (Task.title t).

Definition description_matches (d : Dialect) (s : string) (t : Task.t)
  : bool :=
  match Task.description t with
  | Some x => like d ("%" ++ s ++ "%")%string x
  | None => false
  end.

Definition search_matches (d : Dialect) (s : string) (t : Task.t) : bool :=
  title_matches d s t || description_matches d s t.

Definition status_matches (v : QueryValue) (t : Task.t) : bool :=
  includes (statusArray v) (status_name (Task.status t)).

Definition assigned_to (a : string) (t : Task.t) : bool :=
  existsb (fun u => String.eqb (User.id u) a) (Task.assignees t).

(** All present filters at once; an absent or empty parameter filters
    nothing. *)
Definition matches_filters (d : Dialect) (q : Query.t) (t : Task.t) : bool :=
  match Query.search q with
  | Some s => if truthy_string s then search_matches d s t else true
  | None => true
  end
  && match Query.status q with
     | Some v => if truthy_query v then status_matches v t else true
     | None => true
     end
  && match Query.assigneeId q with
     | Some a => if truthy_string a then assigned_to a t else true
     | None => true
     end.

(** The clauses, sort key and direction a query asks for. *)
Definition clauses_of (q : Query.t) : list Cond :=
  match Query.search q with
  | Some s => if truthy_string s
              then [TitleOrDescriptionLike ("%" ++ s ++ "%")%string]
              else []
  | None => []
  end
  ++ match Query.status q with
     | Some v => if truthy_query v then [StatusIn (statusArray v)] else []
     | None => []
     end
  ++ match Query.assigneeId q with
     | Some a => if truthy_string a then [AssigneeIdIs a] else []
     | None => []
     end.

Definition sort_field_of (q : Query.t) : SortField :=
  match Query.sortBy q with
  | Some x => if String.eqb x "title" then task_title else task_createdAt
  | None => task_createdAt
  end.

Definition sort_order_of (q : Query.t) : Order :=
  match Query.sortOrder q with
  | Some x => if String.eqb x "ASC" then ASC else DESC
  | None => DESC
  end.

(** The query the handler has built when it calls [getManyAndCount], for
    a page number [p] and a page size [l]. *)
Definition built_query (q : Query.t) (p l : Z) : QueryBuilder :=
  {| qb_where := clauses_of q;
     qb_orderBy := Some (sort_field_of q, sort_order_of q);
     qb_skip := Some ((p - 1) * l)%Z;
     qb_take := Some l |}.

(** Ascending or descending order of the creation timestamps. *)
Definition createdAt_in_order (o : Order) (a b : Task.t) : Prop :=
  match o with
  | ASC => (Task.createdAt a <= Task.createdAt b)%Z
  | DESC => (Task.createdAt b <= Task.createdAt a)%Z
  end.

(** The status filter of a query on a task, and its assignee filter on the
    assignee of a joined row. *)
Definition status_part (q : Query.t) (t : Task.t) : bool :=
  match Query.status q with
  | Some v => if truthy_query v then status_matches v t else true
  | None => true
  end.

Definition row_part (q : Query.t) (a : option User.t) : bool :=
  match Query.assigneeId q with
  | Some x =>
      if truthy_string x
      then match a with
           | Some u => String.eqb (User.id u) x
           | None => false
           end
      else true
  | None => true
  end.

(** The assignee filter of a query on a task. *)
Definition assignee_part (q : Query.t) (t : Task.t) : bool :=
  match Query.assigneeId q with
  | Some a => if truthy_string a then assigned_to a t else true
  | None => true
  end.

(** What the [WHERE] expression of a query comes to on a joined row: with a
    search, the title matches, or else the description matches and the
    status and assignee filters hold; without one, the status and assignee
    filters hold ([selected_clauses] below proves it of [selected]). *)
Definition where_selects (d : Dialect) (q : Query.t)
  (row : Task.t * option User.t) : bool :=
  let filters := status_part q (fst row) && row_part q (snd row) in
  match Query.search q with
  | Some s =>
      if truthy_string s
      then title_matches d s (fst row)
           || (description_matches d s (fst row) && filters)
      else filters
  | None => filters
  end.

(** A task some joined row of which is selected, the assignees of its
    selected rows, and the entity the answer holds for it. *)
Definition task_selected (d : Dialect) (q : Query.t) (t : Task.t) : bool :=
  existsb (where_selects d q) (joined t).

Definition kept_assignees (d : Dialect) (q : Query.t) (t : Task.t)
  : list User.t :=
  filter (fun u => where_selects d q (t, Some u)) (Task.assignees t).

Definition returned (d : Dialect) (q : Query.t) (t : Task.t) : Task.t :=
  Task.with_assignees (kept_assignees d q t) t.

(** A query that searches and filters at once, and one that does not. *)
Definition searches (q : Query.t) : bool :=
  match Query.search q with
  | Some s => truthy_string s
  | None => false
  end.

Definition filters_more (q : Query.t) : bool :=
  match Query.status q with
  | Some v => truthy_query v
  | None => false
  end
  || match Query.assigneeId q with
     | Some a => truthy_string a
     | None => false
     end.

(** The entity a permitted [update] saves: the stored task with the fields
    of the body written over it. *)
Definition updated_task (req : Request) (s : HState) (task : Task.t)
  : Task.t :=
  let body := req_body req in
  Task.mk (Task.id task)
          (or_default (Task.title task) (UpdateTaskDto.title body))
          (match UpdateTaskDto.description body with
           | Some x => Some x
           | None => Task.description task
           end)
          (or_default (Task.status task) (UpdateTaskDto.status body))
          (Task.owner task)
          (match UpdateTaskDto.assigneeIds body with
           | Some (i :: ids) =>
               filter (fun u => includes (i :: ids) (User.id u))
                      (userRepository (source s))
           | Some [] | None => []
           end)
          (Task.createdAt task).

(** The user lookup a permitted [update] makes, if any. *)
Definition user_lookups (req : Request) : list Event :=
  match UpdateTaskDto.assigneeIds (req_body req) with
  | Some (i :: ids) => [FindUsersBy (i :: ids)]
  | Some [] | None => []
  end.

(** The sorted sequence of all entities a query selects, before slicing. *)
Definition sorted_matches (d : Dialect) (ds : DataSource) (q : Query.t)
  : list Task.t :=
  sort_by (order_leb d (sort_field_of q) (sort_order_of q))
          (entities d (clauses_of q) (taskRepository ds)).

(* ===================================================================== *)
(** ** A concrete dialect and sample data for the closed examples *)
(* ===================================================================== *)

(** Case-sensitive [LIKE] with the wildcards [%] (any run of characters)
    and [_] (any one character). *)
Fixpoint like_chars (p s : string) : bool :=
  match p with
  | EmptyString =>
      match s with
      | EmptyString => true
      | String _ _ => false
      end
  | String c p' =>
      if Ascii.eqb c "%"
      then (fix any (s : string) : bool :=
              like_chars p' s
              || match s with
                 | String _ s' => any s'
                 | EmptyString => false
                 end) s
      else match s with
           | String x s' =>
               (Ascii.eqb c "_" || Ascii.eqb c x) && like_chars p' s'
           | EmptyString => false
           end
  end.

(** A database with a case-sensitive [LIKE], the order of the character
    codes, and an error for a negative offset or limit (as PostgreSQL with
    the [C] collation). *)
Definition binary_dialect : Dialect :=
  {| like := like_chars;
     text_leb := String.leb;
     rejects_negative_window := true |}.

(** The same on a database that accepts a negative offset or limit (as
    SQLite does). *)
Definition lenient_dialect : Dialect :=
  {| like := like_chars;
     text_leb := String.leb;
     rejects_negative_window := false |}.

(** A text without wildcard characters. *)
Fixpoint literal (s : string) : bool :=
  match s with
  | EmptyString => true
  | String c s' => negb (Ascii.eqb c "%" || Ascii.eqb c "_") && literal s'
  end.

Definition alice : User.t := User.mk "u-alice" "alice@example.com".
Definition bob : User.t := User.mk "u-bob" "bob@example.com".
Definition carol : User.t := User.mk "u-carol" "carol@example.com".

Definition actor (u : User.t) (rs : list string) : AuthTokenPayload :=
  {| userId := User.id u; roles := rs |}.

Definition bobs_task : Task.t :=
  Task.mk "t-1" "A" (Some "B") todo bob [carol] 100.

Definition alices_task : Task.t :=
  Task.mk "t-2" "foo bar" None done alice [bob; carol] 200.

Definition carols_task : Task.t :=
  Task.mk "t-3" "report" (Some "about foo") in_progress carol [bob] 300.

Definition sample_source : DataSource :=
  {| taskRepository := [bobs_task; alices_task; carols_task];
     userRepository := [alice; bob; carol] |}.

Definition no_patch : UpdateTaskDto.t := UpdateTaskDto.mk None None None None.

(** Alice, with role [user] only, renames Bob's task. *)
Definition rename_by_stranger : Request :=
  {| req_user := Some (actor alice ["user"]);
     req_params_id := "t-1";
     req_body := UpdateTaskDto.mk (Some "X") None None None |}.

(** An admin sets the status of Bob's task and sends nothing else. *)
Definition status_only : Request :=
  {| req_user := Some (actor alice ["admin"]);
     req_params_id := "t-1";
     req_body := UpdateTaskDto.mk None None (Some done) None |}.

Definition anonymous_request : Request :=
  {| req_user := None; req_params_id := "t-1"; req_body := no_patch |}.

Definition request_for_unknown : Request :=
  {| req_user := Some (actor alice ["admin"]);
     req_params_id := "t-9";
     req_body := no_patch |}.

(** The sample query of the specification: assignee Bob and search [foo]. *)
Definition foo_for_bob : Query.t :=
  Query.mk (Some "foo") None (Some "u-bob") None None None None.

(** A search with a status filter, and a search with an assignee filter no
    task that mentions [foo] passes. *)
Definition foo_and_todo : Query.t :=
  Query.mk (Some "foo") (Some (QString "todo")) None None None None None.

Definition foo_for_alice : Query.t :=
  Query.mk (Some "foo") None (Some "u-alice") None None None None.

(** Two statuses and an assignee, without a search. *)
Definition open_or_done_for_bob : Query.t :=
  Query.mk None (Some (QArray "todo" ["done"])) (Some "u-bob")
           None None None None.

(** The third and the fourth page of ten over twenty-five stored tasks. *)
Definition third_page : Query.t :=
  Query.mk None None None (Some "3") (Some "10") None None.

Definition fourth_page : Query.t :=
  Query.mk None None None (Some "4") None None None.

(** A page number of zero: the offset is negative. *)
Definition page_zero : Query.t :=
  Query.mk None None None (Some "0") None None None.

(** A request with a sort key and a direction the handler does not know. *)
Definition odd_sort : Query.t :=
  Query.mk None None None None None (Some "priority") (Some "sideways").

(** Twenty-five tasks created one after the other. *)
Definition numbered_task (n : nat) : Task.t :=
  Task.mk (String (ascii_of_nat (65 + n)) "") "task" None todo alice []
          (Z.of_nat n).

Definition twenty_five : DataSource :=
  {| taskRepository := map numbered_task (seq 0 25);
     userRepository := [alice] |}.

(* ===================================================================== *)
(** ** [create] *)
(* ===================================================================== *)

(** The body of [POST /tasks] as [CreateTaskDto] declares it: the title is
    required, the other fields are optional. *)
Module CreateTaskDto.
Record t : Type := mk {
  title : string;
  description : option string;
  status : option Status;
  assigneeIds : option (list string)
}.
End CreateTaskDto.

(** What [create] reads of the request: [req.user] and [req.body]. *)
Record CreateRequest : Type := {
  creq_user : option AuthTokenPayload;
  creq_body : CreateTaskDto.t
}.

(** What the persistence layer generates for a row it inserts: the primary
    key and the creation timestamp. *)
Record Generated : Type := {
  gen_id : string;
  gen_createdAt : Z
}.

(** [userRepository.findOne({ where: { id } })], recorded in the trace as a
    lookup of that one id. *)
Definition findOneUser (id : string) : Handler (option User.t) :=
  fun s => (inr (find (fun u => String.eqb (User.id u) id)
                      (userRepository (source s))),
            emit (FindUsersBy [id]) s).

(** [create], the body of its [try] block; [g] is what the persistence
    layer generates when [save] inserts the new entity. *)
Definition create (g : Generated) (req : CreateRequest) : Handler Response :=
  let title := CreateTaskDto.title (creq_body req) in
  let description := CreateTaskDto.description (creq_body req) in
  let status := or_default todo (CreateTaskDto.status (creq_body req)) in
  let assigneeIds :=
    or_default [] (CreateTaskDto.assigneeIds (creq_body req)) in
  let ownerId := option_map userId (creq_user req) in
  match ownerId with
  | None => respond 401 (Message "Unauthorized")
  | Some ownerId =>
      if negb (truthy_string ownerId)
      then respond 401 (Message "Unauthorized")
      else
        found <- findOneUser ownerId ;;
        match found with
        | None => respond 404 (Message "Owner not found")
        | Some owner =>
            assignees <- (if negb (Nat.eqb (length assigneeIds) 0)
                          then findBy assigneeIds
                          else ret []) ;;
            let task :=
              Task.mk (gen_id g) title description status owner assignees
                      (gen_createdAt g) in
            saved <- save task ;;
            respond 201 (TaskJson saved)
        end
  end.

(** The stored tasks and their primary keys. *)
Definition table_of (s : HState) : list Task.t := taskRepository (source s).

Definition task_ids (rows : list Task.t) : list string := map Task.id rows.

(** What [update] may change of a row: nothing of a row it does not address,
    and neither the key, the owner nor the creation time of the one it
    does. *)
Definition update_frame (taskId : string) (before after : Task.t) : Prop :=
  Task.id after = Task.id before /\
  Task.owner after = Task.owner before /\
  Task.createdAt after = Task.createdAt before /\
  (Task.id before <> taskId -> after = before).

(** A manager who creates a task for Bob and Carol. *)
Definition create_by_manager : CreateRequest :=
  {| creq_user := Some {| userId := "u-alice"; roles := ["manager"] |};
     creq_body := CreateTaskDto.mk "new" None None (Some ["u-bob"; "u-carol"; "u-nobody"]) |}.

Definition fresh_row : Generated := {| gen_id := "t-4"; gen_createdAt := 400 |}.

(** An admin removes Bob's task. *)
Definition removal_by_admin : Request :=
  {| req_user := Some {| userId := "u-alice"; roles := ["admin"] |};
     req_params_id := "t-1";
     req_body := UpdateTaskDto.mk None None None None |}.

(** The entity [create] saves once the owner is found. *)
Definition created_task (g : Generated) (req : CreateRequest) (s : HState)
  (owner : User.t) : Task.t :=
  Task.mk (gen_id g)
          (CreateTaskDto.title (creq_body req))
          (CreateTaskDto.description (creq_body req))
          (or_default todo (CreateTaskDto.status (creq_body req)))
          owner
          (match CreateTaskDto.assigneeIds (creq_body req) with
           | Some (i :: ids) =>
               filter (fun u => includes (i :: ids) (User.id u))
                      (userRepository (source s))
           | Some [] | None => []
           end)
          (gen_createdAt g).

Definition has_user_id (id : string) (u : User.t) : bool :=
  String.eqb (User.id u) id.

(* ===================================================================== *)
(** ** More on [list]: explicit defaults, page numbers, response bodies *)
(* ===================================================================== *)

(** [Number.prototype.toString] of an integer: decimal digits, a minus sign
    for a negative one (exact where JavaScript prints an integer in plain
    digits). *)
Definition number_toString (z : Z) : string :=
  DecimalString.NilZero.string_of_int (Z.to_int z).

(** A query with another page parameter. *)
Definition query_with_page (x : option string) (q : Query.t) : Query.t :=
  Query.mk (Query.search q) (Query.status q) (Query.assigneeId q) x
           (Query.limit q) (Query.sortBy q) (Query.sortOrder q).

(** The query with every default written out. *)
Definition explicit_defaults (q : Query.t) : Query.t :=
  Query.mk (Query.search q) (Query.status q) (Query.assigneeId q)
           (Some (or_default "1" (Query.page q)))
           (Some (or_default "10" (Query.limit q)))
           (Some (or_default "createdAt" (Query.sortBy q)))
           (Some (or_default "DESC" (Query.sortOrder q))).

(** The query without its empty filter parameters. *)
Definition without_empty_filters (q : Query.t) : Query.t :=
  Query.mk (match Query.search q with
            | Some s => if truthy_string s then Some s else None
            | None => None
            end)
           (match Query.status q with
            | Some v => if truthy_query v then Some v else None
            | None => None
            end)
           (match Query.assigneeId q with
            | Some a => if truthy_string a then Some a else None
            | None => None
            end)
           (Query.page q) (Query.limit q) (Query.sortBy q)
           (Query.sortOrder q).

(** The [tasks] array of a response body, empty for any other body. *)
Definition response_tasks (r : Response) : list Task.t :=
  match payload r with
  | TaskPageJson tasks _ => tasks
  | _ => []
  end.

Definition failed_to_fetch : Response :=
  {| code := 500; payload := Message "Failed to fetch tasks" |}.

(** The order [ORDER BY task.title] leaves the titles in. *)
Definition title_in_order (d : Dialect) (o : Order) (a b : Task.t) : Prop :=
  match o with
  | ASC => text_leb d (Task.title a) (Task.title b) = true
  | DESC => text_leb d (Task.title b) (Task.title a) = true
  end.

(** A collation that compares any two texts and does so transitively. *)
Definition total_preorder (leb : string -> string -> bool) : Prop :=
  (forall a b, leb a b = true \/ leb b a = true) /\
  (forall a b c, leb a b = true -> leb b c = true -> leb a c = true).

(** The order a query asks for, on two tasks of its answer. *)
Definition in_order (d : Dialect) (q : Query.t) (a b : Task.t) : Prop :=
  match sort_field_of q with
  | task_title => title_in_order d (sort_order_of q) a b
  | task_createdAt => createdAt_in_order (sort_order_of q) a b
  end.

(** A query the database can sort: timestamps always, titles with a
    collation that is a total preorder. *)
Definition sortable (d : Dialect) (q : Query.t) : Prop :=
  sort_field_of q = task_title -> total_preorder (text_leb d).

(** Sample queries: Bob's tasks, tasks by title, a page that is no
    number. *)
Definition assigned_to_bob : Query.t :=
  Query.mk None None (Some "u-bob") None None None None.

Definition by_title : Query.t :=
  Query.mk None None None None None (Some "title") (Some "ASC").

Definition page_abc : Query.t :=
  Query.mk None None None (Some "abc") None None None.

Definition pages_of_ten : Query.t :=
  Query.mk None None None None (Some "10") None None.

(* ===================================================================== *)
(** ** The frontend: [TaskList] *)
(* ===================================================================== *)

(** Modelled from the spec: the signed-in user of the [useAuth] hook
    ([hooks/useAuth] and [types/auth] are not among the sources): the
    actor's identity and role names, as the component reads them
    ([user?.id], [user?.roles]). *)
Record SessionUser : Type := {
  su_id : string;
  su_roles : option (list string)
}.

Module TaskList.

Definition colors : list string :=
  ["#FF6B6B"; "#4ECDC4"; "#45B7D1"; "#FFA07A";
   "#98D8C8"; "#F7DC6F"; "#BB8FCE"; "#85C1E2"].

(** [id.split('').reduce((acc, char) => acc + char.charCodeAt(0), 0)]. *)
Definition char_code_sum (id : string) : nat :=
  fold_left (fun acc char => acc + nat_of_ascii char)
            (list_ascii_of_string id) 0.

(** [getAvatarColor]: [colors[index % colors.length]], [None] standing for
    [undefined]. *)
Definition getAvatarColor (id : string) : option string :=
  let index := char_code_sum id in
  nth_error colors (index mod length colors).

(** [hasRole(roles, role)]: [!!roles && roles.includes(role)]. *)
Definition hasRole (roles : option (list string)) (role : string) : bool :=
  match roles with
  | Some rs => includes rs role
  | None => false
  end.

Definition roles_of (user : option SessionUser) : option (list string) :=
  match user with
  | Some u => su_roles u
  | None => None
  end.

(** [task.owner.id === user?.id]. *)
Definition isOwnedByCurrentUser (user : option SessionUser) (task : Task.t)
  : bool :=
  match user with
  | Some u => String.eqb (User.id (Task.owner task)) (su_id u)
  | None => false
  end.

(** [task.assignees.some((assignee) => assignee.id === user?.id)]. *)
Definition isAssignedToCurrentUser (user : option SessionUser)
  (task : Task.t) : bool :=
  match user with
  | Some u =>
      existsb (fun assignee => String.eqb (User.id assignee) (su_id u))
              (Task.assignees task)
  | None => false
  end.

Definition signed_in (user : option SessionUser) : bool :=
  match user with
  | Some _ => true
  | None => false
  end.

Definition canEdit (user : option SessionUser) (task : Task.t) : bool :=
  let isAdmin := hasRole (roles_of user) "admin" in
  let isManager := hasRole (roles_of user) "manager" in
  signed_in user
  && (isAdmin || isManager || isOwnedByCurrentUser user task).

Definition canDelete (user : option SessionUser) (task : Task.t) : bool :=
  let isAdmin := hasRole (roles_of user) "admin" in
  let isManager := hasRole (roles_of user) "manager" in
  signed_in user
  && (isAdmin
      || (isOwnedByCurrentUser user task && (isManager || negb isManager))).

End TaskList.

(** The session of an actor: the same id and the same role names as in the
    token the backend reads. *)
Definition session_of (a : AuthTokenPayload) : SessionUser :=
  {| su_id := userId a; su_roles := Some (roles a) |}.

(* ===================================================================== *)
(** ** The frontend: [TasksPage] *)
(* ===================================================================== *)

(** [URLSearchParams]: the name/value pairs in their order. *)
Module URLSearchParams.

Definition t : Type := list (string * string).

Definition named (name : string) (p : string * string) : bool :=
  String.eqb (fst p) name.

(** [get]: the first value of the name, [None] standing for [null]. *)
Definition get (name : string) (ps : t) : option string :=
  option_map snd (find (named name) ps).

Definition getAll (name : string) (ps : t) : list string :=
  map snd (filter (named name) ps).

Definition delete (name : string) (ps : t) : t :=
  filter (fun p => negb (named name p)) ps.

Definition append (name value : string) (ps : t) : t := ps ++ [(name, value)].

(** [set]: the first pair of the name gets the value and the other pairs
    of the name go; without such a pair, one is appended. *)
Fixpoint set (name value : string) (ps : t) : t :=
  match ps with
  | [] => [(name, value)]
  | p :: ps' =>
      if named name p then (name, value) :: delete name ps'
      else p :: set name value ps'
  end.

End URLSearchParams.

(** The status filter of the page: an array of status names, or one name
    (the case [updateFilters] wraps into an array). *)
Inductive StatusFilter : Type :=
| OneStatus (s : string)
| Statuses (l : list string).

(** The [TaskFilters] type of [api/tasks]: seven fields, all optional.
    [None] is [undefined]; for a number it is [undefined] or [NaN], which
    every reader of the two fields treats alike (both are falsy).  The sort
    fields are strings here, as the page casts whatever the URL holds to
    their union types. *)
Module TaskFilters.
Record t : Type := mk {
  search : option string;
  status : option StatusFilter;
  assigneeId : option string;
  page : option Z;
  limit : option Z;
  sortBy : option string;
  sortOrder : option string
}.

Definition with_status (x : option StatusFilter) (f : t) : t :=
  mk (search f) x (assigneeId f) (page f) (limit f) (sortBy f) (sortOrder f).

Definition with_assigneeId (x : option string) (f : t) : t :=
  mk (search f) (status f) x (page f) (limit f) (sortBy f) (sortOrder f).

Definition with_page (x : option Z) (f : t) : t :=
  mk (search f) (status f) (assigneeId f) x (limit f) (sortBy f) (sortOrder f).

Definition with_limit (x : option Z) (f : t) : t :=
  mk (search f) (status f) (assigneeId f) (page f) x (sortBy f) (sortOrder f).
End TaskFilters.

Module TasksPage.

(** [x || d] on a string that may be [null]. *)
Definition or_string (x : option string) (d : string) : string :=
  match x with
  | Some s => if truthy_string s then s else d
  | None => d
  end.

(** [x || undefined] on a string that may be [null]. *)
Definition or_undefined (x : option string) : option string :=
  match x with
  | Some s => if truthy_string s then Some s else None
  | None => None
  end.

(** The [filters] the page reads from the URL. *)
Definition filters (searchParams : URLSearchParams.t) : TaskFilters.t :=
  let search := or_string (URLSearchParams.get "search" searchParams) "" in
  let status := URLSearchParams.getAll "status" searchParams in
  let assigneeId :=
    or_undefined (URLSearchParams.get "assigneeId" searchParams) in
  let page :=
    parseInt (or_string (URLSearchParams.get "page" searchParams) "1") in
  let limit :=
    parseInt (or_string (URLSearchParams.get "limit" searchParams) "10") in
  let sortBy :=
    or_string (URLSearchParams.get "sortBy" searchParams) "createdAt" in
  let sortOrder :=
    or_string (URLSearchParams.get "sortOrder" searchParams) "DESC" in
  TaskFilters.mk
    (or_undefined (Some search))
    (if Nat.ltb 0 (length status) then Some (Statuses status) else None)
    assigneeId page limit (Some sortBy) (Some sortOrder).

Definition truthy_status (v : StatusFilter) : bool :=
  match v with
  | OneStatus s => truthy_string s
  | Statuses _ => true
  end.

Definition status_array (v : StatusFilter) : list string :=
  match v with
  | OneStatus s => [s]
  | Statuses l => l
  end.

(** A number is truthy unless it is [NaN] or zero. *)
Definition truthy_number (x : option Z) : bool :=
  match x with
  | Some z => negb (Z.eqb z 0)
  | None => false
  end.

(** [updateFilters]: the parameters it hands to [setSearchParams]. *)
Definition updateFilters (newFilters : TaskFilters.t) : URLSearchParams.t :=
  let params : URLSearchParams.t := [] in
  let params :=
    match TaskFilters.search newFilters with
    | Some s => if truthy_string s
                then URLSearchParams.set "search" s params
                else params
    | None => params
    end in
  let params :=
    match TaskFilters.status newFilters with
    | Some v =>
        if truthy_status v
        then fold_left (fun ps s => URLSearchParams.append "status" s ps)
                       (status_array v)
                       (URLSearchParams.delete "status" params)
        else params
    | None => params
    end in
  let params :=
    match TaskFilters.assigneeId newFilters with
    | Some a => if truthy_string a
                then URLSearchParams.set "assigneeId" a params
                else params
    | None => params
    end in
  let params :=
    match TaskFilters.page newFilters with
    | Some p => if truthy_number (Some p) && (1 <? p)%Z
                then URLSearchParams.set "page" (number_toString p) params
                else params
    | None => params
    end in
  let params :=
    match TaskFilters.limit newFilters with
    | Some l => if truthy_number (Some l) && negb (Z.eqb l 10)
                then URLSearchParams.set "limit" (number_toString l) params
                else params
    | None => params
    end in
  let params :=
    match TaskFilters.sortBy newFilters with
    | Some x => if truthy_string x && negb (String.eqb x "createdAt")
                then URLSearchParams.set "sortBy" x params
                else params
    | None => params
    end in
  let params :=
    match TaskFilters.sortOrder newFilters with
    | Some x => if truthy_string x && negb (String.eqb x "DESC")
                then URLSearchParams.set "sortOrder" x params
                else params
    | None => params
    end in
  params.

(** The selection after a click on one entry: taken out when it was in,
    put at the end when it was not (the body shared by
    [handleStatusToggle] and the form's [handleAssigneeToggle]). *)
Definition toggled (x : string) (selected : list string) : list string :=
  if includes selected x
  then filter (fun s => negb (String.eqb s x)) selected
  else selected ++ [x].

(** [handleStatusToggle]: the new selection and the parameters written to
    the URL. *)
Definition handleStatusToggle (current : TaskFilters.t)
  (selectedStatuses : list string) (status : string)
  : list string * URLSearchParams.t :=
  let newStatuses := toggled status selectedStatuses in
  (newStatuses,
   updateFilters
     (TaskFilters.with_page (Some 1%Z)
        (TaskFilters.with_status
           (if Nat.ltb 0 (length newStatuses)
            then Some (Statuses newStatuses)
            else None)
           current))).

(** [handleAssigneeChange]: the parameters written to the URL. *)
Definition handleAssigneeChange (current : TaskFilters.t)
  (assigneeId : string) : URLSearchParams.t :=
  updateFilters
    (TaskFilters.with_page (Some 1%Z)
       (TaskFilters.with_assigneeId (or_undefined (Some assigneeId)) current)).

(** A number of the response body in arithmetic: [null] counts as 0. *)
Definition number_of (x : option Z) : Z := or_default 0%Z x.

(** The two bounds of the line [Showing a - b of total tasks]. *)
Definition showing_from (tasks : list Task.t) (pagination : Pagination) : Z :=
  if Nat.ltb 0 (length tasks)
  then ((number_of (pg_page pagination) - 1)
        * number_of (pg_limit pagination) + 1)%Z
  else 0%Z.

Definition showing_to (pagination : Pagination) : Z :=
  Z.min (number_of (pg_page pagination) * number_of (pg_limit pagination))
        (pg_total pagination).

(** The pagination controls: shown when [totalPages > 1]; [Next] is
    disabled when [page >= totalPages] and asks for [page + 1]. *)
Definition controls_shown (pagination : Pagination) : bool :=
  (1 <? number_of (pg_totalPages pagination))%Z.

Definition next_disabled (pagination : Pagination) : bool :=
  (number_of (pg_totalPages pagination) <=? number_of (pg_page pagination))%Z.

Definition next_page (pagination : Pagination) : Z :=
  (number_of (pg_page pagination) + 1)%Z.

End TasksPage.

(** The names a parameter list uses. *)
Definition names (ps : URLSearchParams.t) : list string := map fst ps.

(** One parameter, or none. *)
Definition pair_if (c : bool) (name value : string) : URLSearchParams.t :=
  if c then [(name, value)] else [].

(** The seven segments [updateFilters] writes, in order. *)
Definition seg_search (f : TaskFilters.t) : URLSearchParams.t :=
  match TaskFilters.search f with
  | Some s => pair_if (truthy_string s) "search" s
  | None => []
  end.

Definition seg_status (f : TaskFilters.t) : URLSearchParams.t :=
  match TaskFilters.status f with
  | Some v => if TasksPage.truthy_status v
              then map (fun s => ("status", s)) (TasksPage.status_array v)
              else []
  | None => []
  end.

Definition seg_assigneeId (f : TaskFilters.t) : URLSearchParams.t :=
  match TaskFilters.assigneeId f with
  | Some a => pair_if (truthy_string a) "assigneeId" a
  | None => []
  end.

Definition seg_page (f : TaskFilters.t) : URLSearchParams.t :=
  match TaskFilters.page f with
  | Some p => pair_if (TasksPage.truthy_number (Some p) && (1 <? p)%Z)
                      "page" (number_toString p)
  | None => []
  end.

Definition seg_limit (f : TaskFilters.t) : URLSearchParams.t :=
  match TaskFilters.limit f with
  | Some l => pair_if (TasksPage.truthy_number (Some l) && negb (Z.eqb l 10))
                      "limit" (number_toString l)
  | None => []
  end.

Definition seg_sortBy (f : TaskFilters.t) : URLSearchParams.t :=
  match TaskFilters.sortBy f with
  | Some x => pair_if (truthy_string x && negb (String.eqb x "createdAt"))
                      "sortBy" x
  | None => []
  end.

Definition seg_sortOrder (f : TaskFilters.t) : URLSearchParams.t :=
  match TaskFilters.sortOrder f with
  | Some x => pair_if (truthy_string x && negb (String.eqb x "DESC"))
                      "sortOrder" x
  | None => []
  end.

Definition all_segments (f : TaskFilters.t) : URLSearchParams.t :=
  ((((((seg_search f ++ seg_status f) ++ seg_assigneeId f) ++ seg_page f)
      ++ seg_limit f) ++ seg_sortBy f) ++ seg_sortOrder f).

(** What the page reads back from the parameters [updateFilters] wrote for
    given filters: an empty search or assignee and an empty selection of
    statuses are gone, a page that is not above one is 1, a page size that
    is zero or no number is 10, and an absent or empty sort field or
    direction is [createdAt] or [DESC] ([filters_updateFilters] below). *)
Definition read_back (f : TaskFilters.t) : TaskFilters.t :=
  TaskFilters.mk
    (TasksPage.or_undefined (TaskFilters.search f))
    (match TaskFilters.status f with
     | Some v =>
         if TasksPage.truthy_status v
         then match TasksPage.status_array v with
              | [] => None
              | l => Some (Statuses l)
              end
         else None
     | None => None
     end)
    (TasksPage.or_undefined (TaskFilters.assigneeId f))
    (match TaskFilters.page f with
     | Some p => if (1 <? p)%Z then Some p else Some 1%Z
     | None => Some 1%Z
     end)
    (match TaskFilters.limit f with
     | Some l => if Z.eqb l 0 then Some 10%Z else Some l
     | None => Some 10%Z
     end)
    (Some (TasksPage.or_string (TaskFilters.sortBy f) "createdAt"))
    (Some (TasksPage.or_string (TaskFilters.sortOrder f) "DESC")).

(** Filters the URL keeps as they are: every field but the search, the
    statuses and the assignee is present; no search, assignee or sort
    parameter is empty; the statuses, if any, are a non-empty array; the
    page is at least one and the page size is not zero, both safe
    integers. *)
Definition url_safe (f : TaskFilters.t) : Prop :=
  TaskFilters.search f <> Some "" /\
  (TaskFilters.status f = None \/
   exists x xs, TaskFilters.status f = Some (Statuses (x :: xs))) /\
  TaskFilters.assigneeId f <> Some "" /\
  (exists p, TaskFilters.page f = Some p /\ (1 <= p)%Z /\ safe_integer p) /\
  (exists l, TaskFilters.limit f = Some l /\ l <> 0%Z /\ safe_integer l) /\
  (exists x, TaskFilters.sortBy f = Some x /\ x <> "") /\
  (exists x, TaskFilters.sortOrder f = Some x /\ x <> "").

(** The page size of the filters is a safe integer, if it is a number. *)
Definition safe_limit (f : TaskFilters.t) : Prop :=
  forall l, TaskFilters.limit f = Some l -> safe_integer l.

Definition same_members (l l' : list string) : Prop :=
  forall y, In y l <-> In y l'.

(** Sample filters: the second page of Bob's open tasks by title. *)
Definition bobs_open_tasks : TaskFilters.t :=
  TaskFilters.mk (Some "foo") (Some (Statuses ["todo"; "in_progress"]))
                 (Some "u-bob") (Some 2%Z) (Some 25%Z)
                 (Some "title") (Some "ASC").

(** A URL with a page size of zero, on its third page. *)
Definition limit_zero : URLSearchParams.t :=
  [("limit", "0"); ("page", "3"); ("status", "todo")].

(* ===================================================================== *)
(** ** The frontend: [TaskForm], and the length rules of the task DTOs *)
(* ===================================================================== *)

(** Modelled from the spec: the [TaskInput] object of the form
    ([types/task] is not among the sources): the four fields of the create
    and update bodies. *)
Module TaskInput.
Record t : Type := mk {
  title : string;
  description : option string;
  status : Status;
  assigneeIds : option (list string)
}.
End TaskInput.

Module TaskForm.

Definition defaultTask : TaskInput.t :=
  TaskInput.mk "" (Some "") todo (Some []).

(** [handleAssigneeToggle]: the form with the toggled assignee ids. *)
Definition handleAssigneeToggle (form : TaskInput.t) (userId : string)
  : TaskInput.t :=
  let currentIds := or_default [] (TaskInput.assigneeIds form) in
  let newIds := TasksPage.toggled userId currentIds in
  TaskInput.mk (TaskInput.title form) (TaskInput.description form)
               (TaskInput.status form) (Some newIds).

Fixpoint drop_spaces (l : list ascii) : list ascii :=
  match l with
  | c :: l' => if is_space c then drop_spaces l' else l
  | [] => []
  end.

(** [String.prototype.trim], for ASCII white space. *)
Definition trim (s : string) : string :=
  string_of_list_ascii
    (rev (drop_spaces (rev (drop_spaces (list_ascii_of_string s))))).

(** The [errors] object of [validateForm]: a message per field, if any. *)
Record Errors : Type := {
  err_title : option string;
  err_description : option string
}.

Definition validateForm_errors (form : TaskInput.t) : Errors :=
  {| err_title :=
       if negb (truthy_string (TaskInput.title form))
          || Nat.eqb (String.length (trim (TaskInput.title form))) 0
       then Some "Title is required"
       else if Nat.ltb 200 (String.length (TaskInput.title form))
            then Some "Title must be less than 200 characters"
            else None;
     err_description :=
       match TaskInput.description form with
       | Some x =>
           if truthy_string x && Nat.ltb 2000 (String.length x)
           then Some "Description must be less than 2000 characters"
           else None
       | None => None
       end |}.

(** [validateForm]: whether [Object.keys(errors)] is empty. *)
Definition validateForm (form : TaskInput.t) : bool :=
  match err_title (validateForm_errors form),
        err_description (validateForm_errors form) with
  | None, None => true
  | _, _ => false
  end.

(** [handleSubmit]: what is passed to [onSubmit], if anything. *)
Definition handleSubmit (form : TaskInput.t) : option TaskInput.t :=
  if validateForm form then Some form else None.

End TaskForm.

(** The length decorators of [dto/task.dto.ts], each with its message. *)
Inductive LengthRule : Type :=
| MinLength (n : nat) (message : string)
| MaxLength (n : nat) (message : string).

(** The messages of the rules a text breaks, in the order of the rules. *)
Definition broken (rules : list LengthRule) (text : string) : list string :=
  flat_map (fun r =>
              match r with
              | MinLength n m =>
                  if Nat.ltb (String.length text) n then [m] else []
              | MaxLength n m =>
                  if Nat.ltb n (String.length text) then [m] else []
              end) rules.

Definition CreateTaskDto_title : list LengthRule :=
  [MinLength 1 "Title is required";
   MaxLength 200 "Title must be less than 200 characters"].

Definition UpdateTaskDto_title : list LengthRule :=
  [MinLength 1 "Title cannot be empty";
   MaxLength 200 "Title must be less than 200 characters"].

(** The same rule in both DTOs; it applies when a description is given. *)
Definition TaskDto_description : list LengthRule :=
  [MaxLength 2000 "Description must be less than 2000 characters"].

(* ===================================================================== *)
(** * Theory *)
(* ===================================================================== *)

(** ** Permission evaluator *)

Lemma includes_In (l : list string) (x : string) :
  includes l x = true <-> In x l.
Proof.
  unfold includes. rewrite existsb_exists. split.
  - intros [y [Hy Heq]]. apply String.eqb_eq in Heq. now subst.
  - intros H. exists x. split; [assumption | apply String.eqb_refl].
Qed.

Lemma includes_not_In (l : list string) (x : string) :
  includes l x = false <-> ~ In x l.
Proof.
  rewrite <- includes_In. destruct (includes l x); split; intro H;
    try reflexivity; try discriminate; try (intro; discriminate).
  exfalso. now apply H.
Qed.

Lemma hasRole_In (user : AuthTokenPayload) (r : string) :
  hasRole user r = true <-> In r (roles user).
Proof. apply includes_In. Qed.

Lemma hasRole_not_In (user : AuthTokenPayload) (r : string) :
  hasRole user r = false <-> ~ In r (roles user).
Proof. apply includes_not_In. Qed.

Lemma isOwner_eq (user : AuthTokenPayload) (task : Task.t) :
  isOwner user task = true <-> User.id (Task.owner task) = userId user.
Proof. unfold isOwner. apply String.eqb_eq. Qed.

Lemma isOwner_neq (user : AuthTokenPayload) (task : Task.t) :
  isOwner user task = false <-> User.id (Task.owner task) <> userId user.
Proof. unfold isOwner. apply String.eqb_neq. Qed.

(** Case analysis on role membership, turning the boolean tests of the
    helpers into [In] facts. *)
Ltac role_cases user r :=
  let H := fresh "Hrole" in
  destruct (hasRole user r) eqn:H;
  [ apply hasRole_In in H | apply hasRole_not_In in H ].

(** C1.  For every actor and task, [canEditTask] is true when the role set
    contains [admin] or [manager]; when it contains neither, it is true
    exactly when the task's owner id equals the actor id, and false
    otherwise. *)
Theorem canEditTask_spec (user : AuthTokenPayload) (task : Task.t) :
  (In "admin" (roles user) \/ In "manager" (roles user) ->
     canEditTask user task = true) /\
  (~ In "admin" (roles user) -> ~ In "manager" (roles user) ->
     (canEditTask user task = true <->
        User.id (Task.owner task) = userId user) /\
     (User.id (Task.owner task) <> userId user ->
        canEditTask user task = false)).
Proof.
  unfold canEditTask.
  role_cases user "admin"; role_cases user "manager"; simpl;
    (split; [ intros [H | H]; try reflexivity; contradiction | ]);
    intros Ha Hm; try contradiction.
  split; [apply isOwner_eq | apply isOwner_neq].
Qed.

(** [canEditTask_spec] at an admin, at a manager, and at plain users who
    do and do not own the task. *)
Lemma canEditTask_spec_witness :
  canEditTask (actor alice ["user"; "admin"]) bobs_task = true /\
  canEditTask (actor alice ["manager"]) bobs_task = true /\
  (canEditTask (actor bob ["user"]) bobs_task = true <->
     User.id (Task.owner bobs_task) = userId (actor bob ["user"])) /\
  canEditTask (actor alice ["user"]) bobs_task = false.
Proof.
  assert (Hn : forall u r, r <> "user" -> ~ In r (roles (actor u ["user"]))).
  { intros u r Hr [H | []]. apply Hr. now symmetry. }
  split; [| split; [| split]].
  - apply (proj1 (canEditTask_spec (actor alice ["user"; "admin"]) bobs_task)).
    left. simpl. auto.
  - apply (proj1 (canEditTask_spec (actor alice ["manager"]) bobs_task)).
    right. simpl. auto.
  - refine (proj1 (proj2 (canEditTask_spec (actor bob ["user"]) bobs_task)
                     _ _)); apply Hn; discriminate.
  - refine (proj2 (proj2 (canEditTask_spec (actor alice ["user"]) bobs_task)
                     _ _) _); try (apply Hn; discriminate).
    simpl. discriminate.
Defined.

(** C2.  For every actor and task, [canDeleteTask] is true when the role
    set contains [admin]; otherwise, when it contains [manager] or [user],
    it is true exactly when the task's owner id equals the actor id;
    otherwise it is false. *)
Theorem canDeleteTask_spec (user : AuthTokenPayload) (task : Task.t) :
  (In "admin" (roles user) -> canDeleteTask user task = true) /\
  (~ In "admin" (roles user) ->
     (In "manager" (roles user) \/ In "user" (roles user) ->
        (canDeleteTask user task = true <->
           User.id (Task.owner task) = userId user)) /\
     (~ In "manager" (roles user) -> ~ In "user" (roles user) ->
        canDeleteTask user task = false)).
Proof.
  unfold canDeleteTask.
  role_cases user "admin"; role_cases user "manager";
    role_cases user "user"; simpl;
    (split; [ intros H; try reflexivity; contradiction | ]);
    intros Ha; try contradiction;
    (split; [ intros [H | H]; try contradiction; apply isOwner_eq
            | intros Hm Hu; try contradiction; reflexivity ]).
Qed.

(** [canDeleteTask_spec] at an admin, at a manager who owns the task and
    at one who does not. *)
Lemma canDeleteTask_spec_witness :
  canDeleteTask (actor alice ["admin"]) bobs_task = true /\
  (canDeleteTask (actor bob ["manager"]) bobs_task = true <->
     User.id (Task.owner bobs_task) = userId (actor bob ["manager"])) /\
  canDeleteTask (actor alice []) alices_task = false.
Proof.
  split; [| split].
  - apply (proj1 (canDeleteTask_spec (actor alice ["admin"]) bobs_task)).
    simpl. auto.
  - refine (proj1 (proj2 (canDeleteTask_spec (actor bob ["manager"]) bobs_task)
                     _) _).
    + simpl. intros [H | []]. discriminate.
    + left. simpl. auto.
  - refine (proj2 (proj2 (canDeleteTask_spec (actor alice []) alices_task)
                     _) _ _); simpl; tauto.
Defined.

(** C7.  Whoever may delete a task may edit it; and for an actor who is a
    manager but no admin, a task owned by someone else can be edited and
    cannot be deleted. *)
Theorem canDelete_at_most_canEdit :
  (forall user task,
     canDeleteTask user task = true -> canEditTask user task = true) /\
  (forall user task,
     In "manager" (roles user) -> ~ In "admin" (roles user) ->
     User.id (Task.owner task) <> userId user ->
     canEditTask user task = true /\ canDeleteTask user task = false).
Proof.
  split.
  - intros user task. unfold canDeleteTask, canEditTask.
    destruct (hasRole user "admin"); simpl; [reflexivity |].
    destruct (hasRole user "manager"); simpl; [reflexivity |].
    destruct (hasRole user "user"); [tauto | discriminate].
  - intros user task Hm Ha Ho. unfold canDeleteTask, canEditTask.
    apply hasRole_In in Hm. apply hasRole_not_In in Ha.
    apply isOwner_neq in Ho. rewrite Hm, Ha, Ho. simpl. split; reflexivity.
Qed.

(** Both halves of [canDelete_at_most_canEdit] on the sample data: the
    owner with role [user], and a manager on someone else's task. *)
Lemma canDelete_at_most_canEdit_witness :
  canEditTask (actor bob ["user"]) bobs_task = true /\
  (canEditTask (actor alice ["manager"]) bobs_task = true /\
   canDeleteTask (actor alice ["manager"]) bobs_task = false).
Proof.
  split.
  - apply (proj1 canDelete_at_most_canEdit (actor bob ["user"]) bobs_task).
    reflexivity.
  - apply (proj2 canDelete_at_most_canEdit (actor alice ["manager"]) bobs_task).
    + simpl. auto.
    + simpl. intros [H | []]. discriminate.
    + simpl. discriminate.
Defined.

(** C9.  An actor whose role set contains none of [admin], [manager] and
    [user] may edit every task the actor owns and may delete no task at
    all, an owned one included. *)
Theorem roleless_owner_edits_never_deletes (user : AuthTokenPayload) :
  ~ In "admin" (roles user) ->
  ~ In "manager" (roles user) ->
  ~ In "user" (roles user) ->
  (forall task,
     User.id (Task.owner task) = userId user -> canEditTask user task = true) /\
  (forall task, canDeleteTask user task = false).
Proof.
  intros Ha Hm Hu.
  apply hasRole_not_In in Ha. apply hasRole_not_In in Hm.
  apply hasRole_not_In in Hu.
  split; intros task.
  - intros Ho. apply isOwner_eq in Ho.
    unfold canEditTask. rewrite Ha, Hm, Ho. reflexivity.
  - unfold canDeleteTask. rewrite Ha, Hm, Hu. reflexivity.
Qed.

(** [roleless_owner_edits_never_deletes] at an actor whose only role is
    [guest], on the task that actor owns. *)
Lemma roleless_owner_edits_never_deletes_witness :
  canEditTask (actor bob ["guest"]) bobs_task = true /\
  canDeleteTask (actor bob ["guest"]) bobs_task = false.
Proof.
  assert (Hn : forall r, r <> "guest" -> ~ In r (roles (actor bob ["guest"]))).
  { intros r Hr [H | []]. apply Hr. now symmetry. }
  destruct (roleless_owner_edits_never_deletes (actor bob ["guest"]))
    as [He Hd]; try (apply Hn; discriminate).
  split; [apply He; reflexivity | apply Hd].
Defined.

(* ===================================================================== *)
(** ** The [update] and [remove] handlers, path by path *)
(* ===================================================================== *)

Lemma truthy_string_false (s : string) : truthy_string s = false <-> s = "".
Proof.
  unfold truthy_string. rewrite negb_false_iff. apply String.eqb_eq.
Qed.

Lemma truthy_string_true (s : string) : truthy_string s = true <-> s <> "".
Proof.
  unfold truthy_string. rewrite negb_true_iff. apply String.eqb_neq.
Qed.

(** Unfolds one handler down to its repository calls. *)
Ltac handler_steps :=
  unfold run, update, remove, bind, findOne, findBy, save, remove_task,
    evaluate, respond, ret, unauthorized, id_required, task_not_found;
  cbn beta iota zeta.

Section Paths.
Variable req : Request.
Variable s : HState.

Let taskId : string := req_params_id req.
Let table : list Task.t := taskRepository (source s).

Lemma update_unauthenticated :
  req_user req = None -> run (update req) s = (unauthorized, s).
Proof. intros Hu. handler_steps. rewrite Hu. reflexivity. Qed.

Lemma remove_unauthenticated :
  req_user req = None -> run (remove req) s = (unauthorized, s).
Proof. intros Hu. handler_steps. rewrite Hu. reflexivity. Qed.

Lemma update_without_id (user : AuthTokenPayload) :
  req_user req = Some user -> taskId = "" ->
  run (update req) s = (id_required, s).
Proof.
  intros Hu Hid. apply truthy_string_false in Hid. subst taskId.
  handler_steps. rewrite Hu, Hid. reflexivity.
Qed.

Lemma remove_without_id (user : AuthTokenPayload) :
  req_user req = Some user -> taskId = "" ->
  run (remove req) s = (id_required, s).
Proof.
  intros Hu Hid. apply truthy_string_false in Hid. subst taskId.
  handler_steps. rewrite Hu, Hid. reflexivity.
Qed.

Lemma update_not_found (user : AuthTokenPayload) :
  req_user req = Some user -> taskId <> "" ->
  find (has_id taskId) table = None ->
  run (update req) s = (task_not_found, emit (FindOneTask taskId) s).
Proof.
  intros Hu Hid Hf. apply truthy_string_true in Hid. subst taskId table.
  handler_steps. rewrite Hu, Hid. cbn. rewrite Hf. reflexivity.
Qed.

Lemma remove_not_found (user : AuthTokenPayload) :
  req_user req = Some user -> taskId <> "" ->
  find (has_id taskId) table = None ->
  run (remove req) s = (task_not_found, emit (FindOneTask taskId) s).
Proof.
  intros Hu Hid Hf. apply truthy_string_true in Hid. subst taskId table.
  handler_steps. rewrite Hu, Hid. cbn. rewrite Hf. reflexivity.
Qed.

Lemma update_denied (user : AuthTokenPayload) (task : Task.t) :
  req_user req = Some user -> taskId <> "" ->
  find (has_id taskId) table = Some task ->
  canEditTask user task = false ->
  run (update req) s =
    ({| code := 403;
        payload := Message "You do not have permission to edit this task" |},
     emit (Evaluate Edit false) (emit (FindOneTask taskId) s)).
Proof.
  intros Hu Hid Hf Hc. apply truthy_string_true in Hid. subst taskId table.
  handler_steps. rewrite Hu, Hid. cbn. rewrite Hf, Hc. reflexivity.
Qed.

Lemma remove_denied (user : AuthTokenPayload) (task : Task.t) :
  req_user req = Some user -> taskId <> "" ->
  find (has_id taskId) table = Some task ->
  canDeleteTask user task = false ->
  run (remove req) s =
    ({| code := 403;
        payload := Message "You do not have permission to delete this task" |},
     emit (Evaluate Delete false) (emit (FindOneTask taskId) s)).
Proof.
  intros Hu Hid Hf Hc. apply truthy_string_true in Hid. subst taskId table.
  handler_steps. rewrite Hu, Hid. cbn. rewrite Hf, Hc. reflexivity.
Qed.

Lemma remove_allowed (user : AuthTokenPayload) (task : Task.t) :
  req_user req = Some user -> taskId <> "" ->
  find (has_id taskId) table = Some task ->
  canDeleteTask user task = true ->
  run (remove req) s =
    ({| code := 204; payload := NoBody |},
     {| source :=
          {| taskRepository :=
               filter (fun r => negb (has_id (Task.id task) r)) table;
             userRepository := userRepository (source s) |};
        trace := trace s ++ [FindOneTask taskId] ++ [Evaluate Delete true]
                   ++ [RemoveTask task] |}).
Proof.
  intros Hu Hid Hf Hc. apply truthy_string_true in Hid. subst taskId table.
  handler_steps. rewrite Hu, Hid. cbn. rewrite Hf, Hc. cbn.
  unfold emit. cbn. rewrite <- !app_assoc. reflexivity.
Qed.

Lemma update_allowed (user : AuthTokenPayload) (task : Task.t) :
  req_user req = Some user -> taskId <> "" ->
  find (has_id taskId) table = Some task ->
  canEditTask user task = true ->
  run (update req) s =
    ({| code := 200; payload := TaskJson (updated_task req s task) |},
     {| source :=
          {| taskRepository := upsert (updated_task req s task) table;
             userRepository := userRepository (source s) |};
        trace := trace s ++ [FindOneTask taskId] ++ [Evaluate Edit true]
                   ++ user_lookups req ++ [SaveTask (updated_task req s task)] |}).
Proof.
  intros Hu Hid Hf Hc. apply truthy_string_true in Hid. subst taskId table.
  unfold updated_task, user_lookups.
  handler_steps. rewrite Hu, Hid. cbn. rewrite Hf, Hc. cbn.
  destruct (req_body req) as [ti de st ids]; cbn.
  destruct task as [tid tt td ts to ta tc].
  destruct ti, de, st, ids as [[| i ids] |]; cbn; unfold emit; cbn;
    rewrite <- ?app_assoc; reflexivity.
Qed.

End Paths.

(** The fields of the saved entity, one by one. *)
Lemma updated_task_fields (req : Request) (s : HState) (task : Task.t) :
  Task.id (updated_task req s task) = Task.id task /\
  Task.owner (updated_task req s task) = Task.owner task /\
  Task.createdAt (updated_task req s task) = Task.createdAt task /\
  Task.title (updated_task req s task) =
    or_default (Task.title task) (UpdateTaskDto.title (req_body req)) /\
  Task.status (updated_task req s task) =
    or_default (Task.status task) (UpdateTaskDto.status (req_body req)) /\
  (forall x, UpdateTaskDto.description (req_body req) = Some x ->
     Task.description (updated_task req s task) = Some x) /\
  (UpdateTaskDto.description (req_body req) = None ->
     Task.description (updated_task req s task) = Task.description task) /\
  (forall ids, UpdateTaskDto.assigneeIds (req_body req) = Some ids ->
     forall u, In u (Task.assignees (updated_task req s task)) <->
               In u (userRepository (source s)) /\ In (User.id u) ids) /\
  (UpdateTaskDto.assigneeIds (req_body req) = None ->
     Task.assignees (updated_task req s task) = []).
Proof.
  unfold updated_task. cbn -[includes filter In].
  repeat (split; [reflexivity |]).
  split; [intros x Hx; now rewrite Hx |].
  split; [intros Hx; now rewrite Hx |].
  split; [| intros Hx; now rewrite Hx].
  intros ids Hx u. rewrite Hx. destruct ids as [| i ids]; cbn [In].
  - tauto.
  - rewrite filter_In. cbv beta. rewrite includes_In. reflexivity.
Qed.

(* ===================================================================== *)
(** ** Theorems on [update] and [remove] *)
(* ===================================================================== *)

(** C5.  Whenever [canEditTask] returns false on the actor and the task of
    an [update] request (stated once on the inputs the handler passes to
    it, once on the trace of its call), the response is the 403 permission
    error, the data source is exactly as before, and the handler has
    performed no write (no save appears in its trace). *)
Theorem update_denied_changes_nothing (req : Request) (ds : DataSource) :
  (forall user task,
     req_user req = Some user -> req_params_id req <> "" ->
     find (has_id (req_params_id req)) (taskRepository ds) = Some task ->
     canEditTask user task = false ->
     denied_unchanged req ds) /\
  (In (Evaluate Edit false) (trace (snd (run (update req) (start ds)))) ->
   denied_unchanged req ds).
Proof.
  assert (Hdenied : forall user task,
            req_user req = Some user -> req_params_id req <> "" ->
            find (has_id (req_params_id req)) (taskRepository ds) = Some task ->
            canEditTask user task = false ->
            denied_unchanged req ds).
  { intros user task Hu Hid Hf Hc. unfold denied_unchanged.
    rewrite (update_denied req (start ds) user task Hu Hid Hf Hc).
    cbn. auto. }
  split; [exact Hdenied |].
  destruct (req_user req) as [user |] eqn:Hu.
  2:{ rewrite (update_unauthenticated req (start ds) Hu). intros []. }
  destruct (String.eqb (req_params_id req) "") eqn:Hid.
  { apply String.eqb_eq in Hid.
    rewrite (update_without_id req (start ds) user Hu Hid). intros []. }
  apply String.eqb_neq in Hid.
  destruct (find (has_id (req_params_id req)) (taskRepository ds))
    as [task |] eqn:Hf.
  2:{ rewrite (update_not_found req (start ds) user Hu Hid Hf).
      cbn. intros [H | []]. discriminate. }
  destruct (canEditTask user task) eqn:Hc.
  - rewrite (update_allowed req (start ds) user task Hu Hid Hf Hc).
    cbn. unfold user_lookups.
    destruct (UpdateTaskDto.assigneeIds (req_body req)) as [[| i ids] |];
      cbn; intuition discriminate.
  - intros _. now apply (Hdenied user task).
Qed.

(** [update_denied_changes_nothing] when Alice, a plain user, tries to
    rename Bob's task. *)
Lemma update_denied_changes_nothing_witness :
  canEditTask (actor alice ["user"]) bobs_task = false /\
  fst (run (update rename_by_stranger) (start sample_source)) =
    {| code := 403;
       payload := Message "You do not have permission to edit this task" |} /\
  source (snd (run (update rename_by_stranger) (start sample_source))) =
    sample_source /\
  forallb (fun e => negb (mutation e))
          (trace (snd (run (update rename_by_stranger) (start sample_source))))
    = true.
Proof.
  split; [reflexivity |].
  apply (proj1 (update_denied_changes_nothing rename_by_stranger sample_source)
           (actor alice ["user"]) bobs_task);
    [reflexivity | discriminate | reflexivity | reflexivity].
Defined.

(** C8.  For [update] and for [remove], on every request the router hands
    them: without an actor the response is 401 and the handler has done
    nothing at all (no lookup, no call of the permission evaluator, no
    write); with an actor and no task of the referenced id the response is
    404 after the single lookup, with the data source untouched and no
    write attempted; and the permission evaluator is called only after
    both checks have passed. *)
Theorem update_remove_checks_in_order :
  checks_in_order update /\ checks_in_order remove.
Proof.
  split; intros req ds Hid; unfold routed in Hid;
    (split; [ intros Hu;
              first [ apply (update_unauthenticated req (start ds) Hu)
                    | apply (remove_unauthenticated req (start ds) Hu) ] |]);
    (split; [ intros Hu Hf; destruct (req_user req) as [user |] eqn:Hu';
              [| contradiction];
              first [ apply (update_not_found req (start ds) user Hu' Hid Hf)
                    | apply (remove_not_found req (start ds) user Hu' Hid Hf) ] |]).
  - destruct (req_user req) as [user |] eqn:Hu.
    2:{ rewrite (update_unauthenticated req (start ds) Hu). discriminate. }
    destruct (find (has_id (req_params_id req)) (taskRepository ds))
      as [task |] eqn:Hf.
    2:{ rewrite (update_not_found req (start ds) user Hu Hid Hf).
        discriminate. }
    intros _. split; discriminate.
  - destruct (req_user req) as [user |] eqn:Hu.
    2:{ rewrite (remove_unauthenticated req (start ds) Hu). discriminate. }
    destruct (find (has_id (req_params_id req)) (taskRepository ds))
      as [task |] eqn:Hf.
    2:{ rewrite (remove_not_found req (start ds) user Hu Hid Hf).
        discriminate. }
    intros _. split; discriminate.
Qed.

(** [update_remove_checks_in_order] on the sample data: an anonymous
    update, an update and a removal of a task that does not exist, and an
    update that reaches the permission evaluator. *)
Lemma update_remove_checks_in_order_witness :
  run (update anonymous_request) (start sample_source) =
    (unauthorized, start sample_source) /\
  run (update request_for_unknown) (start sample_source) =
    (task_not_found,
     {| source := sample_source; trace := [FindOneTask "t-9"] |}) /\
  run (remove request_for_unknown) (start sample_source) =
    (task_not_found,
     {| source := sample_source; trace := [FindOneTask "t-9"] |}) /\
  (req_user rename_by_stranger <> None /\
   find (has_id (req_params_id rename_by_stranger))
        (taskRepository sample_source) <> None).
Proof.
  destruct update_remove_checks_in_order as [Hupd Hrem].
  assert (Hrouted : routed request_for_unknown) by discriminate.
  split; [| split; [| split]].
  - apply (proj1 (Hupd anonymous_request sample_source ltac:(discriminate))).
    reflexivity.
  - apply (proj1 (proj2 (Hupd request_for_unknown sample_source Hrouted)));
      [discriminate | reflexivity].
  - apply (proj1 (proj2 (Hrem request_for_unknown sample_source Hrouted)));
      [discriminate | reflexivity].
  - apply (proj2 (proj2 (Hupd rename_by_stranger sample_source
                           ltac:(discriminate)))).
    reflexivity.
Defined.

Lemma find_upsert (t : Task.t) (rows : list Task.t) :
  find (has_id (Task.id t)) (upsert t rows) = Some t.
Proof.
  assert (Hself : has_id (Task.id t) t = true) by apply String.eqb_refl.
  induction rows as [| r rows IH]; cbn.
  - now rewrite Hself.
  - destruct (has_id (Task.id t) r) eqn:Hr; cbn.
    + now rewrite Hself.
    + now rewrite Hr.
Qed.

(** What a permitted [update] does to the assignees when the body does not
    mention them: whatever the stored task had, the saved task, which is
    also the one the table holds afterwards, has none. *)
Lemma update_absent_assigneeIds (req : Request) (s : HState)
  (user : AuthTokenPayload) (task : Task.t) :
  req_user req = Some user -> req_params_id req <> "" ->
  find (has_id (req_params_id req)) (taskRepository (source s)) = Some task ->
  canEditTask user task = true ->
  UpdateTaskDto.assigneeIds (req_body req) = None ->
  exists saved,
    fst (run (update req) s) = {| code := 200; payload := TaskJson saved |} /\
    Task.assignees saved = [] /\
    find (has_id (req_params_id req))
         (taskRepository (source (snd (run (update req) s)))) = Some saved.
Proof.
  intros Hu Hid Hf Hc Hnone.
  rewrite (update_allowed req s user task Hu Hid Hf Hc).
  exists (updated_task req s task). cbn [fst snd source taskRepository].
  split; [reflexivity |]. split.
  - now apply updated_task_fields.
  - apply find_some in Hf. destruct Hf as [_ Hid'].
    apply String.eqb_eq in Hid'. rewrite <- Hid'.
    replace (Task.id task) with (Task.id (updated_task req s task))
      by apply updated_task_fields.
    apply find_upsert.
Qed.

(** C4 (the code departs from it).  An admin's update of Bob's task whose
    body carries the status only: the title and the description are kept
    and the status is written, but the assignees, which the body does not
    mention, are emptied and saved so. *)
Theorem update_without_assigneeIds_clears_assignees :
  UpdateTaskDto.assigneeIds (req_body status_only) = None /\
  find (has_id "t-1") (taskRepository sample_source) =
    Some (Task.mk "t-1" "A" (Some "B") todo bob [carol] 100) /\
  fst (run (update status_only) (start sample_source)) =
    {| code := 200;
       payload := TaskJson (Task.mk "t-1" "A" (Some "B") done bob [] 100) |} /\
  find (has_id "t-1")
       (taskRepository
          (source (snd (run (update status_only) (start sample_source))))) =
    Some (Task.mk "t-1" "A" (Some "B") done bob [] 100).
Proof. repeat split. Qed.

(* ===================================================================== *)
(** ** Sorting and slicing *)
(* ===================================================================== *)

Section Sorting.
Context {A : Type}.
Variable leb : A -> A -> bool.

Lemma insert_by_perm (x : A) (l : list A) :
  Permutation (insert_by leb x l) (x :: l).
Proof.
  induction l as [| y l IH]; cbn.
  - apply Permutation_refl.
  - destruct (leb x y).
    + apply Permutation_refl.
    + apply perm_trans with (y :: x :: l).
      * apply perm_skip, IH.
      * apply perm_swap.
Qed.

Lemma sort_by_perm (l : list A) : Permutation (sort_by leb l) l.
Proof.
  induction l as [| x l IH]; cbn.
  - apply perm_nil.
  - apply perm_trans with (x :: sort_by leb l).
    + apply insert_by_perm.
    + apply perm_skip, IH.
Qed.

Lemma sort_by_In (l : list A) (x : A) : In x (sort_by leb l) <-> In x l.
Proof.
  split; apply Permutation_in;
    [ apply sort_by_perm | apply Permutation_sym, sort_by_perm ].
Qed.

Lemma sort_by_length (l : list A) : length (sort_by leb l) = length l.
Proof. apply Permutation_length, sort_by_perm. Qed.

Hypothesis leb_total : forall a b, leb a b = true \/ leb b a = true.
Hypothesis leb_trans :
  forall a b c, leb a b = true -> leb b c = true -> leb a c = true.

Let R (a b : A) : Prop := leb a b = true.

Lemma insert_by_sorted (x : A) (l : list A) :
  StronglySorted R l -> StronglySorted R (insert_by leb x l).
Proof.
  induction l as [| y l IH]; cbn; intros Hs.
  - constructor; [constructor | constructor].
  - destruct (leb x y) eqn:Hxy.
    + constructor; [assumption |].
      constructor; [exact Hxy |].
      apply StronglySorted_inv in Hs. destruct Hs as [_ Hall].
      revert Hall. apply Forall_impl. intros z Hyz.
      unfold R in *. now apply leb_trans with y.
    + apply StronglySorted_inv in Hs. destruct Hs as [Hs Hall].
      constructor; [now apply IH |].
      apply Forall_forall. intros z Hz.
      apply (Permutation_in _ (insert_by_perm x l)) in Hz.
      destruct Hz as [<- | Hz].
      * destruct (leb_total x y) as [H | H]; [congruence | exact H].
      * rewrite Forall_forall in Hall. now apply Hall.
Qed.

Lemma sort_by_sorted (l : list A) : StronglySorted R (sort_by leb l).
Proof.
  induction l as [| x l IH]; cbn.
  - constructor.
  - now apply insert_by_sorted.
Qed.

End Sorting.

Section Slices.
Context {A : Type}.
Variable R : A -> A -> Prop.

Lemma StronglySorted_skipn (n : nat) (l : list A) :
  StronglySorted R l -> StronglySorted R (skipn n l).
Proof.
  revert l. induction n as [| n IH]; intros [| x l] Hs; cbn;
    try assumption.
  apply IH. now apply StronglySorted_inv in Hs.
Qed.

Lemma StronglySorted_firstn (n : nat) (l : list A) :
  StronglySorted R l -> StronglySorted R (firstn n l).
Proof.
  revert l. induction n as [| n IH]; intros [| x l] Hs; cbn;
    try constructor.
  - apply IH. now apply StronglySorted_inv in Hs.
  - apply StronglySorted_inv in Hs. destruct Hs as [_ Hall].
    rewrite Forall_forall in *. intros z Hz. apply Hall.
    rewrite <- (firstn_skipn n l). apply in_or_app. now left.
Qed.

Lemma StronglySorted_paginate (off lim : nat) (l : list A) :
  StronglySorted R l -> StronglySorted R (paginate off lim l).
Proof.
  intros Hs. unfold paginate. destruct (Nat.eqb lim 0).
  - now apply StronglySorted_skipn.
  - now apply StronglySorted_firstn, StronglySorted_skipn.
Qed.

Lemma In_skipn (n : nat) (l : list A) (x : A) : In x (skipn n l) -> In x l.
Proof.
  intros H. rewrite <- (firstn_skipn n l). apply in_or_app. now right.
Qed.

Lemma In_firstn (n : nat) (l : list A) (x : A) : In x (firstn n l) -> In x l.
Proof.
  intros H. rewrite <- (firstn_skipn n l). apply in_or_app. now left.
Qed.

Lemma In_paginate (off lim : nat) (l : list A) (x : A) :
  In x (paginate off lim l) -> In x l.
Proof.
  unfold paginate. destruct (Nat.eqb lim 0); intros H.
  - now apply In_skipn in H.
  - now apply In_firstn, In_skipn in H.
Qed.

End Slices.

(* ===================================================================== *)
(** ** The query the [list] handler builds *)
(* ===================================================================== *)

(** Both branches of [list] end in the same call: [getManyAndCount] on
    [built_query], unless a page number or a page size is [NaN]. *)
Lemma list_try_eq (d : Dialect) (ds : DataSource) (q : Query.t) :
  list_try d ds q =
    match parseInt (or_default "1" (Query.page q)),
          parseInt (or_default "10" (Query.limit q)) with
    | Some p, Some l =>
        match getManyAndCount d (built_query q p l) (taskRepository ds) with
        | Some (tasks, total) => Some (page_json tasks (Some p) (Some l) total)
        | None => None
        end
    | _, _ => None
    end.
Proof.
  unfold list_try, built_query, clauses_of, sort_field_of, sort_order_of.
  destruct q as [se st a pg li sb so]. cbn [Query.search Query.status
    Query.assigneeId Query.page Query.limit Query.sortBy Query.sortOrder].
  destruct (parseInt (or_default "1" pg)) as [p |];
    destruct (parseInt (or_default "10" li)) as [l |];
    cbn [js_sub js_mul skip take];
    destruct se as [s |]; cbn [or_default];
    try destruct (truthy_string s);
    destruct st as [v |]; try destruct (truthy_query v);
    destruct a as [x |]; try destruct (truthy_string x);
    destruct sb as [y |]; destruct so as [z |];
    reflexivity.
Qed.

Lemma getManyAndCount_in_range (d : Dialect) (qb : QueryBuilder)
  (table : list Task.t) (off lim : Z) :
  qb_skip qb = Some off -> qb_take qb = Some lim ->
  (0 <= off)%Z -> (0 <= lim)%Z ->
  getManyAndCount d qb table =
    Some (paginate (Z.to_nat off) (Z.to_nat lim)
            (ordered d (qb_orderBy qb) (entities d (qb_where qb) table)),
          Z.of_nat (length (entities d (qb_where qb) table))).
Proof.
  intros Hs Ht Ho Hl. unfold getManyAndCount. rewrite Hs, Ht. cbn [or_default].
  destruct (Z.ltb_spec off 0); [lia |].
  destruct (Z.ltb_spec lim 0); [lia |].
  cbn [orb andb]. unfold ordered.
  destruct (qb_orderBy qb) as [[f o] |]; [rewrite sort_by_length |];
    reflexivity.
Qed.

(** A successful [getManyAndCount] is one of the in-range calls. *)
Lemma getManyAndCount_Some (d : Dialect) (qb : QueryBuilder)
  (table tasks : list Task.t) (total : Z) :
  getManyAndCount d qb table = Some (tasks, total) ->
  tasks = paginate (Z.to_nat (or_default 0%Z (qb_skip qb)))
                   (Z.to_nat (or_default 0%Z (qb_take qb)))
                   (ordered d (qb_orderBy qb)
                      (entities d (qb_where qb) table)) /\
  total = Z.of_nat (length (entities d (qb_where qb) table)).
Proof.
  unfold getManyAndCount.
  destruct (((or_default 0 (qb_skip qb) <? 0)%Z
             || (or_default 0 (qb_take qb) <? 0)%Z)
            && rejects_negative_window d); [discriminate |].
  intros H. injection H as <- <-. split; [reflexivity |].
  unfold ordered. destruct (qb_orderBy qb) as [[f o] |];
    [rewrite sort_by_length |]; reflexivity.
Qed.

(** What a 200 answer of [list] is made of. *)
Lemma listTasks_ok (d : Dialect) (ds : DataSource) (q : Query.t)
  (tasks : list Task.t) (pg : Pagination) :
  listTasks d ds q = {| code := 200; payload := TaskPageJson tasks pg |} ->
  exists p l,
    parseInt (or_default "1" (Query.page q)) = Some p /\
    parseInt (or_default "10" (Query.limit q)) = Some l /\
    tasks = paginate (Z.to_nat ((p - 1) * l)) (Z.to_nat l)
              (sorted_matches d ds q) /\
    pg = {| pg_page := Some p; pg_limit := Some l;
            pg_total := Z.of_nat (length (sorted_matches d ds q));
            pg_totalPages :=
              math_ceil_div (Z.of_nat (length (sorted_matches d ds q))) l |}.
Proof.
  unfold listTasks. rewrite list_try_eq.
  destruct (parseInt (or_default "1" (Query.page q))) as [p |];
    [| discriminate].
  destruct (parseInt (or_default "10" (Query.limit q))) as [l |];
    [| discriminate].
  destruct (getManyAndCount d (built_query q p l) (taskRepository ds))
    as [[ts total] |] eqn:Hg; [| discriminate].
  apply getManyAndCount_Some in Hg. destruct Hg as [-> ->].
  unfold page_json. intros H. injection H as <- <-.
  exists p, l. unfold sorted_matches. rewrite sort_by_length.
  repeat split; reflexivity.
Qed.

(** [list] answers 200 or 500, nothing else. *)
Lemma listTasks_code (d : Dialect) (ds : DataSource) (q : Query.t) :
  code (listTasks d ds q) = 200%Z \/ code (listTasks d ds q) = 500%Z.
Proof.
  unfold listTasks. rewrite list_try_eq.
  destruct (parseInt (or_default "1" (Query.page q))) as [p |];
    [| now right].
  destruct (parseInt (or_default "10" (Query.limit q))) as [l |];
    [| now right].
  destruct (getManyAndCount d (built_query q p l) (taskRepository ds))
    as [[ts total] |]; [now left | now right].
Qed.

(* ===================================================================== *)
(** ** What the clauses select *)
(* ===================================================================== *)

(** The assignee filter of a query on a task: the wanted user is among its
    assignees. *)
Lemma existsb_joined (f : option User.t -> bool) (t : Task.t) :
  existsb (fun row => f (snd row)) (joined t) =
    match Task.assignees t with
    | [] => f None
    | us => existsb (fun u => f (Some u)) us
    end.
Proof.
  unfold joined. destruct (Task.assignees t) as [| u us].
  - cbn. now rewrite orb_false_r.
  - generalize (u :: us). intros l.
    induction l as [| v l IH]; [reflexivity |].
    cbn [map existsb snd]. now rewrite IH.
Qed.

Lemma joined_fst (t : Task.t) (row : Task.t * option User.t) :
  In row (joined t) -> fst row = t.
Proof.
  unfold joined. destruct (Task.assignees t) as [| u us].
  - intros [<- | []]. reflexivity.
  - intros H. apply in_map_iff in H. destruct H as [u' [<- _]]. reflexivity.
Qed.

Lemma joined_cons (t : Task.t) : joined t <> [].
Proof.
  unfold joined. destruct (Task.assignees t); discriminate.
Qed.

(** The users of the selected rows of a task are its assignees on a
    selected row. *)
Lemma joined_users_kept (f : Task.t * option User.t -> bool) (t : Task.t) :
  flat_map joined_user (filter f (joined t)) =
    filter (fun u => f (t, Some u)) (Task.assignees t).
Proof.
  unfold joined. destruct (Task.assignees t) as [| u us].
  - cbn. destruct (f (t, None)); reflexivity.
  - generalize (u :: us). intros l.
    induction l as [| v l IH]; [reflexivity |].
    cbn [map filter]. destruct (f (t, Some v)); cbn; now rewrite IH.
Qed.

Lemma filter_nil_existsb {A : Type} (f : A -> bool) (l : list A) :
  existsb f l = negb (Nat.eqb (length (filter f l)) 0).
Proof.
  induction l as [| x l IH]; [reflexivity |].
  cbn. destruct (f x); [reflexivity | exact IH].
Qed.

Section Selection.
Variable d : Dialect.
Variable q : Query.t.

(** The [WHERE] expression the handler builds, read by SQL's precedence. *)
Lemma selected_clauses (row : Task.t * option User.t) :
  selected d (clauses_of q) row = where_selects d q row.
Proof.
  unfold selected, where_expression, clauses_of, where_selects, status_part,
    row_part, title_matches, description_matches, status_matches.
  destruct (Query.search q) as [s |]; [destruct (truthy_string s) |];
    (destruct (Query.status q) as [v |]; [destruct (truthy_query v) |]);
    (destruct (Query.assigneeId q) as [x |]; [destruct (truthy_string x) |]);
    cbn;
    rewrite ?orb_false_r, ?andb_true_r, ?andb_assoc; reflexivity.
Qed.

Lemma hydrate_clauses (t : Task.t) :
  hydrate d (clauses_of q) t =
    if task_selected d q t then [returned d q t] else [].
Proof.
  unfold hydrate, task_selected, returned, kept_assignees.
  rewrite (filter_ext _ _ selected_clauses).
  rewrite filter_nil_existsb, <- joined_users_kept.
  destruct (filter (where_selects d q) (joined t)); reflexivity.
Qed.

(** The entities of the answer: the selected tasks in table order, each
    with the assignees of its selected rows. *)
Lemma entities_selected (table : list Task.t) :
  entities d (clauses_of q) table =
    map (returned d q) (filter (task_selected d q) table).
Proof.
  unfold entities. induction table as [| t table IH]; [reflexivity |].
  cbn [flat_map filter]. rewrite IH, hydrate_clauses.
  destruct (task_selected d q t); reflexivity.
Qed.

Lemma entities_In (table : list Task.t) (r : Task.t) :
  In r (entities d (clauses_of q) table) <->
  exists t, In t table /\ task_selected d q t = true /\ r = returned d q t.
Proof.
  rewrite entities_selected, in_map_iff. split.
  - intros [t [<- Hin]]. apply filter_In in Hin. exists t. tauto.
  - intros [t [Hin [Hs ->]]]. exists t. split; [reflexivity |].
    apply filter_In. auto.
Qed.

Lemma entities_length (table : list Task.t) :
  length (entities d (clauses_of q) table) =
    length (filter (task_selected d q) table).
Proof. now rewrite entities_selected, length_map. Qed.

Lemma joined_row_exists (t : Task.t) :
  existsb (fun row => row_part q (snd row)) (joined t) = assignee_part q t.
Proof.
  rewrite existsb_joined. unfold row_part, assignee_part, assigned_to.
  destruct (Query.assigneeId q) as [x |]; [destruct (truthy_string x) |];
    destruct (Task.assignees t) as [| u us]; try reflexivity;
    generalize (u :: us); intros l; induction l as [| v l IH];
    try reflexivity; cbn; now rewrite ?IH.
Qed.

Lemma existsb_ext_In {A : Type} (f g : A -> bool) (l : list A) :
  (forall x, In x l -> f x = g x) -> existsb f l = existsb g l.
Proof.
  induction l as [| x l IH]; intros H; [reflexivity |].
  cbn. rewrite (H x (or_introl eq_refl)), IH; [reflexivity |].
  intros y Hy. apply H. now right.
Qed.

Lemma existsb_const_or {A : Type} (b : bool) (f : A -> bool) (l : list A) :
  l <> [] -> existsb (fun x => b || f x) l = b || existsb f l.
Proof.
  intros Hl. destruct b; cbn.
  - destruct l as [| x l]; [contradiction | reflexivity].
  - reflexivity.
Qed.

Lemma existsb_const_and {A : Type} (b : bool) (f : A -> bool) (l : list A) :
  existsb (fun x => b && f x) l = b && existsb f l.
Proof.
  destruct b; cbn; [reflexivity |]. induction l; [reflexivity | assumption].
Qed.

(** A task is selected when, with a search, its title matches, or else
    its description matches and it passes the status and assignee filters;
    without a search, when it passes these two filters. *)
Lemma task_selected_eq (t : Task.t) :
  task_selected d q t =
    let filters := status_part q t && assignee_part q t in
    match Query.search q with
    | Some s =>
        if truthy_string s
        then title_matches d s t || (description_matches d s t && filters)
        else filters
    | None => filters
    end.
Proof.
  unfold task_selected.
  assert (Hrows : forall f : Task.t -> option User.t -> bool,
            existsb (fun row => f (fst row) (snd row)) (joined t) =
            existsb (fun row => f t (snd row)) (joined t)).
  { intros f. apply existsb_ext_In. intros row Hin.
    now rewrite (joined_fst t row Hin). }
  assert (Hf : existsb (fun row => status_part q t && row_part q (snd row))
                       (joined t) = status_part q t && assignee_part q t).
  { now rewrite existsb_const_and, joined_row_exists. }
  unfold where_selects.
  destruct (Query.search q) as [s |]; [destruct (truthy_string s) |]; cbn zeta.
  - rewrite (Hrows (fun t' a => title_matches d s t'
                       || description_matches d s t'
                          && (status_part q t' && row_part q a))).
    rewrite (existsb_const_or _ _ _ (joined_cons t)).
    now rewrite existsb_const_and, Hf.
  - rewrite (Hrows (fun t' a => status_part q t' && row_part q a)).
    exact Hf.
  - rewrite (Hrows (fun t' a => status_part q t' && row_part q a)).
    exact Hf.
Qed.

Lemma matches_filters_eq (t : Task.t) :
  matches_filters d q t =
    match Query.search q with
    | Some s => if truthy_string s then search_matches d s t else true
    | None => true
    end && status_part q t && assignee_part q t.
Proof. reflexivity. Qed.

(** Every task that passes all present filters is selected. *)
Lemma matches_filters_selected (t : Task.t) :
  matches_filters d q t = true -> task_selected d q t = true.
Proof.
  rewrite matches_filters_eq, task_selected_eq. unfold search_matches.
  cbn zeta.
  destruct (Query.search q) as [s |]; [destruct (truthy_string s) |];
    try destruct (title_matches d s t); try destruct (description_matches d s t);
    destruct (status_part q t), (assignee_part q t); cbn; congruence.
Qed.

(** Without a search, or with a search and no other filter, the selected
    tasks are the tasks that pass all present filters. *)
Lemma task_selected_filters (t : Task.t) :
  searches q = false \/ filters_more q = false ->
  task_selected d q t = matches_filters d q t.
Proof.
  rewrite matches_filters_eq, task_selected_eq.
  unfold searches, filters_more, status_part, assignee_part, search_matches.
  cbn zeta.
  destruct (Query.search q) as [s |]; [destruct (truthy_string s) |];
    (destruct (Query.status q) as [v |]; [destruct (truthy_query v) |]);
    (destruct (Query.assigneeId q) as [x |]; [destruct (truthy_string x) |]);
    cbn; intros [H | H]; try discriminate H;
    rewrite ?andb_true_r; reflexivity.
Qed.

(** With a search, a task whose title matches is selected, and returned as
    stored, whatever the other filters. *)
Lemma title_match_selected (s : string) (t : Task.t) :
  Query.search q = Some s -> s <> "" -> title_matches d s t = true ->
  task_selected d q t = true /\ returned d q t = t.
Proof.
  intros Hq Hs Ht. apply truthy_string_true in Hs. split.
  - rewrite task_selected_eq, Hq, Hs, Ht. reflexivity.
  - unfold returned, kept_assignees, where_selects. cbn [fst snd].
    rewrite Hq, Hs, Ht. cbn [orb].
    assert (Hall : forall l : list User.t, filter (fun _ => true) l = l).
    { induction l as [| u l IH]; [reflexivity |]. cbn. now rewrite IH. }
    rewrite Hall. now destruct t.
Qed.

End Selection.
(* ===================================================================== *)
(** ** Theorems on [list] *)
(* ===================================================================== *)

Lemma truthy_query_true (v : QueryValue) :
  truthy_query v = true <-> v <> QString "".
Proof.
  destruct v as [s | x xs]; cbn.
  - rewrite truthy_string_true. split; [congruence |].
    intros H Hs. apply H. now rewrite Hs.
  - split; [discriminate | reflexivity].
Qed.

(** [matches_filters] spelled out, filter by filter. *)
Lemma matches_filters_true (d : Dialect) (q : Query.t) (t : Task.t) :
  matches_filters d q t = true <->
  (forall s, Query.search q = Some s -> s <> "" ->
     search_matches d s t = true) /\
  (forall v, Query.status q = Some v -> v <> QString "" ->
     status_matches v t = true) /\
  (forall a, Query.assigneeId q = Some a -> a <> "" ->
     assigned_to a t = true).
Proof.
  unfold matches_filters. rewrite !andb_true_iff.
  assert (Hs : forall (o : option string) (f : string -> bool),
             match o with
             | Some s => if truthy_string s then f s else true
             | None => true
             end = true <->
             (forall s, o = Some s -> s <> "" -> f s = true)).
  { intros [s |] f; [destruct (truthy_string s) eqn:Hs |].
    - apply truthy_string_true in Hs. split.
      + intros H s' [= <-] _. exact H.
      + intros H. now apply H.
    - apply truthy_string_false in Hs. split; [| reflexivity].
      intros _ s' [= <-] Hne. contradiction.
    - split; [discriminate | reflexivity]. }
  rewrite (Hs (Query.search q) (fun s => search_matches d s t)).
  rewrite (Hs (Query.assigneeId q) (fun a => assigned_to a t)).
  assert (Hv : match Query.status q with
               | Some v => if truthy_query v then status_matches v t else true
               | None => true
               end = true <->
               (forall v, Query.status q = Some v -> v <> QString "" ->
                  status_matches v t = true)).
  { destruct (Query.status q) as [v |]; [destruct (truthy_query v) eqn:Hq |].
    - apply truthy_query_true in Hq. split.
      + intros H v' [= <-] _. exact H.
      + intros H. now apply H.
    - split; [| reflexivity]. intros _ v' [= <-] Hne.
      apply truthy_query_true in Hne. congruence.
    - split; [discriminate | reflexivity]. }
  rewrite Hv. tauto.
Qed.

Lemma math_ceil_div_spec (a b : Z) :
  (0 < b)%Z ->
  exists k, math_ceil_div a b = Some k /\ ((k - 1) * b < a <= k * b)%Z.
Proof.
  intros Hb. unfold math_ceil_div.
  destruct (Z.eqb_spec b 0) as [-> | _]; [lia |].
  exists (- (- a / b))%Z. split; [reflexivity |].
  pose proof (Z.div_mod (- a) b ltac:(lia)) as Hdm.
  pose proof (Z.mod_pos_bound (- a) b Hb) as Hr.
  nia.
Qed.

Lemma nth_error_slice {A : Type} (off lim i : nat) (l : list A) :
  nth_error (firstn lim (skipn off l)) i =
    if Nat.ltb i lim then nth_error l (off + i) else None.
Proof.
  rewrite nth_error_firstn, nth_error_skipn. reflexivity.
Qed.

Lemma StronglySorted_impl {A : Type} (R R' : A -> A -> Prop) (l : list A) :
  (forall a b, R a b -> R' a b) -> StronglySorted R l -> StronglySorted R' l.
Proof.
  intros Himp. induction 1 as [| x l Hs IH Hall]; constructor.
  - exact IH.
  - revert Hall. apply Forall_impl. intros b. apply Himp.
Qed.

(** Sorting by the creation timestamp leaves the entities in the order of
    their timestamps, in the direction asked for. *)
Lemma sort_by_createdAt (d : Dialect) (o : Order) (l : list Task.t) :
  StronglySorted (createdAt_in_order o)
                 (sort_by (order_leb d task_createdAt o) l).
Proof.
  apply StronglySorted_impl
    with (R := fun a b => order_leb d task_createdAt o a b = true).
  - intros a b. destruct o; cbn; apply Z.leb_le.
  - apply sort_by_sorted.
    + intros a b. destruct o; cbn; rewrite !Z.leb_le; lia.
    + intros a b c. destruct o; cbn; rewrite !Z.leb_le; lia.
Qed.

(** With a collation that is a total preorder, sorting by title orders the
    titles as well. *)
Lemma sort_by_title (d : Dialect) (o : Order) (l : list Task.t) :
  (forall a b, text_leb d a b = true \/ text_leb d b a = true) ->
  (forall a b c,
     text_leb d a b = true -> text_leb d b c = true -> text_leb d a c = true) ->
  StronglySorted (fun a b => order_leb d task_title o a b = true)
                 (sort_by (order_leb d task_title o) l).
Proof.
  intros Htot Htrans. apply sort_by_sorted.
  - intros a b. destruct o; cbn; apply Htot.
  - intros a b c. destruct o; cbn; intros H1 H2;
      [ now apply Htrans with (Task.title b)
      | now apply Htrans with (Task.title b) ].
Qed.

(** The answer of [list] for a page number and a page size of at least
    one. *)
Lemma listTasks_in_range (d : Dialect) (ds : DataSource) (q : Query.t)
  (p l : Z) :
  parseInt (or_default "1" (Query.page q)) = Some p ->
  parseInt (or_default "10" (Query.limit q)) = Some l ->
  (1 <= p)%Z -> (1 <= l)%Z ->
  listTasks d ds q =
    page_json (firstn (Z.to_nat l)
                      (skipn (Z.to_nat ((p - 1) * l)) (sorted_matches d ds q)))
              (Some p) (Some l)
              (Z.of_nat (length (sorted_matches d ds q))).
Proof.
  intros Hp Hl Hp1 Hl1.
  unfold listTasks. rewrite list_try_eq, Hp, Hl.
  rewrite (getManyAndCount_in_range d (built_query q p l)
             (taskRepository ds) ((p - 1) * l) l eq_refl eq_refl
             ltac:(nia) ltac:(lia)).
  cbn [built_query qb_where qb_orderBy ordered].
  unfold sorted_matches. rewrite sort_by_length.
  unfold paginate.
  destruct (Nat.eqb_spec (Z.to_nat l) 0) as [H0 | _]; [lia |].
  reflexivity.
Qed.

(** The sequence a page is cut from holds the selected tasks, each once
    and as [returned], and is in the order the query asks for. *)
Lemma sorted_matches_perm (d : Dialect) (ds : DataSource) (q : Query.t) :
  Permutation (sorted_matches d ds q)
              (map (returned d q)
                   (filter (task_selected d q) (taskRepository ds))).
Proof.
  unfold sorted_matches. rewrite <- entities_selected. apply sort_by_perm.
Qed.

Lemma sorted_matches_In (d : Dialect) (ds : DataSource) (q : Query.t)
  (r : Task.t) :
  In r (sorted_matches d ds q) <->
  exists t, In t (taskRepository ds) /\ task_selected d q t = true /\
            r = returned d q t.
Proof.
  unfold sorted_matches. rewrite sort_by_In. apply entities_In.
Qed.

Lemma sorted_matches_length (d : Dialect) (ds : DataSource) (q : Query.t) :
  length (sorted_matches d ds q) =
    length (filter (task_selected d q) (taskRepository ds)).
Proof.
  unfold sorted_matches. now rewrite sort_by_length, entities_length.
Qed.

Lemma sorted_matches_sorted (d : Dialect) (ds : DataSource) (q : Query.t) :
  sortable d q -> StronglySorted (in_order d q) (sorted_matches d ds q).
Proof.
  unfold sortable, in_order, sorted_matches. intros Hsortable.
  destruct (sort_field_of q).
  - destruct (Hsortable eq_refl) as [Htot Htrans].
    apply StronglySorted_impl
      with (R := fun a b =>
                   order_leb d task_title (sort_order_of q) a b = true).
    + intros a b. now destruct (sort_order_of q).
    + now apply sort_by_title.
  - apply sort_by_createdAt.
Qed.

(** C3.  The filters of [list] are not conjunctive when a search comes with
    another filter.  On the sample data, [search=foo&status=todo] is
    answered with the task [t-2], whose status is [done], and
    [search=foo&assigneeId=u-alice] with the same task, which is not
    assigned to Alice; no stored task passes either pair of filters.  In
    general, with a search, every stored task whose title matches is in the
    sequence the pages are cut from, as stored, whatever the status and the
    assignee asked for.  The conjunction holds where the defect does not
    reach: a task that passes all present filters is always selected, and
    without a search, or with a search and no other filter, the tasks of a
    page are exactly tasks that pass all present filters and the total
    counts exactly those; so two statuses and an assignee select the one
    task that has one of the statuses and the assignee. *)
Theorem listTasks_title_match_skips_filters :
  (listTasks binary_dialect sample_source foo_and_todo =
     page_json [alices_task] (Some 1%Z) (Some 10%Z) 1 /\
   Task.status alices_task = done /\
   filter (matches_filters binary_dialect foo_and_todo)
          (taskRepository sample_source) = []) /\
  (listTasks binary_dialect sample_source foo_for_alice =
     page_json [alices_task] (Some 1%Z) (Some 10%Z) 1 /\
   Task.assignees alices_task = [bob; carol] /\
   filter (matches_filters binary_dialect foo_for_alice)
          (taskRepository sample_source) = []) /\
  (forall (d : Dialect) (ds : DataSource) (q : Query.t) (s : string)
          (t : Task.t),
     Query.search q = Some s -> s <> "" ->
     In t (taskRepository ds) -> title_matches d s t = true ->
     In t (sorted_matches d ds q)) /\
  (forall (d : Dialect) (ds : DataSource) (q : Query.t) (t : Task.t),
     In t (taskRepository ds) -> matches_filters d q t = true ->
     In (returned d q t) (sorted_matches d ds q)) /\
  (forall (d : Dialect) (ds : DataSource) (q : Query.t)
          (tasks : list Task.t) (pg : Pagination),
     searches q = false \/ filters_more q = false ->
     listTasks d ds q = {| code := 200; payload := TaskPageJson tasks pg |} ->
     (forall r, In r tasks ->
        exists t, In t (taskRepository ds) /\
                  matches_filters d q t = true /\ r = returned d q t) /\
     pg_total pg =
       Z.of_nat (length (filter (matches_filters d q) (taskRepository ds)))) /\
  listTasks binary_dialect sample_source open_or_done_for_bob =
    page_json [Task.with_assignees [bob] alices_task]
              (Some 1%Z) (Some 10%Z) 1.
Proof.
  split; [repeat split |]. split; [repeat split |].
  split; [| split; [| split; [| reflexivity]]].
  - intros d ds q s t Hq Hs Hin Ht.
    destruct (title_match_selected d q s t Hq Hs Ht) as [Hsel Hret].
    apply sorted_matches_In. exists t. auto.
  - intros d ds q t Hin Hm. apply sorted_matches_In. exists t.
    split; [assumption |]. split; [| reflexivity].
    now apply matches_filters_selected.
  - intros d ds q tasks pg Hq Hok. apply listTasks_ok in Hok.
    destruct Hok as [p [l [_ [_ [-> ->]]]]]. cbn [pg_total]. split.
    + intros r Hr. apply In_paginate, sorted_matches_In in Hr.
      destruct Hr as [t [Hin [Hsel ->]]]. exists t.
      rewrite (task_selected_filters d q t Hq) in Hsel. auto.
    + rewrite sorted_matches_length. do 2 f_equal.
      apply filter_ext. intros t. now apply task_selected_filters.
Qed.

(** C6.  Slicing and counting are right, the sequence sliced is the one
    the [WHERE] expression selects.  For a page number and a page size of
    at least one whose product is a safe integer, [list] answers 200 with
    the slice [(page-1)*limit, page*limit) of the sorted sequence of the
    selected tasks (a permutation of them in the order asked for), the
    number of selected tasks counted before slicing, and [totalPages], the
    ceiling of [total/limit]; a page beyond the last is the empty sequence
    (with 25 selected tasks and pages of 10: 3 pages, 5 tasks on the third,
    none on the fourth).  Without a search, or with a search and no other
    filter, the total is the number of stored tasks that pass all present
    filters.  It is not when a search comes with another filter: on the
    sample data [search=foo&status=todo] is answered with one task, a total
    of 1 and one page, while no stored task passes both filters. *)
Theorem listTasks_pagination :
  (forall (d : Dialect) (ds : DataSource) (q : Query.t) (p l : Z),
     parseInt (or_default "1" (Query.page q)) = Some p ->
     parseInt (or_default "10" (Query.limit q)) = Some l ->
     (1 <= p)%Z -> (1 <= l)%Z -> safe_integer (p * l) ->
     exists tasks total totalPages,
       listTasks d ds q =
         {| code := 200;
            payload := TaskPageJson tasks
                         {| pg_page := Some p; pg_limit := Some l;
                            pg_total := total;
                            pg_totalPages := Some totalPages |} |} /\
       Permutation (sorted_matches d ds q)
                   (map (returned d q)
                        (filter (task_selected d q) (taskRepository ds))) /\
       (sortable d q ->
          StronglySorted (in_order d q) (sorted_matches d ds q)) /\
       total =
         Z.of_nat (length (filter (task_selected d q) (taskRepository ds))) /\
       (forall i : nat,
          nth_error tasks i =
            if (Z.of_nat i <? l)%Z
            then nth_error (sorted_matches d ds q)
                           (Z.to_nat ((p - 1) * l) + i)
            else None) /\
       Z.of_nat (length tasks) = Z.max 0 (Z.min l (total - (p - 1) * l)) /\
       ((totalPages - 1) * l < total <= totalPages * l)%Z /\
       ((totalPages < p)%Z -> tasks = []) /\
       (l = 10%Z -> total = 25%Z ->
          totalPages = 3%Z /\
          (p = 3%Z -> length tasks = 5) /\
          (p = 4%Z -> tasks = [])) /\
       (searches q = false \/ filters_more q = false ->
          total =
            Z.of_nat (length (filter (matches_filters d q)
                                     (taskRepository ds))))) /\
  (listTasks binary_dialect sample_source foo_and_todo =
     {| code := 200;
        payload := TaskPageJson [alices_task]
                     {| pg_page := Some 1%Z; pg_limit := Some 10%Z;
                        pg_total := 1; pg_totalPages := Some 1%Z |} |} /\
   length (filter (matches_filters binary_dialect foo_and_todo)
                  (taskRepository sample_source)) = 0).
Proof.
  split; [| split; reflexivity].
  intros d ds q p l Hp Hl Hp1 Hl1 _.
  set (all := sorted_matches d ds q).
  set (off := Z.to_nat ((p - 1) * l)).
  set (tasks := firstn (Z.to_nat l) (skipn off all)).
  set (total := Z.of_nat (length all)).
  destruct (math_ceil_div_spec total l ltac:(lia)) as [k [Hk Hbounds]].
  assert (Hlen : Z.of_nat (length tasks) =
                 Z.max 0 (Z.min l (total - (p - 1) * l))).
  { unfold tasks, total, off. rewrite length_firstn, length_skipn. nia. }
  assert (Hbeyond : (k < p)%Z -> tasks = []).
  { intros Hkp. apply length_zero_iff_nil. nia. }
  assert (Htotal : total =
            Z.of_nat (length (filter (task_selected d q)
                                     (taskRepository ds)))).
  { unfold total, all. now rewrite sorted_matches_length. }
  exists tasks, total, k.
  split; [| split; [| split; [| split; [| split; [| split; [| split;
    [| split; [| split]]]]]]]].
  - rewrite (listTasks_in_range d ds q p l Hp Hl Hp1 Hl1).
    unfold page_json, js_ceil_div. fold all. fold total. now rewrite Hk.
  - apply sorted_matches_perm.
  - apply sorted_matches_sorted.
  - exact Htotal.
  - intros i. unfold tasks. rewrite nth_error_slice.
    destruct (Nat.ltb_spec i (Z.to_nat l)); destruct (Z.ltb_spec (Z.of_nat i) l);
      try reflexivity; lia.
  - exact Hlen.
  - exact Hbounds.
  - exact Hbeyond.
  - intros -> Ht. rewrite Ht in *.
    assert (k = 3%Z) as -> by lia.
    split; [reflexivity |]. split.
    + intros ->. lia.
    + intros ->. apply Hbeyond. lia.
  - intros Hq. rewrite Htotal. do 2 f_equal.
    apply filter_ext. intros t. now apply task_selected_filters.
Qed.

(** [listTasks_pagination] at the fourth page of ten over the twenty-five
    stored tasks. *)
Lemma listTasks_pagination_witness :
  exists tasks total totalPages,
    listTasks binary_dialect twenty_five fourth_page =
      {| code := 200;
         payload := TaskPageJson tasks
                      {| pg_page := Some 4%Z; pg_limit := Some 10%Z;
                         pg_total := total;
                         pg_totalPages := Some totalPages |} |} /\
    total = 25%Z /\ totalPages = 3%Z /\ tasks = [].
Proof.
  destruct (proj1 listTasks_pagination binary_dialect twenty_five fourth_page
              4%Z 10%Z eq_refl eq_refl ltac:(lia) ltac:(lia)
              ltac:(unfold safe_integer; lia))
    as [tasks [total [k [Hr [_ [_ [Ht [_ [_ [_ [_ [Hex _]]]]]]]]]]]].
  exists tasks, total, k. split; [exact Hr |].
  assert (H25 : total = 25%Z) by (rewrite Ht; reflexivity).
  destruct (Hex eq_refl H25) as [Hk [_ H4]].
  repeat split; [exact H25 | exact Hk | now apply H4].
Defined.

Example third_page_has_five :
  exists tasks pg,
    listTasks binary_dialect twenty_five third_page =
      {| code := 200; payload := TaskPageJson tasks pg |} /\
    map Task.id tasks = ["E"; "D"; "C"; "B"; "A"] /\
    pg_total pg = 25%Z /\ pg_totalPages pg = Some 3%Z.
Proof. eexists. eexists. repeat split. Qed.

Example fourth_page_is_empty :
  listTasks binary_dialect twenty_five fourth_page =
    {| code := 200;
       payload := TaskPageJson []
                    {| pg_page := Some 4%Z; pg_limit := Some 10%Z;
                       pg_total := 25; pg_totalPages := Some 3%Z |} |}.
Proof. reflexivity. Qed.

(** A negative offset: the [catch] block on a database that rejects it, the
    first page on one that reads it as zero. *)
Example page_zero_is_rejected_or_first :
  listTasks binary_dialect twenty_five page_zero = failed_to_fetch /\
  exists tasks,
    listTasks lenient_dialect twenty_five page_zero =
      page_json tasks (Some 0%Z) (Some 10%Z) 25 /\
    tasks = response_tasks (listTasks lenient_dialect twenty_five pages_of_ten)
    /\ length tasks = 10.
Proof. split; [reflexivity |]. eexists. repeat split. Qed.

Lemma sort_field_of_other (q : Query.t) :
  Query.sortBy q <> Some "title" -> sort_field_of q = task_createdAt.
Proof.
  unfold sort_field_of. destruct (Query.sortBy q) as [x |]; [| reflexivity].
  intros H. destruct (String.eqb_spec x "title") as [-> | _];
    [contradiction | reflexivity].
Qed.

Lemma sort_order_of_other (q : Query.t) :
  Query.sortOrder q <> Some "ASC" -> sort_order_of q = DESC.
Proof.
  unfold sort_order_of. destruct (Query.sortOrder q) as [x |]; [| reflexivity].
  intros H. destruct (String.eqb_spec x "ASC") as [-> | _];
    [contradiction | reflexivity].
Qed.

(** The answer of [list] depends on the sort parameters through
    [sort_field_of] and [sort_order_of] only. *)
Lemma listTasks_sort_ext (d : Dialect) (ds : DataSource) (q q' : Query.t) :
  Query.search q' = Query.search q ->
  Query.status q' = Query.status q ->
  Query.assigneeId q' = Query.assigneeId q ->
  Query.page q' = Query.page q ->
  Query.limit q' = Query.limit q ->
  sort_field_of q' = sort_field_of q ->
  sort_order_of q' = sort_order_of q ->
  listTasks d ds q' = listTasks d ds q.
Proof.
  intros Hs Hst Ha Hp Hl Hf Ho.
  unfold listTasks. rewrite !list_try_eq.
  unfold built_query, clauses_of. now rewrite Hs, Hst, Ha, Hp, Hl, Hf, Ho.
Qed.

(** C10.  A [sortBy] other than [title] is answered exactly like
    [sortBy=createdAt], and a [sortOrder] other than [ASC] exactly like
    [sortOrder=DESC]; with a [sortBy] other than [title] the page comes in
    the order of the creation timestamps, descending unless [sortOrder] is
    [ASC]; and whatever the sort parameters are, the answer is a 200 or a
    500, never a validation error. *)
Theorem listTasks_sort_fallback (d : Dialect) (ds : DataSource) (q : Query.t) :
  (forall x, Query.sortBy q = Some x -> x <> "title" ->
     listTasks d ds q =
       listTasks d ds (Query.with_sortBy (Some "createdAt") q)) /\
  (forall x, Query.sortOrder q = Some x -> x <> "ASC" ->
     listTasks d ds q =
       listTasks d ds (Query.with_sortOrder (Some "DESC") q)) /\
  (forall x tasks pg,
     Query.sortBy q = Some x -> x <> "title" ->
     listTasks d ds q = {| code := 200; payload := TaskPageJson tasks pg |} ->
     StronglySorted (createdAt_in_order (sort_order_of q)) tasks /\
     (Query.sortOrder q <> Some "ASC" ->
        StronglySorted (createdAt_in_order DESC) tasks)) /\
  (code (listTasks d ds q) = 200%Z \/ code (listTasks d ds q) = 500%Z) /\
  code (listTasks d ds q) <> 400%Z.
Proof.
  split; [| split; [| split; [| split]]].
  - intros x Hx Hne. symmetry. apply listTasks_sort_ext; try reflexivity.
    rewrite (sort_field_of_other q); [reflexivity |].
    rewrite Hx. congruence.
  - intros x Hx Hne. symmetry. apply listTasks_sort_ext; try reflexivity.
    rewrite (sort_order_of_other q); [reflexivity |].
    rewrite Hx. congruence.
  - intros x tasks pg Hx Hne Hok.
    apply listTasks_ok in Hok. destruct Hok as [p [l [_ [_ [-> _]]]]].
    assert (Hs : StronglySorted (createdAt_in_order (sort_order_of q))
                   (paginate (Z.to_nat ((p - 1) * l)) (Z.to_nat l)
                      (sorted_matches d ds q))).
    { apply StronglySorted_paginate. unfold sorted_matches.
      rewrite (sort_field_of_other q) by (rewrite Hx; congruence).
      apply sort_by_createdAt. }
    split; [exact Hs |].
    intros Ho. now rewrite (sort_order_of_other q Ho) in Hs.
  - apply listTasks_code.
  - destruct (listTasks_code d ds q) as [H | H]; rewrite H; discriminate.
Qed.

(** [listTasks_sort_fallback] on the sample data: the unknown key and
    direction give the newest task first. *)
Lemma listTasks_sort_fallback_witness :
  listTasks binary_dialect sample_source odd_sort =
    listTasks binary_dialect sample_source
      (Query.with_sortBy (Some "createdAt") odd_sort) /\
  listTasks binary_dialect sample_source odd_sort =
    listTasks binary_dialect sample_source
      (Query.with_sortOrder (Some "DESC") odd_sort) /\
  (exists tasks pg,
     listTasks binary_dialect sample_source odd_sort =
       {| code := 200; payload := TaskPageJson tasks pg |} /\
     map Task.id tasks = ["t-3"; "t-2"; "t-1"] /\
     StronglySorted (createdAt_in_order DESC) tasks).
Proof.
  destruct (listTasks_sort_fallback binary_dialect sample_source odd_sort)
    as [Hby [Hord [Hsorted _]]].
  split; [| split].
  - apply (Hby "priority"); [reflexivity | discriminate].
  - apply (Hord "sideways"); [reflexivity | discriminate].
  - eexists. eexists. split; [reflexivity |]. split; [reflexivity |].
    eapply (Hsorted "priority");
      [reflexivity | discriminate | reflexivity | cbn; discriminate].
Defined.

(* ===================================================================== *)
(** ** The binary dialect: [LIKE] on [%search%] is substring search *)
(* ===================================================================== *)

Lemma like_chars_percent_nil (p : string) :
  like_chars (String "%" p) "" = like_chars p "".
Proof. cbn. apply orb_false_r. Qed.

Lemma like_chars_percent_cons (p : string) (c : ascii) (t : string) :
  like_chars (String "%" p) (String c t) =
    like_chars p (String c t) || like_chars (String "%" p) t.
Proof. reflexivity. Qed.

Lemma like_chars_percent (p t : string) :
  like_chars (String "%" p) t = true <->
  exists pre u, t = (pre ++ u)%string /\ like_chars p u = true.
Proof.
  induction t as [| c t IH].
  - rewrite like_chars_percent_nil. split.
    + intros H. exists "", "". split; [reflexivity | exact H].
    + intros [pre [u [Heq H]]].
      destruct pre; [| discriminate]. cbn in Heq. now subst u.
  - rewrite like_chars_percent_cons, orb_true_iff, IH. split.
    + intros [H | [pre [u [-> H]]]].
      * exists "", (String c t). split; [reflexivity | exact H].
      * exists (String c pre), u. split; [reflexivity | exact H].
    + intros [pre [u [Heq H]]]. destruct pre as [| c' pre]; cbn in Heq.
      * left. now subst u.
      * right. injection Heq as _ ->. exists pre, u. auto.
Qed.

Lemma like_chars_literal_cons (c : ascii) (p u : string) :
  Ascii.eqb c "%" || Ascii.eqb c "_" = false ->
  like_chars (String c p) u =
    match u with
    | String x u' => Ascii.eqb c x && like_chars p u'
    | EmptyString => false
    end.
Proof.
  intros H. apply orb_false_iff in H. destruct H as [H1 H2].
  cbn [like_chars]. rewrite H1. destruct u as [| x u']; [reflexivity |].
  now rewrite H2.
Qed.

Lemma like_chars_prefix (s u : string) :
  literal s = true ->
  (like_chars (s ++ "%") u = true <-> exists post, u = (s ++ post)%string).
Proof.
  revert u. induction s as [| c s IH]; intros u Hlit.
  - cbn [String.append]. rewrite like_chars_percent. split.
    + intros _. now exists u.
    + intros _. exists u, "". split; [| reflexivity].
      clear. induction u as [| x u IHu]; cbn; congruence.
  - cbn [literal] in Hlit. apply andb_true_iff in Hlit.
    destruct Hlit as [Hc Hs]. apply negb_true_iff in Hc.
    cbn [String.append]. rewrite (like_chars_literal_cons c _ u Hc).
    destruct u as [| x u].
    + split; [discriminate | intros [post H]; discriminate].
    + rewrite andb_true_iff, (IH u Hs). split.
      * intros [Hx [post ->]]. apply Ascii.eqb_eq in Hx. subst x.
        now exists post.
      * intros [post Heq]. injection Heq as -> ->. split.
        -- apply Ascii.eqb_refl.
        -- now exists post.
Qed.

(** For a search text without wildcards, the pattern [%search%] matches
    exactly the texts that contain the search text. *)
Lemma like_chars_substring (s t : string) :
  literal s = true ->
  (like binary_dialect ("%" ++ s ++ "%")%string t = true <->
   exists pre post, t = (pre ++ s ++ post)%string).
Proof.
  intros Hlit. cbn [like binary_dialect String.append].
  rewrite like_chars_percent. split.
  - intros [pre [u [-> H]]]. apply (like_chars_prefix s u Hlit) in H.
    destruct H as [post ->]. now exists pre, post.
  - intros [pre [post ->]]. exists pre, (s ++ post)%string.
    split; [reflexivity |]. apply (like_chars_prefix s _ Hlit). now exists post.
Qed.

(* ===================================================================== *)
(** * Further properties of the controller *)
(* ===================================================================== *)

(** ** Roles and permissions *)

Lemma hasRole_incl (user user' : AuthTokenPayload) (r : string) :
  incl (roles user) (roles user') ->
  hasRole user r = true -> hasRole user' r = true.
Proof.
  intros Hincl H. apply hasRole_In. apply Hincl. now apply hasRole_In.
Qed.

(** X1.  Granting an actor more roles never takes a permission away: with
    the same actor id and a larger role set, whatever could be edited can
    still be edited and whatever could be deleted can still be deleted. *)
Theorem permissions_monotone_in_roles (user user' : AuthTokenPayload)
  (task : Task.t) :
  userId user' = userId user ->
  incl (roles user) (roles user') ->
  (canEditTask user task = true -> canEditTask user' task = true) /\
  (canDeleteTask user task = true -> canDeleteTask user' task = true).
Proof.
  intros Hid Hincl.
  assert (Hown : isOwner user' task = isOwner user task).
  { unfold isOwner. now rewrite Hid. }
  pose proof (hasRole_incl user user' "admin" Hincl) as Ha.
  pose proof (hasRole_incl user user' "manager" Hincl) as Hm.
  pose proof (hasRole_incl user user' "user" Hincl) as Hu.
  unfold canEditTask, canDeleteTask. rewrite Hown.
  destruct (hasRole user "admin"); [rewrite (Ha eq_refl); auto |].
  destruct (hasRole user "manager"); [rewrite (Hm eq_refl) |].
  - cbn. rewrite orb_true_r.
    destruct (hasRole user' "admin"); cbn; auto.
  - destruct (hasRole user "user"); [rewrite (Hu eq_refl) |]; cbn.
    + rewrite orb_true_r.
      destruct (hasRole user' "admin"), (hasRole user' "manager"); cbn; auto.
    + split; [| discriminate].
      destruct (hasRole user' "admin"), (hasRole user' "manager"); cbn; auto.
Qed.

(** [permissions_monotone_in_roles] when Bob, a plain user who owns his
    task, is made a manager as well. *)
Lemma permissions_monotone_in_roles_witness :
  canEditTask (actor bob ["manager"; "user"]) bobs_task = true /\
  canDeleteTask (actor bob ["manager"; "user"]) bobs_task = true.
Proof.
  destruct (permissions_monotone_in_roles
              (actor bob ["user"]) (actor bob ["manager"; "user"]) bobs_task
              eq_refl) as [He Hd].
  - intros r [<- | []]. cbn. auto.
  - split; [apply He | apply Hd]; reflexivity.
Defined.

(* ===================================================================== *)
(** ** What [update] and [remove] do to the table *)
(* ===================================================================== *)

Lemma Forall2_same {A : Type} (P : A -> A -> Prop) (l : list A) :
  (forall x, P x x) -> Forall2 P l l.
Proof. intros H. induction l; constructor; auto. Qed.

Lemma upsert_Forall2 (P : Task.t -> Task.t -> Prop) (t old : Task.t)
  (rows : list Task.t) :
  (forall r, P r r) -> P old t ->
  find (has_id (Task.id t)) rows = Some old ->
  Forall2 P rows (upsert t rows).
Proof.
  intros Hrefl Hold. induction rows as [| r rows IH]; cbn; [discriminate |].
  destruct (has_id (Task.id t) r).
  - intros [= ->]. constructor; [exact Hold | now apply Forall2_same].
  - intros Hf. constructor; [apply Hrefl | now apply IH].
Qed.

Lemma upsert_again (t : Task.t) (rows : list Task.t) :
  upsert t (upsert t rows) = upsert t rows.
Proof.
  assert (Hself : has_id (Task.id t) t = true) by apply String.eqb_refl.
  induction rows as [| r rows IH]; cbn.
  - now rewrite Hself.
  - destruct (has_id (Task.id t) r) eqn:Hr; cbn.
    + now rewrite Hself.
    + now rewrite Hr, IH.
Qed.

Lemma upsert_fresh (t : Task.t) (rows : list Task.t) :
  find (has_id (Task.id t)) rows = None -> upsert t rows = rows ++ [t].
Proof.
  induction rows as [| r rows IH]; cbn; [reflexivity |].
  destruct (has_id (Task.id t) r); [discriminate |].
  intros Hf. now rewrite IH.
Qed.

Lemma find_has_id (i : string) (rows : list Task.t) (t : Task.t) :
  find (has_id i) rows = Some t -> Task.id t = i.
Proof.
  intros H. apply find_some in H. destruct H as [_ H].
  now apply String.eqb_eq in H.
Qed.

Lemma update_frame_same (i : string) (t : Task.t) : update_frame i t t.
Proof. repeat split. Qed.

(** The outcome of [update] on every path, as a case distinction. *)
Lemma update_cases (req : Request) (s : HState) :
  (source (snd (run (update req) s)) = source s /\
   code (fst (run (update req) s)) <> 200%Z) \/
  (exists user task,
     req_user req = Some user /\ req_params_id req <> "" /\
     find (has_id (req_params_id req)) (table_of s) = Some task /\
     canEditTask user task = true /\
     run (update req) s =
       ({| code := 200; payload := TaskJson (updated_task req s task) |},
        {| source :=
             {| taskRepository := upsert (updated_task req s task) (table_of s);
                userRepository := userRepository (source s) |};
           trace := trace s ++ [FindOneTask (req_params_id req)]
                      ++ [Evaluate Edit true]
                      ++ user_lookups req
                      ++ [SaveTask (updated_task req s task)] |})).
Proof.
  unfold table_of.
  destruct (req_user req) as [user |] eqn:Hu.
  2:{ left. rewrite (update_unauthenticated req s Hu). cbn.
      split; [reflexivity | discriminate]. }
  destruct (String.eqb (req_params_id req) "") eqn:Hid.
  { apply String.eqb_eq in Hid. left.
    rewrite (update_without_id req s user Hu Hid). cbn.
    split; [reflexivity | discriminate]. }
  apply String.eqb_neq in Hid.
  destruct (find (has_id (req_params_id req)) (taskRepository (source s)))
    as [task |] eqn:Hf.
  2:{ left. rewrite (update_not_found req s user Hu Hid Hf). cbn.
      split; [reflexivity | discriminate]. }
  destruct (canEditTask user task) eqn:Hc.
  - right. exists user, task.
    rewrite (update_allowed req s user task Hu Hid Hf Hc). auto.
  - left. rewrite (update_denied req s user task Hu Hid Hf Hc). cbn.
    split; [reflexivity | discriminate].
Qed.

(** X2.  Whatever the request and its outcome, [update] leaves the user
    table alone and keeps the task table row for row: no row is added or
    lost, every row keeps its id, its owner and its creation time, and a
    row whose id is not the one of the request is not changed at all. *)
Theorem update_keeps_rows_owner_and_others (req : Request) (s : HState) :
  userRepository (source (snd (run (update req) s))) =
    userRepository (source s) /\
  Forall2 (update_frame (req_params_id req))
          (table_of s) (table_of (snd (run (update req) s))).
Proof.
  destruct (update_cases req s) as [[Hsrc _] | [user [task [Hu [Hid [Hf [Hc Hrun]]]]]]].
  - unfold table_of. rewrite Hsrc. split; [reflexivity |].
    apply Forall2_same. apply update_frame_same.
  - rewrite Hrun. unfold table_of at 2. cbn [snd source taskRepository userRepository].
    split; [reflexivity |].
    pose proof (find_has_id _ _ _ Hf) as Hsame.
    apply upsert_Forall2 with (old := task).
    + apply update_frame_same.
    + unfold update_frame. cbn. repeat split. intros Hne. contradiction.
    + cbn [updated_task Task.id]. now rewrite Hsame.
Qed.

Lemma canEditTask_owner (user : AuthTokenPayload) (t t' : Task.t) :
  Task.owner t' = Task.owner t -> canEditTask user t' = canEditTask user t.
Proof. intros H. unfold canEditTask, isOwner. now rewrite H. Qed.

Lemma updated_task_again (req : Request) (s s' : HState) (task : Task.t) :
  userRepository (source s') = userRepository (source s) ->
  updated_task req s' (updated_task req s task) = updated_task req s task.
Proof.
  intros Hus. unfold updated_task. rewrite Hus. cbn.
  destruct (req_body req) as [ti de st ids]; cbn.
  destruct ti, de, st, ids as [[| i ids] |]; reflexivity.
Qed.

(** X3.  Sending the same [update] request a second time changes nothing
    more: the second response equals the first and the data source stays
    as the first request left it. *)
Theorem update_twice_is_update_once (req : Request) (s : HState) :
  fst (run (update req) (snd (run (update req) s))) =
    fst (run (update req) s) /\
  source (snd (run (update req) (snd (run (update req) s)))) =
    source (snd (run (update req) s)).
Proof.
  destruct (update_cases req s)
    as [[Hsrc Hne] | [user [task [Hu [Hid [Hf [Hc Hrun]]]]]]].
  - (* the first request wrote nothing: the second sees the same table *)
    set (s1 := snd (run (update req) s)) in *.
    destruct (req_user req) as [user |] eqn:Hu.
    2:{ rewrite (update_unauthenticated req s1 Hu),
                (update_unauthenticated req s Hu). auto. }
    destruct (String.eqb (req_params_id req) "") eqn:Hid.
    { apply String.eqb_eq in Hid.
      rewrite (update_without_id req s1 user Hu Hid),
              (update_without_id req s user Hu Hid). auto. }
    apply String.eqb_neq in Hid.
    destruct (find (has_id (req_params_id req)) (taskRepository (source s)))
      as [task |] eqn:Hf.
    2:{ assert (Hf1 := Hf). rewrite <- Hsrc in Hf1.
        rewrite (update_not_found req s1 user Hu Hid Hf1),
                (update_not_found req s user Hu Hid Hf). cbn. auto. }
    destruct (canEditTask user task) eqn:Hc.
    + exfalso. apply Hne.
      now rewrite (update_allowed req s user task Hu Hid Hf Hc).
    + assert (Hf1 := Hf). rewrite <- Hsrc in Hf1.
      rewrite (update_denied req s1 user task Hu Hid Hf1 Hc),
              (update_denied req s user task Hu Hid Hf Hc). cbn. auto.
  - (* the first request wrote the patched row: the second finds it and
       writes the same row again *)
    unfold table_of in *. rewrite Hrun. cbn [fst snd].
    set (t := updated_task req s task).
    set (s1 := {| source := {| taskRepository := upsert t (taskRepository (source s));
                               userRepository := userRepository (source s) |};
                  trace := trace s ++ [FindOneTask (req_params_id req)]
                             ++ [Evaluate Edit true] ++ user_lookups req
                             ++ [SaveTask t] |}).
    assert (Hidt : Task.id t = req_params_id req).
    { unfold t. cbn. now apply find_has_id in Hf. }
    assert (Hf1 : find (has_id (req_params_id req)) (taskRepository (source s1))
                  = Some t).
    { cbn. rewrite <- Hidt. apply find_upsert. }
    assert (Hc1 : canEditTask user t = true).
    { rewrite <- Hc. apply canEditTask_owner. reflexivity. }
    rewrite (update_allowed req s1 user t Hu Hid Hf1 Hc1).
    assert (Ht : updated_task req s1 t = t).
    { unfold t. apply updated_task_again. reflexivity. }
    rewrite Ht. cbn. rewrite upsert_again. auto.
Qed.

Lemma find_filter_other (i j : string) (rows : list Task.t) :
  i <> j ->
  find (has_id i) (filter (fun r => negb (has_id j r)) rows) =
    find (has_id i) rows.
Proof.
  intros Hne. induction rows as [| r rows IH]; [reflexivity |].
  cbn. destruct (has_id j r) eqn:Hj; cbn.
  - destruct (has_id i r) eqn:Hi; [| exact IH].
    apply String.eqb_eq in Hj, Hi. congruence.
  - destruct (has_id i r); [reflexivity | exact IH].
Qed.

Lemma find_filter_self (i : string) (rows : list Task.t) :
  find (has_id i) (filter (fun r => negb (has_id i r)) rows) = None.
Proof.
  induction rows as [| r rows IH]; [reflexivity |].
  cbn. destruct (has_id i r) eqn:Hi; cbn; [exact IH |].
  now rewrite Hi.
Qed.

(** X4.  A permitted [remove] answers 204 with no body; afterwards no row
    has the removed id, every other id is found exactly as before, the user
    table is untouched, and the same request sent again is answered 404. *)
Theorem remove_deletes_exactly_that_id (req : Request) (s : HState)
  (user : AuthTokenPayload) (task : Task.t) :
  req_user req = Some user -> req_params_id req <> "" ->
  find (has_id (req_params_id req)) (table_of s) = Some task ->
  canDeleteTask user task = true ->
  fst (run (remove req) s) = {| code := 204; payload := NoBody |} /\
  find (has_id (req_params_id req)) (table_of (snd (run (remove req) s)))
    = None /\
  (forall i, i <> req_params_id req ->
     find (has_id i) (table_of (snd (run (remove req) s))) =
       find (has_id i) (table_of s)) /\
  userRepository (source (snd (run (remove req) s))) =
    userRepository (source s) /\
  fst (run (remove req) (snd (run (remove req) s))) = task_not_found.
Proof.
  intros Hu Hid Hf Hc. unfold table_of in *.
  pose proof (find_has_id _ _ _ Hf) as Hsame.
  pose proof (remove_allowed req s user task Hu Hid Hf Hc) as Hrun.
  rewrite Hsame in Hrun.
  set (s1 := snd (run (remove req) s)).
  assert (Hrows : taskRepository (source s1) =
                  filter (fun r => negb (has_id (req_params_id req) r))
                         (taskRepository (source s)))
    by (unfold s1; now rewrite Hrun).
  assert (Hgone : find (has_id (req_params_id req))
                       (taskRepository (source s1)) = None)
    by (rewrite Hrows; apply find_filter_self).
  split; [now rewrite Hrun |]. split; [exact Hgone |].
  split; [intros i Hi; rewrite Hrows; now apply find_filter_other |].
  split; [unfold s1; now rewrite Hrun |].
  now rewrite (remove_not_found req s1 user Hu Hid Hgone).
Qed.

(** [remove_deletes_exactly_that_id] when an admin removes Bob's task from
    the sample data. *)
Lemma remove_deletes_exactly_that_id_witness :
  fst (run (remove removal_by_admin) (start sample_source)) =
    {| code := 204; payload := NoBody |} /\
  find (has_id "t-1")
       (table_of (snd (run (remove removal_by_admin) (start sample_source))))
    = None /\
  find (has_id "t-2")
       (table_of (snd (run (remove removal_by_admin) (start sample_source))))
    = Some alices_task /\
  fst (run (remove removal_by_admin)
           (snd (run (remove removal_by_admin) (start sample_source))))
    = task_not_found.
Proof.
  destruct (remove_deletes_exactly_that_id removal_by_admin
              (start sample_source)
              {| userId := "u-alice"; roles := ["admin"] |} bobs_task
              eq_refl ltac:(discriminate) eq_refl eq_refl)
    as [H204 [Hgone [Hothers [_ Hagain]]]].
  split; [exact H204 |]. split; [exact Hgone |]. split; [| exact Hagain].
  rewrite (Hothers "t-2"); [reflexivity | discriminate].
Defined.

(* ===================================================================== *)
(** ** [create], path by path *)
(* ===================================================================== *)

Ltac create_steps :=
  unfold run, create, bind, findOneUser, findBy, save, respond, ret,
    unauthorized;
  cbn beta iota zeta.

Lemma create_unauthenticated (g : Generated) (req : CreateRequest)
  (s : HState) :
  creq_user req = None \/
  (exists user, creq_user req = Some user /\ userId user = "") ->
  run (create g req) s = (unauthorized, s).
Proof.
  intros [Hu | [user [Hu Hid]]]; create_steps; rewrite Hu; cbn;
    [reflexivity |].
  apply truthy_string_false in Hid. now rewrite Hid.
Qed.

Lemma create_owner_missing (g : Generated) (req : CreateRequest)
  (s : HState) (user : AuthTokenPayload) :
  creq_user req = Some user -> userId user <> "" ->
  find (has_user_id (userId user)) (userRepository (source s)) = None ->
  run (create g req) s =
    ({| code := 404; payload := Message "Owner not found" |},
     emit (FindUsersBy [userId user]) s).
Proof.
  intros Hu Hid Hf. apply truthy_string_true in Hid.
  unfold has_user_id in Hf.
  create_steps. rewrite Hu. cbn. rewrite Hid. cbn. rewrite Hf. reflexivity.
Qed.

Lemma create_saved (g : Generated) (req : CreateRequest) (s : HState)
  (user : AuthTokenPayload) (owner : User.t) :
  creq_user req = Some user -> userId user <> "" ->
  find (has_user_id (userId user)) (userRepository (source s)) = Some owner ->
  fst (run (create g req) s) =
    {| code := 201; payload := TaskJson (created_task g req s owner) |} /\
  source (snd (run (create g req) s)) =
    {| taskRepository := upsert (created_task g req s owner) (table_of s);
       userRepository := userRepository (source s) |}.
Proof.
  intros Hu Hid Hf. apply truthy_string_true in Hid.
  unfold has_user_id in Hf. unfold created_task, table_of.
  create_steps. rewrite Hu. cbn. rewrite Hid. cbn. rewrite Hf. cbn.
  destruct (CreateTaskDto.assigneeIds (creq_body req)) as [[| i ids] |];
    cbn; split; reflexivity.
Qed.

(** X5.  [create] writes only when it answers 201: every request is
    answered 401 (no actor, or an actor without id), 404 (the actor is not
    a stored user) or 201, and on a 401 or a 404 the data source is exactly
    as before. *)
Theorem create_writes_only_on_201 (g : Generated) (req : CreateRequest)
  (s : HState) :
  (code (fst (run (create g req) s)) = 401%Z \/
   code (fst (run (create g req) s)) = 404%Z \/
   code (fst (run (create g req) s)) = 201%Z) /\
  (code (fst (run (create g req) s)) <> 201%Z ->
   source (snd (run (create g req) s)) = source s) /\
  (creq_user req = None ->
   run (create g req) s = (unauthorized, s)) /\
  (forall user,
     creq_user req = Some user -> userId user <> "" ->
     find (has_user_id (userId user)) (userRepository (source s)) = None ->
     fst (run (create g req) s) =
       {| code := 404; payload := Message "Owner not found" |}).
Proof.
  assert (Hnone : creq_user req = None ->
                  run (create g req) s = (unauthorized, s)).
  { intros Hu. apply create_unauthenticated. now left. }
  assert (Hmiss : forall user,
             creq_user req = Some user -> userId user <> "" ->
             find (has_user_id (userId user)) (userRepository (source s))
               = None ->
             fst (run (create g req) s) =
               {| code := 404; payload := Message "Owner not found" |}).
  { intros user Hu Hid Hf. now rewrite (create_owner_missing g req s user). }
  assert (Hcases :
            (code (fst (run (create g req) s)) = 401%Z /\
             source (snd (run (create g req) s)) = source s) \/
            (code (fst (run (create g req) s)) = 404%Z /\
             source (snd (run (create g req) s)) = source s) \/
            code (fst (run (create g req) s)) = 201%Z).
  { destruct (creq_user req) as [user |] eqn:Hu.
    2:{ left. rewrite (Hnone eq_refl). auto. }
    destruct (String.eqb (userId user) "") eqn:Hid.
    { apply String.eqb_eq in Hid. left.
      rewrite (create_unauthenticated g req s)
        by (right; exists user; auto).
      auto. }
    apply String.eqb_neq in Hid.
    destruct (find (has_user_id (userId user)) (userRepository (source s)))
      as [owner |] eqn:Hf.
    - right. right.
      destruct (create_saved g req s user owner Hu Hid Hf) as [Hr _].
      now rewrite Hr.
    - right. left.
      rewrite (create_owner_missing g req s user Hu Hid Hf). auto. }
  split; [| split; [| split]].
  - destruct Hcases as [[H _] | [[H _] | H]]; auto.
  - intros Hne. destruct Hcases as [[_ H] | [[_ H] | H]]; auto.
    contradiction.
  - exact Hnone.
  - exact Hmiss.
Qed.

Lemma find_has_id_None (i : string) (rows : list Task.t) :
  find (has_id i) rows = None <-> ~ In i (task_ids rows).
Proof.
  unfold task_ids. induction rows as [| r rows IH]; cbn.
  - tauto.
  - destruct (has_id i r) eqn:Hr.
    + apply String.eqb_eq in Hr. split; [discriminate |]. intros H. tauto.
    + apply String.eqb_neq in Hr. rewrite IH. tauto.
Qed.

(** X6.  With an actor who is a stored user and a generated id that is not
    in use, [create] answers 201 with the new task and appends it, and
    nothing else, to the table, where it is found under its id.  The task
    is owned by the actor, has the title and description of the body, the
    status of the body or [todo] when there is none, and as assignees
    exactly the stored users whose id the body lists: an id of no stored
    user is dropped without an error. *)
Theorem create_appends_task_owned_by_actor (g : Generated)
  (req : CreateRequest) (s : HState) (user : AuthTokenPayload)
  (owner : User.t) :
  creq_user req = Some user -> userId user <> "" ->
  find (has_user_id (userId user)) (userRepository (source s)) = Some owner ->
  ~ In (gen_id g) (task_ids (table_of s)) ->
  exists task,
    fst (run (create g req) s) = {| code := 201; payload := TaskJson task |} /\
    table_of (snd (run (create g req) s)) = table_of s ++ [task] /\
    userRepository (source (snd (run (create g req) s))) =
      userRepository (source s) /\
    find (has_id (gen_id g)) (table_of (snd (run (create g req) s)))
      = Some task /\
    Task.id task = gen_id g /\
    Task.createdAt task = gen_createdAt g /\
    Task.owner task = owner /\
    User.id (Task.owner task) = userId user /\
    Task.title task = CreateTaskDto.title (creq_body req) /\
    Task.description task = CreateTaskDto.description (creq_body req) /\
    Task.status task =
      or_default todo (CreateTaskDto.status (creq_body req)) /\
    (forall u, In u (Task.assignees task) <->
       In u (userRepository (source s)) /\
       In (User.id u)
          (or_default [] (CreateTaskDto.assigneeIds (creq_body req)))).
Proof.
  intros Hu Hid Hf Hfresh.
  destruct (create_saved g req s user owner Hu Hid Hf) as [Hr Hsrc].
  set (task := created_task g req s owner) in *.
  assert (Hrows : table_of (snd (run (create g req) s)) = table_of s ++ [task]).
  { unfold table_of at 1. rewrite Hsrc. cbn [taskRepository].
    apply upsert_fresh. now apply find_has_id_None. }
  exists task. split; [exact Hr |]. split; [exact Hrows |].
  split; [now rewrite Hsrc |].
  split.
  { unfold table_of at 1. rewrite Hsrc. cbn [taskRepository].
    apply (find_upsert task). }
  repeat (split; [reflexivity |]).
  split.
  { apply find_some in Hf. destruct Hf as [_ Hf].
    now apply String.eqb_eq in Hf. }
  repeat (split; [reflexivity |]).
  intros u. unfold task, created_task. cbn [Task.assignees].
  destruct (CreateTaskDto.assigneeIds (creq_body req)) as [[| i ids] |];
    cbn [or_default In]; try tauto.
  rewrite filter_In. cbv beta. rewrite includes_In. reflexivity.
Qed.

(** [create_appends_task_owned_by_actor] when Alice, a manager, creates a
    task for Bob, Carol and an id nobody has. *)
Lemma create_appends_task_owned_by_actor_witness :
  exists task,
    fst (run (create fresh_row create_by_manager) (start sample_source)) =
      {| code := 201; payload := TaskJson task |} /\
    table_of (snd (run (create fresh_row create_by_manager)
                       (start sample_source))) =
      [bobs_task; alices_task; carols_task; task] /\
    Task.owner task = alice /\
    Task.status task = todo /\
    Task.assignees task = [bob; carol].
Proof.
  destruct (create_appends_task_owned_by_actor fresh_row create_by_manager
              (start sample_source)
              {| userId := "u-alice"; roles := ["manager"] |} alice
              eq_refl ltac:(discriminate) eq_refl)
    as [task [Hr [Hrows [_ [_ [_ [_ [Ho [_ [_ [_ [Hst _]]]]]]]]]]]].
  { cbn. intros [H | [H | [H | []]]]; discriminate. }
  exists task. split; [exact Hr |]. split; [exact Hrows |].
  split; [exact Ho |]. split; [exact Hst |].
  cbn in Hr. now injection Hr as <-.
Defined.

(** X7.  Whoever creates a task may edit it afterwards, whatever roles the
    actor holds, and may delete it when holding one of the roles [admin],
    [manager] or [user]. *)
Theorem creator_may_edit_created_task (g : Generated) (req : CreateRequest)
  (s : HState) (user : AuthTokenPayload) (task : Task.t) :
  creq_user req = Some user ->
  fst (run (create g req) s) = {| code := 201; payload := TaskJson task |} ->
  canEditTask user task = true /\
  (In "admin" (roles user) \/ In "manager" (roles user) \/
   In "user" (roles user) -> canDeleteTask user task = true).
Proof.
  intros Hu Hr.
  destruct (String.eqb (userId user) "") eqn:Hid.
  { apply String.eqb_eq in Hid.
    rewrite (create_unauthenticated g req s) in Hr
      by (right; exists user; auto).
    discriminate. }
  apply String.eqb_neq in Hid.
  destruct (find (has_user_id (userId user)) (userRepository (source s)))
    as [owner |] eqn:Hf.
  2:{ rewrite (create_owner_missing g req s user Hu Hid Hf) in Hr.
      discriminate. }
  destruct (create_saved g req s user owner Hu Hid Hf) as [Hr' _].
  rewrite Hr' in Hr. injection Hr as <-.
  assert (Hown : isOwner user (created_task g req s owner) = true).
  { apply isOwner_eq. cbn. apply find_some in Hf. destruct Hf as [_ Hf].
    now apply String.eqb_eq in Hf. }
  unfold canEditTask, canDeleteTask. rewrite Hown. split.
  - destruct (hasRole user "admin" || hasRole user "manager"); reflexivity.
  - intros H. rewrite <- !hasRole_In in H.
    destruct (hasRole user "admin"); [reflexivity |].
    destruct (hasRole user "manager"); [reflexivity |].
    destruct (hasRole user "user"); [reflexivity |].
    destruct H as [H | [H | H]]; discriminate.
Qed.

(** [creator_may_edit_created_task] for the task Alice, a manager, creates
    on the sample data. *)
Lemma creator_may_edit_created_task_witness :
  canEditTask {| userId := "u-alice"; roles := ["manager"] |}
              (created_task fresh_row create_by_manager
                            (start sample_source) alice) = true /\
  canDeleteTask {| userId := "u-alice"; roles := ["manager"] |}
                (created_task fresh_row create_by_manager
                              (start sample_source) alice) = true.
Proof.
  destruct (creator_may_edit_created_task fresh_row create_by_manager
              (start sample_source)
              {| userId := "u-alice"; roles := ["manager"] |}
              (created_task fresh_row create_by_manager
                            (start sample_source) alice)
              eq_refl eq_refl) as [He Hd].
  split; [exact He |]. apply Hd. right. left. cbn. auto.
Defined.

(* ===================================================================== *)
(** ** More on [list] *)
(* ===================================================================== *)

Lemma listTasks_same_query (d : Dialect) (ds : DataSource) (q q' : Query.t) :
  or_default "1" (Query.page q') = or_default "1" (Query.page q) ->
  or_default "10" (Query.limit q') = or_default "10" (Query.limit q) ->
  clauses_of q' = clauses_of q ->
  sort_field_of q' = sort_field_of q ->
  sort_order_of q' = sort_order_of q ->
  listTasks d ds q' = listTasks d ds q.
Proof.
  intros Hp Hl Hc Hf Ho. unfold listTasks. rewrite !list_try_eq.
  unfold built_query. now rewrite Hp, Hl, Hc, Hf, Ho.
Qed.

(** X9.  The defaults of [list]: leaving out [page], [limit], [sortBy] or
    [sortOrder] gives the same answer as sending [1], [10], [createdAt] or
    [DESC], and an empty [search], [status] or [assigneeId] gives the same
    answer as leaving the parameter out. *)
Theorem listTasks_defaults (d : Dialect) (ds : DataSource) (q : Query.t) :
  listTasks d ds (explicit_defaults q) = listTasks d ds q /\
  listTasks d ds (without_empty_filters q) = listTasks d ds q.
Proof.
  split; apply listTasks_same_query;
    destruct q as [se st a pg li sb so];
    unfold clauses_of, sort_field_of, sort_order_of;
    cbn [explicit_defaults without_empty_filters Query.search Query.status
         Query.assigneeId Query.page Query.limit Query.sortBy
         Query.sortOrder or_default];
    try reflexivity.
  - destruct sb; reflexivity.
  - destruct so; reflexivity.
  - destruct se as [s |]; [destruct (truthy_string s) eqn:Hs |];
      (destruct st as [v |]; [destruct (truthy_query v) eqn:Hv |]);
      (destruct a as [x |]; [destruct (truthy_string x) eqn:Hx |]);
      rewrite ?Hs, ?Hv, ?Hx; reflexivity.
Qed.

Lemma filter_all {A : Type} (f : A -> bool) (l : list A) :
  (forall x, In x l -> f x = true) -> filter f l = l.
Proof.
  induction l as [| x l IH]; intros H; [reflexivity |].
  cbn. rewrite (H x (or_introl eq_refl)), IH; [reflexivity |].
  intros y Hy. apply H. now right.
Qed.

Lemma with_own_assignees (t : Task.t) :
  Task.with_assignees (Task.assignees t) t = t.
Proof. now destruct t. Qed.

(** X10.  What the assignee filter does to the tasks of an answer.  With an
    [assigneeId], a task the search admitted by its title comes with all of
    its stored assignees, whether or not one of them has that id; every
    other task of the page comes with those of its stored assignees that
    have the id, at least one.  Without an [assigneeId] (absent or empty),
    every task of the page is a stored task exactly as stored. *)
Theorem listTasks_assignees_of_page (d : Dialect) (ds : DataSource)
  (q : Query.t) (tasks : list Task.t) (pg : Pagination) :
  listTasks d ds q = {| code := 200; payload := TaskPageJson tasks pg |} ->
  (forall a, Query.assigneeId q = Some a -> a <> "" ->
     forall r, In r tasks ->
       exists t, In t (taskRepository ds) /\
         ((exists s, Query.search q = Some s /\ s <> "" /\
                     title_matches d s t = true) /\
          r = t
          \/
          (forall s, Query.search q = Some s -> s <> "" ->
                     title_matches d s t = false) /\
          r = Task.with_assignees
                (filter (fun u => String.eqb (User.id u) a)
                        (Task.assignees t))
                t /\
          Task.assignees r <> [])) /\
  (Query.assigneeId q = None \/ Query.assigneeId q = Some "" ->
     forall r, In r tasks -> In r (taskRepository ds)).
Proof.
  intros Hok. apply listTasks_ok in Hok.
  destruct Hok as [p [l [_ [_ [-> _]]]]].
  split.
  - intros a Ha Hne r Hr. apply In_paginate, sorted_matches_In in Hr.
    destruct Hr as [t [Hin [Hsel ->]]]. exists t. split; [assumption |].
    pose proof (truthy_string_true a) as Htr.
    apply proj2 in Htr. specialize (Htr Hne).
    rewrite task_selected_eq in Hsel. cbn zeta in Hsel.
    unfold returned, kept_assignees, where_selects, row_part.
    unfold assignee_part in Hsel. rewrite Ha, Htr in *. cbn [fst snd].
    assert (Hrest : status_part q t && assigned_to a t = true ->
              (Task.with_assignees
                 (filter (fun u => status_part q t && String.eqb (User.id u) a)
                         (Task.assignees t)) t
               = Task.with_assignees
                   (filter (fun u => String.eqb (User.id u) a)
                           (Task.assignees t)) t) /\
              filter (fun u => String.eqb (User.id u) a) (Task.assignees t)
                <> []).
    { intros H. apply andb_true_iff in H. destruct H as [Hst Hat].
      rewrite Hst. split; [reflexivity |].
      unfold assigned_to in Hat. apply existsb_exists in Hat.
      destruct Hat as [u [Hu Heq]]. intros Hnil.
      assert (Hf : In u (filter (fun u => String.eqb (User.id u) a)
                                (Task.assignees t)))
        by (apply filter_In; auto).
      now rewrite Hnil in Hf. }
    destruct (Query.search q) as [s |]; [destruct (truthy_string s) eqn:Hs |].
    + destruct (title_matches d s t) eqn:Ht.
      * left. split.
        { exists s. split; [reflexivity |]. split; [| exact Ht].
          now apply truthy_string_true. }
        cbn [orb]. rewrite filter_all by reflexivity.
        apply with_own_assignees.
      * right. cbn [orb] in *.
        apply andb_true_iff in Hsel. destruct Hsel as [Hd Hrest'].
        rewrite Hd. cbn [andb].
        destruct (Hrest Hrest') as [Heq Hnil].
        split; [intros s' [= <-] _; exact Ht |].
        split; [exact Heq |]. rewrite Heq. exact Hnil.
    + right. destruct (Hrest Hsel) as [Heq Hnil].
      split.
      { intros s' [= <-] Hs'. apply truthy_string_true in Hs'. congruence. }
      split; [exact Heq |]. rewrite Heq. exact Hnil.
    + right. destruct (Hrest Hsel) as [Heq Hnil].
      split; [discriminate |].
      split; [exact Heq |]. rewrite Heq. exact Hnil.
  - intros Hnone r Hr. apply In_paginate, sorted_matches_In in Hr.
    destruct Hr as [t [Hin [Hsel ->]]].
    assert (Hrow : forall u, row_part q u = true).
    { intros u. unfold row_part. destruct Hnone as [-> | ->]; reflexivity. }
    assert (Hpart : assignee_part q t = true).
    { unfold assignee_part. destruct Hnone as [-> | ->]; reflexivity. }
    rewrite task_selected_eq, Hpart in Hsel. cbn zeta in Hsel.
    rewrite andb_true_r in Hsel.
    unfold returned, kept_assignees.
    rewrite filter_all, with_own_assignees; [assumption |].
    intros u _. unfold where_selects. cbn [fst snd].
    now rewrite Hrow, andb_true_r.
Qed.

(** [listTasks_assignees_of_page] on the sample data: of the tasks that
    mention [foo], the one that does so in its title keeps Bob and Carol,
    the other one keeps Bob only; and Bob's tasks without a search come
    with Bob only. *)
Lemma listTasks_assignees_of_page_witness :
  listTasks binary_dialect sample_source foo_for_bob =
    page_json [Task.with_assignees [bob] carols_task; alices_task]
              (Some 1%Z) (Some 10%Z) 2 /\
  (forall r,
     In r [Task.with_assignees [bob] carols_task; alices_task] ->
     exists t, In t (taskRepository sample_source) /\
       (r = t \/
        r = Task.with_assignees
              (filter (fun u => String.eqb (User.id u) "u-bob")
                      (Task.assignees t)) t)) /\
  map Task.assignees
      (response_tasks (listTasks binary_dialect sample_source assigned_to_bob))
    = [[bob]; [bob]].
Proof.
  split; [reflexivity |]. split; [| reflexivity].
  intros r Hr.
  destruct (proj1 (listTasks_assignees_of_page binary_dialect sample_source
                     foo_for_bob _ _ eq_refl)
              "u-bob" eq_refl ltac:(discriminate) r Hr)
    as [t [Hin [[_ Heq] | [_ [Heq _]]]]];
    exists t; auto.
Defined.

(** X11.  A [page] or a [limit] that is not a number is answered with the
    500 of the [catch] block, [Failed to fetch tasks]; this is so for an
    empty [page] or [limit] parameter, which the default does not
    replace. *)
Theorem listTasks_not_a_number (d : Dialect) (ds : DataSource)
  (q : Query.t) :
  (parseInt (or_default "1" (Query.page q)) = None \/
   parseInt (or_default "10" (Query.limit q)) = None ->
   listTasks d ds q = failed_to_fetch) /\
  (Query.page q = Some "" \/ Query.limit q = Some "" ->
   listTasks d ds q = failed_to_fetch).
Proof.
  assert (Hnan : parseInt (or_default "1" (Query.page q)) = None \/
                 parseInt (or_default "10" (Query.limit q)) = None ->
                 listTasks d ds q = failed_to_fetch).
  { intros H. unfold listTasks. rewrite list_try_eq.
    destruct H as [-> | H]; [reflexivity |]. rewrite H.
    now destruct (parseInt (or_default "1" (Query.page q))). }
  split; [exact Hnan |].
  intros [H | H]; apply Hnan; rewrite H; [left | right]; reflexivity.
Qed.

(** [listTasks_not_a_number] for [page=abc] on the sample data. *)
Lemma listTasks_not_a_number_witness :
  listTasks binary_dialect sample_source page_abc = failed_to_fetch.
Proof.
  apply (proj1 (listTasks_not_a_number binary_dialect sample_source page_abc)).
  left. reflexivity.
Defined.

(* --------------------------------------------------------------------- *)
(** *** Page numbers written in decimal *)

Ltac eval_digit :=
  match goal with
  | |- context [digit_of ?c] =>
      let v := eval vm_compute in (digit_of c) in
      change (digit_of c) with v
  end.

Lemma read_digits_uint (u : Decimal.uint) (acc : positive) :
  read_digits (DecimalString.NilEmpty.string_of_uint u) (Some (Zpos acc)) =
    Some (Zpos (Pos.of_uint_acc u acc)).
Proof.
  revert acc.
  induction u as [| u IH | u IH | u IH | u IH | u IH | u IH | u IH | u IH
                  | u IH | u IH]; intros acc;
    cbn [DecimalString.NilEmpty.string_of_uint read_digits Pos.of_uint_acc
         or_default];
    try reflexivity;
    eval_digit; cbv iota; rewrite <- IH; do 2 f_equal; lia.
Qed.

Lemma read_digits_uint_zero (u : Decimal.uint) (acc : option Z) :
  or_default 0%Z acc = 0%Z -> u <> Decimal.Nil ->
  read_digits (DecimalString.NilEmpty.string_of_uint u) acc =
    Some (Z.of_N (Pos.of_uint u)).
Proof.
  revert acc.
  induction u as [| u IH | u IH | u IH | u IH | u IH | u IH | u IH | u IH
                  | u IH | u IH]; intros acc Hacc Hnil; try congruence;
    cbn [DecimalString.NilEmpty.string_of_uint read_digits Pos.of_uint];
    eval_digit; cbv iota; rewrite Hacc;
    try (apply (read_digits_uint u)).
  destruct u; try (apply IH; [reflexivity | congruence]).
  reflexivity.
Qed.

(** [parseInt] reads back what [toString] prints. *)
Lemma parseInt_toString (z : Z) : parseInt (number_toString z) = Some z.
Proof.
  unfold number_toString. destruct z as [| p | p]; [reflexivity | |];
    cbn [Z.to_int DecimalString.NilZero.string_of_int];
    unfold DecimalString.NilZero.string_of_uint;
    pose proof (DecimalPos.Unsigned.to_uint_nonnil p) as Hnil;
    pose proof (read_digits_uint_zero (Pos.to_uint p) None eq_refl Hnil) as H;
    rewrite (DecimalPos.Unsigned.of_to p) in H; cbn [Z.of_N] in H.
  - rewrite <- H. destruct (Pos.to_uint p); try congruence; reflexivity.
  - assert (Hs : parseInt
                   (String "-" (DecimalString.NilEmpty.string_of_uint
                                  (Pos.to_uint p))) =
                 option_map Z.opp
                   (read_digits (DecimalString.NilEmpty.string_of_uint
                                   (Pos.to_uint p)) None))
      by reflexivity.
    destruct (Pos.to_uint p); try congruence; rewrite Hs, H; reflexivity.
Qed.

(* --------------------------------------------------------------------- *)
(** *** Walking through the pages *)

Lemma flat_map_map {A B C : Type} (f : B -> list C) (g : A -> B)
  (l : list A) :
  flat_map f (map g l) = flat_map (fun x => f (g x)) l.
Proof. induction l as [| x l IH]; cbn; [reflexivity | now rewrite IH]. Qed.

Lemma flat_map_ext_In {A B : Type} (f g : A -> list B) (l : list A) :
  (forall x, In x l -> f x = g x) -> flat_map f l = flat_map g l.
Proof.
  induction l as [| x l IH]; cbn; intros H; [reflexivity |].
  rewrite (H x) by now left. rewrite IH; [reflexivity |].
  intros y Hy. apply H. now right.
Qed.

(** Cutting a list into consecutive slices of [n] and gluing them back. *)
Lemma slices_tile {A : Type} (n : nat) :
  0 < n ->
  forall (k : nat) (l : list A),
    length l <= k * n ->
    flat_map (fun i => firstn n (skipn (i * n) l)) (seq 0 k) = l.
Proof.
  intros Hn. induction k as [| k IH]; intros l Hlen.
  - cbn in *. destruct l; [reflexivity | cbn in Hlen; lia].
  - cbn [seq flat_map]. rewrite <- seq_shift, flat_map_map.
    rewrite (flat_map_ext_In _ (fun i => firstn n (skipn (i * n) (skipn n l)))).
    + rewrite (IH (skipn n l)).
      * cbn [Nat.mul skipn]. apply firstn_skipn.
      * rewrite length_skipn. cbn in Hlen. lia.
    + intros i _. rewrite skipn_skipn. f_equal. f_equal. lia.
Qed.

(** X12.  Walking from page 1 to the last page, with the page number
    written in decimal, a page size of at least one and offsets within the
    safe integers, returns every selected task exactly once and in the
    order asked for: the pages put one after the other are the whole sorted
    sequence the pages are cut from, a permutation of the selected tasks
    that is in the order of the query. *)
Theorem pages_tile_the_matches (d : Dialect) (ds : DataSource) (q : Query.t)
  (l : Z) (k : nat) :
  parseInt (or_default "10" (Query.limit q)) = Some l ->
  (1 <= l)%Z ->
  safe_integer (Z.of_nat k * l) ->
  sortable d q ->
  math_ceil_div (Z.of_nat (length (sorted_matches d ds q))) l
    = Some (Z.of_nat k) ->
  let pages :=
    flat_map
      (fun p =>
         response_tasks
           (listTasks d ds
              (query_with_page (Some (number_toString (Z.of_nat p))) q)))
      (seq 1 k) in
  pages = sorted_matches d ds q /\
  Permutation pages
              (map (returned d q)
                   (filter (task_selected d q) (taskRepository ds))) /\
  StronglySorted (in_order d q) pages.
Proof.
  intros Hl Hl1 _ Hsortable Hk pages.
  assert (Hpages : pages = sorted_matches d ds q).
  { unfold pages.
    destruct (math_ceil_div_spec (Z.of_nat (length (sorted_matches d ds q))) l
                ltac:(lia)) as [k' [Hk' Hbounds]].
    rewrite Hk in Hk'. injection Hk' as <-.
    set (n := Z.to_nat l).
    rewrite <- (slices_tile n ltac:(lia) k (sorted_matches d ds q))
      by (unfold n; nia).
    rewrite <- seq_shift, flat_map_map.
    apply flat_map_ext_In. intros i _.
    rewrite (listTasks_in_range d ds _ (Z.of_nat (S i)) l).
    - cbn [response_tasks page_json payload]. unfold n.
      replace (Z.to_nat ((Z.of_nat (S i) - 1) * l)) with (i * Z.to_nat l)
        by nia.
      reflexivity.
    - cbn [query_with_page Query.page or_default]. apply parseInt_toString.
    - exact Hl.
    - lia.
    - exact Hl1. }
  rewrite Hpages. split; [reflexivity |]. split.
  - apply sorted_matches_perm.
  - now apply sorted_matches_sorted.
Qed.

(** [pages_tile_the_matches] on the twenty-five stored tasks in pages of
    ten: three pages, one after the other, list all twenty-five, the
    newest first. *)
Lemma pages_tile_the_matches_witness :
  flat_map
    (fun p =>
       response_tasks
         (listTasks binary_dialect twenty_five
            (query_with_page (Some (number_toString (Z.of_nat p)))
                             pages_of_ten)))
    [1; 2; 3]
  = sorted_matches binary_dialect twenty_five pages_of_ten /\
  map Task.createdAt (sorted_matches binary_dialect twenty_five pages_of_ten)
  = map Z.of_nat (rev (seq 0 25)).
Proof.
  split; [| reflexivity].
  apply (pages_tile_the_matches binary_dialect twenty_five pages_of_ten 10 3);
    [reflexivity | lia | unfold safe_integer; lia | discriminate
    | reflexivity].
Defined.

(** X13.  With [sortBy=title] and a collation that is a total preorder, the
    page comes ordered by title in the direction asked for: ascending for
    [sortOrder=ASC], descending otherwise. *)
Theorem listTasks_sorted_by_title (d : Dialect) (ds : DataSource)
  (q : Query.t) (tasks : list Task.t) (pg : Pagination) :
  total_preorder (text_leb d) ->
  Query.sortBy q = Some "title" ->
  listTasks d ds q = {| code := 200; payload := TaskPageJson tasks pg |} ->
  StronglySorted (title_in_order d (sort_order_of q)) tasks.
Proof.
  intros [Htot Htrans] Hby Hok.
  apply listTasks_ok in Hok. destruct Hok as [p [l [_ [_ [-> _]]]]].
  apply StronglySorted_paginate. unfold sorted_matches.
  assert (Hf : sort_field_of q = task_title).
  { unfold sort_field_of. now rewrite Hby. }
  rewrite Hf.
  apply StronglySorted_impl
    with (R := fun a b => order_leb d task_title (sort_order_of q) a b = true).
  - intros a b. destruct (sort_order_of q); cbn; auto.
  - now apply sort_by_title.
Qed.

Lemma String_compare_trans (a b c : string) :
  String.compare a b <> Gt -> String.compare b c <> Gt ->
  String.compare a c <> Gt.
Proof.
  revert b c. induction a as [| x a IH]; intros [| y b] [| z c]; cbn;
    try congruence.
  unfold Ascii.compare.
  destruct (N.compare_spec (N_of_ascii x) (N_of_ascii y)) as [Hxy | Hxy | Hxy];
    destruct (N.compare_spec (N_of_ascii y) (N_of_ascii z)) as [Hyz | Hyz | Hyz];
    destruct (N.compare_spec (N_of_ascii x) (N_of_ascii z)) as [Hxz | Hxz | Hxz];
    try congruence; try lia.
  apply IH.
Qed.

Lemma String_leb_trans (a b c : string) :
  String.leb a b = true -> String.leb b c = true -> String.leb a c = true.
Proof.
  unfold String.leb. intros Hab Hbc.
  pose proof (String_compare_trans a b c) as H.
  destruct (String.compare a b); try discriminate;
    destruct (String.compare b c); try discriminate;
    destruct (String.compare a c); try reflexivity;
    exfalso; apply H; congruence.
Qed.

Lemma binary_dialect_total_preorder : total_preorder (text_leb binary_dialect).
Proof.
  split; [apply String.leb_total | apply String_leb_trans].
Qed.

(** [listTasks_sorted_by_title] on the sample data, in the byte order of
    the titles. *)
Lemma listTasks_sorted_by_title_witness :
  exists tasks pg,
    listTasks binary_dialect sample_source by_title =
      {| code := 200; payload := TaskPageJson tasks pg |} /\
    map Task.title tasks = ["A"; "foo bar"; "report"] /\
    StronglySorted (title_in_order binary_dialect ASC) tasks.
Proof.
  eexists. eexists. split; [reflexivity |]. split; [reflexivity |].
  apply (listTasks_sorted_by_title binary_dialect sample_source by_title _ _
           binary_dialect_total_preorder eq_refl eq_refl).
Defined.

(* ===================================================================== *)
(** ** The task list of the frontend and the permissions of the backend *)
(* ===================================================================== *)

(** X14.  The buttons of the task list against the permissions of the
    controller, for a session with the id and the roles of the token: the
    Edit button is shown exactly when [canEditTask] allows the edit; the
    Delete button is shown whenever [canDeleteTask] allows the deletion, and
    it is shown although the backend refuses exactly for an owner who holds
    none of the roles [admin], [manager] and [user]; without a session no
    button is shown. *)
Theorem task_list_buttons_and_backend (a : AuthTokenPayload) (task : Task.t) :
  TaskList.canEdit (Some (session_of a)) task = canEditTask a task /\
  (canDeleteTask a task = true ->
   TaskList.canDelete (Some (session_of a)) task = true) /\
  (TaskList.canDelete (Some (session_of a)) task = true /\
   canDeleteTask a task = false <->
   User.id (Task.owner task) = userId a /\
   ~ In "admin" (roles a) /\ ~ In "manager" (roles a) /\
   ~ In "user" (roles a)) /\
  TaskList.canEdit None task = false /\
  TaskList.canDelete None task = false.
Proof.
  unfold TaskList.canEdit, TaskList.canDelete, canEditTask, canDeleteTask.
  cbn [TaskList.roles_of TaskList.signed_in TaskList.hasRole session_of
       su_roles su_id TaskList.isOwnedByCurrentUser andb].
  fold (hasRole a "admin") (hasRole a "manager") (isOwner a task).
  rewrite <- !hasRole_not_In, <- isOwner_eq.
  destruct (hasRole a "admin"), (hasRole a "manager"), (hasRole a "user"),
    (isOwner a task); cbn; intuition discriminate.
Qed.

(** X15.  [getAvatarColor] always finds a colour: for every id, the empty
    one included, the index computed from the character codes lies within
    the palette, so the result is one of its eight colours and never
    [undefined]. *)
Theorem getAvatarColor_in_palette (id : string) :
  exists c, TaskList.getAvatarColor id = Some c /\ In c TaskList.colors.
Proof.
  unfold TaskList.getAvatarColor.
  assert (Hlt : TaskList.char_code_sum id mod length TaskList.colors
                < length TaskList.colors).
  { apply Nat.mod_upper_bound. cbn. discriminate. }
  destruct (nth_error TaskList.colors
              (TaskList.char_code_sum id mod length TaskList.colors))
    as [c |] eqn:Hc.
  - exists c. split; [reflexivity |]. now apply nth_error_In in Hc.
  - apply nth_error_None in Hc. lia.
Qed.

(* ===================================================================== *)
(** ** Toggling a selection *)
(* ===================================================================== *)

Lemma toggled_In (x y : string) (l : list string) :
  In y (TasksPage.toggled x l) <->
  (y = x /\ ~ In x l) \/ (y <> x /\ In y l).
Proof.
  unfold TasksPage.toggled. destruct (includes l x) eqn:Hx.
  - apply includes_In in Hx. rewrite filter_In, negb_true_iff, String.eqb_neq.
    split.
    + intros [Hy Hne]. right. auto.
    + intros [[-> Hn] | [Hne Hy]]; [contradiction | auto].
  - apply includes_not_In in Hx. rewrite in_app_iff. cbn. split.
    + intros [Hy | [<- | []]].
      * right. split; [| exact Hy]. intros ->. contradiction.
      * left. auto.
    + intros [[-> _] | [_ Hy]]; auto.
Qed.

(** X16.  A click on an entry of a selection (a status checkbox of the
    page, an assignee of the form) flips the membership of that entry and
    of no other; it never introduces a duplicate; and a second click on the
    same entry restores the selection, member for member, and exactly when
    the entry was not selected at first. *)
Theorem toggle_flips_one_entry (x : string) (l : list string) :
  (In x (TasksPage.toggled x l) <-> ~ In x l) /\
  (forall y, y <> x -> (In y (TasksPage.toggled x l) <-> In y l)) /\
  (NoDup l -> NoDup (TasksPage.toggled x l)) /\
  same_members (TasksPage.toggled x (TasksPage.toggled x l)) l /\
  (~ In x l -> TasksPage.toggled x (TasksPage.toggled x l) = l) /\
  (forall form,
     TaskInput.assigneeIds form = Some l ->
     TaskInput.assigneeIds (TaskForm.handleAssigneeToggle form x) =
       Some (TasksPage.toggled x l)).
Proof.
  split; [| split; [| split; [| split; [| split]]]].
  - rewrite toggled_In. tauto.
  - intros y Hne. rewrite toggled_In. tauto.
  - intros Hnd. unfold TasksPage.toggled. destruct (includes l x) eqn:Hx.
    + now apply NoDup_filter.
    + apply includes_not_In in Hx.
      apply (Permutation_NoDup (l := x :: l)).
      * apply Permutation_cons_append.
      * now apply NoDup_cons.
  - intros y. rewrite !toggled_In.
    destruct (String.eqb_spec y x) as [-> | Hne]; [| tauto].
    destruct (in_dec string_dec x l); tauto.
  - intros Hn. unfold TasksPage.toggled at 2.
    rewrite (proj2 (includes_not_In l x) Hn).
    unfold TasksPage.toggled.
    assert (Hin : includes (l ++ [x]) x = true).
    { apply includes_In. apply in_or_app. right. now left. }
    rewrite Hin. rewrite filter_app. cbn.
    rewrite String.eqb_refl. cbn. rewrite app_nil_r.
    clear Hin. induction l as [| z l IH]; [reflexivity |]. cbn.
    destruct (String.eqb_spec z x) as [-> | Hz].
    + exfalso. apply Hn. now left.
    + cbn. f_equal. apply IH. intros H. apply Hn. now right.
  - intros form Hf. unfold TaskForm.handleAssigneeToggle.
    cbn. now rewrite Hf.
Qed.

(* ===================================================================== *)
(** ** The filters of the page and the URL *)
(* ===================================================================== *)

Lemma get_app (name : string) (ps qs : URLSearchParams.t) :
  URLSearchParams.get name (ps ++ qs) =
    match URLSearchParams.get name ps with
    | Some v => Some v
    | None => URLSearchParams.get name qs
    end.
Proof.
  unfold URLSearchParams.get. induction ps as [| p ps IH]; cbn; [reflexivity |].
  destruct (URLSearchParams.named name p); [reflexivity | exact IH].
Qed.

Lemma getAll_app (name : string) (ps qs : URLSearchParams.t) :
  URLSearchParams.getAll name (ps ++ qs) =
    URLSearchParams.getAll name ps ++ URLSearchParams.getAll name qs.
Proof.
  unfold URLSearchParams.getAll. now rewrite filter_app, map_app.
Qed.

Lemma get_unnamed (name : string) (ps : URLSearchParams.t) :
  ~ In name (names ps) -> URLSearchParams.get name ps = None.
Proof.
  unfold URLSearchParams.get, names.
  induction ps as [| p ps IH]; cbn; [reflexivity |]. intros Hn.
  unfold URLSearchParams.named at 1.
  destruct (String.eqb_spec (fst p) name) as [He | _]; [tauto |].
  apply IH. tauto.
Qed.

Lemma getAll_unnamed (name : string) (ps : URLSearchParams.t) :
  ~ In name (names ps) -> URLSearchParams.getAll name ps = [].
Proof.
  unfold URLSearchParams.getAll, names.
  induction ps as [| p ps IH]; cbn; [reflexivity |]. intros Hn.
  unfold URLSearchParams.named at 1.
  destruct (String.eqb_spec (fst p) name) as [He | _]; [tauto |].
  apply IH. tauto.
Qed.

Lemma set_unnamed (name value : string) (ps : URLSearchParams.t) :
  ~ In name (names ps) ->
  URLSearchParams.set name value ps = ps ++ [(name, value)].
Proof.
  unfold names. induction ps as [| p ps IH]; cbn; [reflexivity |]. intros Hn.
  unfold URLSearchParams.named at 1.
  destruct (String.eqb_spec (fst p) name) as [He | _]; [tauto |].
  rewrite IH; tauto.
Qed.

Lemma delete_unnamed (name : string) (ps : URLSearchParams.t) :
  ~ In name (names ps) -> URLSearchParams.delete name ps = ps.
Proof.
  unfold URLSearchParams.delete, names.
  induction ps as [| p ps IH]; cbn; [reflexivity |]. intros Hn.
  unfold URLSearchParams.named at 1.
  destruct (String.eqb_spec (fst p) name) as [He | _]; [tauto |].
  cbn. rewrite IH; tauto.
Qed.

Lemma append_all (name : string) (l : list string) (ps : URLSearchParams.t) :
  fold_left (fun ps s => URLSearchParams.append name s ps) l ps =
    ps ++ map (fun s => (name, s)) l.
Proof.
  revert ps. induction l as [| x l IH]; intros ps; cbn.
  - now rewrite app_nil_r.
  - rewrite IH. unfold URLSearchParams.append. now rewrite <- app_assoc.
Qed.

Lemma names_all (name : string) (l : list string) :
  forall n, In n (names (map (fun s => (name, s)) l)) -> n = name.
Proof.
  unfold names. intros n Hn. rewrite map_map in Hn. cbn in Hn.
  apply in_map_iff in Hn. now destruct Hn as [_ [<- _]].
Qed.

Lemma getAll_all (name : string) (l : list string) :
  URLSearchParams.getAll name (map (fun s => (name, s)) l) = l.
Proof.
  unfold URLSearchParams.getAll. induction l as [| x l IH]; [reflexivity |].
  cbn [map filter]. unfold URLSearchParams.named at 1. cbn [fst].
  rewrite String.eqb_refl. cbn [map snd]. now rewrite IH.
Qed.

Lemma names_pair_if (c : bool) (name value : string) :
  incl (names (pair_if c name value)) [name].
Proof. destruct c; cbn; intros n H; [exact H | destruct H]. Qed.

Lemma names_app_incl (ps qs : URLSearchParams.t) (ns : list string)
  (n : string) :
  incl (names ps) ns -> incl (names qs) [n] -> incl (names (ps ++ qs)) (n :: ns).
Proof.
  unfold names. intros Hp Hq x Hx. rewrite map_app in Hx.
  apply in_app_or in Hx. destruct Hx as [Hx | Hx].
  - right. now apply Hp.
  - apply Hq in Hx. destruct Hx as [<- | []]. now left.
Qed.

Lemma unnamed_by (ps : URLSearchParams.t) (ns : list string) (n : string) :
  incl (names ps) ns -> ~ In n ns -> ~ In n (names ps).
Proof. intros Hincl Hn Hin. apply Hn. now apply Hincl. Qed.

(** A conditional [set] of a name not yet used appends the pair. *)
Lemma set_if_unnamed (c : bool) (name value : string)
  (ps : URLSearchParams.t) :
  ~ In name (names ps) ->
  (if c then URLSearchParams.set name value ps else ps) =
    ps ++ pair_if c name value.
Proof.
  intros Hn. destruct c; cbn [pair_if].
  - now apply set_unnamed.
  - now rewrite app_nil_r.
Qed.

Lemma get_pair_if (c : bool) (name value : string) :
  URLSearchParams.get name (pair_if c name value) =
    if c then Some value else None.
Proof.
  destruct c; [| reflexivity]. unfold URLSearchParams.get. cbn.
  unfold URLSearchParams.named. cbn. now rewrite String.eqb_refl.
Qed.

Lemma get_other (name n : string) (qs : URLSearchParams.t) :
  incl (names qs) [n] -> String.eqb n name = false ->
  URLSearchParams.get name qs = None.
Proof.
  intros Hq Hne. apply get_unnamed. intros Hin. apply Hq in Hin.
  destruct Hin as [<- | []]. now rewrite String.eqb_refl in Hne.
Qed.

Lemma getAll_other (name n : string) (qs : URLSearchParams.t) :
  incl (names qs) [n] -> String.eqb n name = false ->
  URLSearchParams.getAll name qs = [].
Proof.
  intros Hq Hne. apply getAll_unnamed. intros Hin. apply Hq in Hin.
  destruct Hin as [<- | []]. now rewrite String.eqb_refl in Hne.
Qed.

Lemma names_seg_search f : incl (names (seg_search f)) ["search"].
Proof.
  unfold seg_search. destruct (TaskFilters.search f);
    [apply names_pair_if | intros n []].
Qed.

Lemma names_seg_status f : incl (names (seg_status f)) ["status"].
Proof.
  unfold seg_status.
  destruct (TaskFilters.status f) as [v |]; [| intros n []].
  destruct (TasksPage.truthy_status v); [| intros n []].
  intros n Hn. apply names_all in Hn. now left.
Qed.

Lemma names_seg_assigneeId f : incl (names (seg_assigneeId f)) ["assigneeId"].
Proof.
  unfold seg_assigneeId. destruct (TaskFilters.assigneeId f);
    [apply names_pair_if | intros n []].
Qed.

Lemma names_seg_page f : incl (names (seg_page f)) ["page"].
Proof.
  unfold seg_page. destruct (TaskFilters.page f);
    [apply names_pair_if | intros n []].
Qed.

Lemma names_seg_limit f : incl (names (seg_limit f)) ["limit"].
Proof.
  unfold seg_limit. destruct (TaskFilters.limit f);
    [apply names_pair_if | intros n []].
Qed.

Lemma names_seg_sortBy f : incl (names (seg_sortBy f)) ["sortBy"].
Proof.
  unfold seg_sortBy. destruct (TaskFilters.sortBy f);
    [apply names_pair_if | intros n []].
Qed.

Lemma names_seg_sortOrder f : incl (names (seg_sortOrder f)) ["sortOrder"].
Proof.
  unfold seg_sortOrder. destruct (TaskFilters.sortOrder f);
    [apply names_pair_if | intros n []].
Qed.

Ltac not_among := cbn; intuition discriminate.

(** [updateFilters] writes its segments one after the other. *)
Lemma updateFilters_segments (f : TaskFilters.t) :
  TasksPage.updateFilters f =
    ((((((seg_search f ++ seg_status f) ++ seg_assigneeId f) ++ seg_page f)
        ++ seg_limit f) ++ seg_sortBy f) ++ seg_sortOrder f).
Proof.
  unfold TasksPage.updateFilters. cbv zeta.
  (* search *)
  assert (E1 : match TaskFilters.search f with
               | Some s => if truthy_string s
                           then URLSearchParams.set "search" s []
                           else []
               | None => []
               end = seg_search f).
  { unfold seg_search. destruct (TaskFilters.search f) as [s |];
      [destruct (truthy_string s) |]; reflexivity. }
  rewrite E1. clear E1.
  pose proof (names_seg_search f) as N1.
  set (p1 := seg_search f) in *. clearbody p1.
  (* status *)
  assert (E2 : match TaskFilters.status f with
               | Some v =>
                   if TasksPage.truthy_status v
                   then fold_left
                          (fun ps s => URLSearchParams.append "status" s ps)
                          (TasksPage.status_array v)
                          (URLSearchParams.delete "status" p1)
                   else p1
               | None => p1
               end = p1 ++ seg_status f).
  { unfold seg_status. destruct (TaskFilters.status f) as [v |];
      [destruct (TasksPage.truthy_status v) |]; rewrite ?app_nil_r;
      try reflexivity.
    rewrite append_all, delete_unnamed; [reflexivity |].
    apply (unnamed_by _ _ _ N1). not_among. }
  rewrite E2. clear E2.
  pose proof (names_app_incl _ _ _ _ N1 (names_seg_status f)) as N2.
  set (p2 := p1 ++ seg_status f) in *. clearbody p2. clear N1.
  (* assigneeId *)
  assert (E3 : match TaskFilters.assigneeId f with
               | Some a => if truthy_string a
                           then URLSearchParams.set "assigneeId" a p2
                           else p2
               | None => p2
               end = p2 ++ seg_assigneeId f).
  { unfold seg_assigneeId. destruct (TaskFilters.assigneeId f) as [a |];
      [| now rewrite app_nil_r].
    apply set_if_unnamed. apply (unnamed_by _ _ _ N2). not_among. }
  rewrite E3. clear E3.
  pose proof (names_app_incl _ _ _ _ N2 (names_seg_assigneeId f)) as N3.
  set (p3 := p2 ++ seg_assigneeId f) in *. clearbody p3. clear N2.
  (* page *)
  assert (E4 : match TaskFilters.page f with
               | Some p => if TasksPage.truthy_number (Some p) && (1 <? p)%Z
                           then URLSearchParams.set "page" (number_toString p) p3
                           else p3
               | None => p3
               end = p3 ++ seg_page f).
  { unfold seg_page. destruct (TaskFilters.page f) as [p |];
      [| now rewrite app_nil_r].
    apply set_if_unnamed. apply (unnamed_by _ _ _ N3). not_among. }
  rewrite E4. clear E4.
  pose proof (names_app_incl _ _ _ _ N3 (names_seg_page f)) as N4.
  set (p4 := p3 ++ seg_page f) in *. clearbody p4. clear N3.
  (* limit *)
  assert (E5 : match TaskFilters.limit f with
               | Some l => if TasksPage.truthy_number (Some l)
                              && negb (Z.eqb l 10)
                           then URLSearchParams.set "limit" (number_toString l) p4
                           else p4
               | None => p4
               end = p4 ++ seg_limit f).
  { unfold seg_limit. destruct (TaskFilters.limit f) as [l |];
      [| now rewrite app_nil_r].
    apply set_if_unnamed. apply (unnamed_by _ _ _ N4). not_among. }
  rewrite E5. clear E5.
  pose proof (names_app_incl _ _ _ _ N4 (names_seg_limit f)) as N5.
  set (p5 := p4 ++ seg_limit f) in *. clearbody p5. clear N4.
  (* sortBy *)
  assert (E6 : match TaskFilters.sortBy f with
               | Some x => if truthy_string x
                              && negb (String.eqb x "createdAt")
                           then URLSearchParams.set "sortBy" x p5
                           else p5
               | None => p5
               end = p5 ++ seg_sortBy f).
  { unfold seg_sortBy. destruct (TaskFilters.sortBy f) as [x |];
      [| now rewrite app_nil_r].
    apply set_if_unnamed. apply (unnamed_by _ _ _ N5). not_among. }
  rewrite E6. clear E6.
  pose proof (names_app_incl _ _ _ _ N5 (names_seg_sortBy f)) as N6.
  set (p6 := p5 ++ seg_sortBy f) in *. clearbody p6. clear N5.
  (* sortOrder *)
  unfold seg_sortOrder. destruct (TaskFilters.sortOrder f) as [x |];
    [| now rewrite app_nil_r].
  apply set_if_unnamed. apply (unnamed_by _ _ _ N6). not_among.
Qed.

(** Reading a name back finds what its own segment holds. *)
Ltac read_segment name :=
  unfold all_segments; rewrite !get_app;
  rewrite ?(get_other name "search" _ (names_seg_search _) eq_refl),
          ?(get_other name "status" _ (names_seg_status _) eq_refl),
          ?(get_other name "assigneeId" _ (names_seg_assigneeId _) eq_refl),
          ?(get_other name "page" _ (names_seg_page _) eq_refl),
          ?(get_other name "limit" _ (names_seg_limit _) eq_refl),
          ?(get_other name "sortBy" _ (names_seg_sortBy _) eq_refl),
          ?(get_other name "sortOrder" _ (names_seg_sortOrder _) eq_refl);
  match goal with
  | |- context [URLSearchParams.get name ?seg] =>
      destruct (URLSearchParams.get name seg); reflexivity
  end.

Lemma get_search f :
  URLSearchParams.get "search" (all_segments f) =
    URLSearchParams.get "search" (seg_search f).
Proof. read_segment "search". Qed.

Lemma get_assigneeId f :
  URLSearchParams.get "assigneeId" (all_segments f) =
    URLSearchParams.get "assigneeId" (seg_assigneeId f).
Proof. read_segment "assigneeId". Qed.

Lemma get_page f :
  URLSearchParams.get "page" (all_segments f) =
    URLSearchParams.get "page" (seg_page f).
Proof. read_segment "page". Qed.

Lemma get_limit f :
  URLSearchParams.get "limit" (all_segments f) =
    URLSearchParams.get "limit" (seg_limit f).
Proof. read_segment "limit". Qed.

Lemma get_sortBy f :
  URLSearchParams.get "sortBy" (all_segments f) =
    URLSearchParams.get "sortBy" (seg_sortBy f).
Proof. read_segment "sortBy". Qed.

Lemma get_sortOrder f :
  URLSearchParams.get "sortOrder" (all_segments f) =
    URLSearchParams.get "sortOrder" (seg_sortOrder f).
Proof. read_segment "sortOrder". Qed.

Lemma getAll_status f :
  URLSearchParams.getAll "status" (all_segments f) =
    URLSearchParams.getAll "status" (seg_status f).
Proof.
  unfold all_segments. rewrite !getAll_app.
  rewrite (getAll_other "status" "search" _ (names_seg_search _) eq_refl),
          (getAll_other "status" "assigneeId" _ (names_seg_assigneeId _) eq_refl),
          (getAll_other "status" "page" _ (names_seg_page _) eq_refl),
          (getAll_other "status" "limit" _ (names_seg_limit _) eq_refl),
          (getAll_other "status" "sortBy" _ (names_seg_sortBy _) eq_refl),
          (getAll_other "status" "sortOrder" _ (names_seg_sortOrder _) eq_refl).
  cbn [app]. now rewrite !app_nil_r.
Qed.

Lemma number_toString_truthy (z : Z) : truthy_string (number_toString z) = true.
Proof.
  apply truthy_string_true. intros H.
  pose proof (parseInt_toString z) as Hp. rewrite H in Hp. discriminate.
Qed.

(** The filters the page reads back from what [updateFilters] wrote. *)
Lemma filters_updateFilters (f : TaskFilters.t) :
  TasksPage.filters (TasksPage.updateFilters f) = read_back f.
Proof.
  unfold TasksPage.filters, read_back. rewrite updateFilters_segments.
  fold (all_segments f).
  rewrite get_search, get_assigneeId, get_page, get_limit, get_sortBy,
    get_sortOrder, getAll_status.
  unfold seg_search, seg_status, seg_assigneeId, seg_page, seg_limit,
    seg_sortBy, seg_sortOrder.
  destruct f as [se st a pg li sb so].
  cbn [TaskFilters.search TaskFilters.status TaskFilters.assigneeId
       TaskFilters.page TaskFilters.limit TaskFilters.sortBy
       TaskFilters.sortOrder].
  f_equal.
  - destruct se as [s |]; [| reflexivity]. rewrite get_pair_if.
    unfold TasksPage.or_string, TasksPage.or_undefined.
    destruct (truthy_string s) eqn:Hs; [now rewrite !Hs | reflexivity].
  - destruct st as [v |]; [| reflexivity].
    destruct (TasksPage.truthy_status v); [| reflexivity].
    rewrite getAll_all. now destruct (TasksPage.status_array v).
  - destruct a as [x |]; [| reflexivity]. rewrite get_pair_if.
    unfold TasksPage.or_undefined.
    destruct (truthy_string x) eqn:Hx; [now rewrite Hx | reflexivity].
  - destruct pg as [p |]; [| reflexivity]. rewrite get_pair_if.
    unfold TasksPage.truthy_number.
    destruct (Z.ltb_spec 1 p).
    + destruct (Z.eqb_spec p 0); [lia |]. cbn [negb andb].
      unfold TasksPage.or_string. rewrite number_toString_truthy.
      apply parseInt_toString.
    + now rewrite andb_false_r.
  - destruct li as [l |]; [| reflexivity]. rewrite get_pair_if.
    unfold TasksPage.truthy_number.
    destruct (Z.eqb_spec l 0); [reflexivity |]. cbn [negb andb].
    destruct (Z.eqb_spec l 10) as [-> | _]; [reflexivity |].
    cbn [negb]. unfold TasksPage.or_string. rewrite number_toString_truthy.
    apply parseInt_toString.
  - f_equal. destruct sb as [x |]; [| reflexivity]. rewrite get_pair_if.
    unfold TasksPage.or_string.
    destruct (truthy_string x) eqn:Hx; [| reflexivity]. cbn [andb].
    destruct (String.eqb_spec x "createdAt") as [-> | _]; [reflexivity |].
    cbn [negb]. now rewrite Hx.
  - f_equal. destruct so as [x |]; [| reflexivity]. rewrite get_pair_if.
    unfold TasksPage.or_string.
    destruct (truthy_string x) eqn:Hx; [| reflexivity]. cbn [andb].
    destruct (String.eqb_spec x "DESC") as [-> | _]; [reflexivity |].
    cbn [negb]. now rewrite Hx.
Qed.

(** Filters the URL keeps are their own reading. *)
Lemma read_back_safe (f : TaskFilters.t) : url_safe f -> read_back f = f.
Proof.
  intros [Hse [Hst [Ha [[p [Hp [Hp1 _]]] [[l [Hl [Hl0 _]]]
          [[sb [Hsb Hsb0]] [so [Hso Hso0]]]]]]]].
  destruct f as [se st a pg li sb' so'].
  cbn [TaskFilters.search TaskFilters.status TaskFilters.assigneeId
       TaskFilters.page TaskFilters.limit TaskFilters.sortBy
       TaskFilters.sortOrder] in *.
  subst pg li sb' so'. unfold read_back.
  cbn [TaskFilters.search TaskFilters.status TaskFilters.assigneeId
       TaskFilters.page TaskFilters.limit TaskFilters.sortBy
       TaskFilters.sortOrder].
  f_equal.
  - destruct se as [s |]; [| reflexivity]. unfold TasksPage.or_undefined.
    assert (Hs : truthy_string s = true)
      by (apply truthy_string_true; congruence).
    now rewrite Hs.
  - destruct Hst as [-> | [x [xs ->]]]; reflexivity.
  - destruct a as [x |]; [| reflexivity]. unfold TasksPage.or_undefined.
    assert (Hx : truthy_string x = true)
      by (apply truthy_string_true; congruence).
    now rewrite Hx.
  - destruct (Z.ltb_spec 1 p); [reflexivity |]. f_equal. lia.
  - destruct (Z.eqb_spec l 0); [contradiction | reflexivity].
  - unfold TasksPage.or_string.
    apply truthy_string_true in Hsb0. now rewrite Hsb0.
  - unfold TasksPage.or_string.
    apply truthy_string_true in Hso0. now rewrite Hso0.
Qed.

(** What the page reads from any URL has no empty text field and no empty
    selection of statuses, and has both sort fields. *)
Lemma filters_read (ps : URLSearchParams.t) :
  let f := TasksPage.filters ps in
  TasksPage.or_undefined (TaskFilters.search f) = TaskFilters.search f /\
  TasksPage.or_undefined (TaskFilters.assigneeId f)
    = TaskFilters.assigneeId f /\
  Some (TasksPage.or_string (TaskFilters.sortBy f) "createdAt")
    = TaskFilters.sortBy f /\
  Some (TasksPage.or_string (TaskFilters.sortOrder f) "DESC")
    = TaskFilters.sortOrder f /\
  (TaskFilters.status f = None \/
   exists y ys, TaskFilters.status f = Some (Statuses (y :: ys))).
Proof.
  assert (Hu : forall x, TasksPage.or_undefined (TasksPage.or_undefined x)
                         = TasksPage.or_undefined x).
  { intros [s |]; [| reflexivity]. unfold TasksPage.or_undefined.
    destruct (truthy_string s) eqn:Hs; [now rewrite Hs | reflexivity]. }
  assert (Hs : forall x dflt, truthy_string dflt = true ->
                 TasksPage.or_string (Some (TasksPage.or_string x dflt)) dflt
                 = TasksPage.or_string x dflt).
  { intros [s |] dflt Hd; unfold TasksPage.or_string.
    - destruct (truthy_string s) eqn:Hs; [now rewrite Hs | now rewrite Hd].
    - now rewrite Hd. }
  unfold TasksPage.filters.
  cbn [TaskFilters.search TaskFilters.assigneeId TaskFilters.sortBy
       TaskFilters.sortOrder TaskFilters.status].
  split; [apply Hu |]. split; [apply Hu |].
  split; [f_equal; now apply Hs |]. split; [f_equal; now apply Hs |].
  destruct (URLSearchParams.getAll "status" ps) as [| y ys];
    [now left | right; exists y, ys; reflexivity].
Qed.

(** What is read back after the page was set to 1 and a status selection
    or an assignee was written into filters read from a URL. *)
Lemma read_back_first_page (ps : URLSearchParams.t)
  (st : option StatusFilter) (a : option string) :
  (st = None \/ exists y ys, st = Some (Statuses (y :: ys))) ->
  TasksPage.or_undefined a = a ->
  read_back
    (TaskFilters.with_page (Some 1%Z)
       (TaskFilters.with_assigneeId a
          (TaskFilters.with_status st (TasksPage.filters ps)))) =
  TaskFilters.with_limit
    (match TaskFilters.limit (TasksPage.filters ps) with
     | Some l => if Z.eqb l 0 then Some 10%Z else Some l
     | None => Some 10%Z
     end)
    (TaskFilters.with_page (Some 1%Z)
       (TaskFilters.with_assigneeId a
          (TaskFilters.with_status st (TasksPage.filters ps)))).
Proof.
  intros Hst Ha.
  destruct (filters_read ps) as [Hse [_ [Hsb [Hso _]]]].
  destruct (TasksPage.filters ps) as [se st0 a0 pg li sb so].
  cbn [TaskFilters.search TaskFilters.assigneeId TaskFilters.sortBy
       TaskFilters.sortOrder] in *.
  unfold read_back, TaskFilters.with_limit, TaskFilters.with_page,
    TaskFilters.with_assigneeId, TaskFilters.with_status.
  cbn [TaskFilters.search TaskFilters.status TaskFilters.assigneeId
       TaskFilters.page TaskFilters.limit TaskFilters.sortBy
       TaskFilters.sortOrder].
  rewrite Hse, Ha, Hsb, Hso. f_equal.
  destruct Hst as [-> | [y [ys ->]]]; reflexivity.
Qed.

(** X17.  The URL keeps the filters of the page.  For filters with a page
    of at least one, a page size other than zero (both safe integers), a
    sort field and a direction, none of its texts empty and its statuses,
    if any, in a non-empty array, what the page reads from the parameters
    [updateFilters] wrote is exactly the filters it was given.  The
    defaults, page 1, a page size of 10, [createdAt] and [DESC], are not
    written to the URL; and filters without a page, a page size, a sort
    field or a direction are read back with these defaults in their
    place, as is a page size of zero. *)
Theorem filters_survive_the_url (f : TaskFilters.t) :
  (url_safe f -> TasksPage.filters (TasksPage.updateFilters f) = f) /\
  ((TaskFilters.page f = Some 1%Z ->
    URLSearchParams.get "page" (TasksPage.updateFilters f) = None) /\
   (TaskFilters.limit f = Some 10%Z ->
    URLSearchParams.get "limit" (TasksPage.updateFilters f) = None) /\
   (TaskFilters.sortBy f = Some "createdAt" ->
    URLSearchParams.get "sortBy" (TasksPage.updateFilters f) = None) /\
   (TaskFilters.sortOrder f = Some "DESC" ->
    URLSearchParams.get "sortOrder" (TasksPage.updateFilters f) = None)) /\
  ((TaskFilters.page f = None ->
    TaskFilters.page (TasksPage.filters (TasksPage.updateFilters f))
      = Some 1%Z) /\
   (TaskFilters.limit f = None \/ TaskFilters.limit f = Some 0%Z ->
    TaskFilters.limit (TasksPage.filters (TasksPage.updateFilters f))
      = Some 10%Z) /\
   (TaskFilters.sortBy f = None ->
    TaskFilters.sortBy (TasksPage.filters (TasksPage.updateFilters f))
      = Some "createdAt") /\
   (TaskFilters.sortOrder f = None ->
    TaskFilters.sortOrder (TasksPage.filters (TasksPage.updateFilters f))
      = Some "DESC")).
Proof.
  split; [| split].
  - intros Hsafe. rewrite filters_updateFilters. now apply read_back_safe.
  - rewrite updateFilters_segments.
    change (((((((seg_search f ++ seg_status f) ++ seg_assigneeId f)
                  ++ seg_page f) ++ seg_limit f) ++ seg_sortBy f)
              ++ seg_sortOrder f)) with (all_segments f).
    rewrite get_page, get_limit, get_sortBy, get_sortOrder.
    unfold seg_page, seg_limit, seg_sortBy, seg_sortOrder.
    repeat split; intros ->; reflexivity.
  - rewrite filters_updateFilters. unfold read_back.
    cbn [TaskFilters.page TaskFilters.limit TaskFilters.sortBy
         TaskFilters.sortOrder].
    repeat split.
    + intros ->. reflexivity.
    + intros [-> | ->]; reflexivity.
    + intros ->. reflexivity.
    + intros ->. reflexivity.
Qed.

(** [filters_survive_the_url] for the second page of Bob's open tasks. *)
Lemma filters_survive_the_url_witness :
  TasksPage.updateFilters bobs_open_tasks =
    [("search", "foo"); ("status", "todo"); ("status", "in_progress");
     ("assigneeId", "u-bob"); ("page", "2"); ("limit", "25");
     ("sortBy", "title"); ("sortOrder", "ASC")] /\
  TasksPage.filters (TasksPage.updateFilters bobs_open_tasks) =
    bobs_open_tasks.
Proof.
  split; [reflexivity |].
  apply (proj1 (filters_survive_the_url bobs_open_tasks)).
  unfold url_safe, bobs_open_tasks, safe_integer. cbn.
  repeat split; try discriminate; try lia.
  - right. exists "todo", ["in_progress"]. reflexivity.
  - exists 2%Z. repeat split; try reflexivity; lia.
  - exists 25%Z. repeat split; try reflexivity; try lia.
  - exists "title". split; [reflexivity | discriminate].
  - exists "ASC". split; [reflexivity | discriminate].
Defined.

(** X18.  A change of the status or of the assignee filter sends the list
    back to page 1 and leaves the other filters alone, whatever URL the
    page is on (its page size being a safe integer, if a number): after a
    click on a status the URL reads back with the toggled selection (no
    status at all when the selection is empty), after the choice of an
    assignee with that assignee (none for the empty choice), and search,
    the other of the two filters and the sorting read back as they were.
    So does the page size, unless it was zero or no number: then it is
    read back as the default 10. *)
Theorem filter_change_returns_to_first_page (ps : URLSearchParams.t)
  (selected : list string) (x : string) :
  safe_limit (TasksPage.filters ps) ->
  ((exists l, TaskFilters.limit (TasksPage.filters ps) = Some l /\
              l <> 0%Z) ->
   TasksPage.filters
     (snd (TasksPage.handleStatusToggle (TasksPage.filters ps) selected x)) =
     TaskFilters.with_page (Some 1%Z)
       (TaskFilters.with_status
          (match TasksPage.toggled x selected with
           | [] => None
           | l => Some (Statuses l)
           end) (TasksPage.filters ps)) /\
   TasksPage.filters
     (TasksPage.handleAssigneeChange (TasksPage.filters ps) x) =
     TaskFilters.with_page (Some 1%Z)
       (TaskFilters.with_assigneeId
          (if String.eqb x "" then None else Some x)
          (TasksPage.filters ps))) /\
  (TaskFilters.limit (TasksPage.filters ps) = None \/
   TaskFilters.limit (TasksPage.filters ps) = Some 0%Z ->
   TasksPage.filters
     (snd (TasksPage.handleStatusToggle (TasksPage.filters ps) selected x)) =
     TaskFilters.with_limit (Some 10%Z)
       (TaskFilters.with_page (Some 1%Z)
          (TaskFilters.with_status
             (match TasksPage.toggled x selected with
              | [] => None
              | l => Some (Statuses l)
              end) (TasksPage.filters ps))) /\
   TasksPage.filters
     (TasksPage.handleAssigneeChange (TasksPage.filters ps) x) =
     TaskFilters.with_limit (Some 10%Z)
       (TaskFilters.with_page (Some 1%Z)
          (TaskFilters.with_assigneeId
             (if String.eqb x "" then None else Some x)
             (TasksPage.filters ps)))).
Proof.
  intros _.
  destruct (filters_read ps) as [_ [Ha [_ [_ Hst]]]].
  assert (Htoggle :
    TasksPage.filters
      (snd (TasksPage.handleStatusToggle (TasksPage.filters ps) selected x)) =
    TaskFilters.with_limit
      (match TaskFilters.limit (TasksPage.filters ps) with
       | Some l => if Z.eqb l 0 then Some 10%Z else Some l
       | None => Some 10%Z
       end)
      (TaskFilters.with_page (Some 1%Z)
         (TaskFilters.with_status
            (match TasksPage.toggled x selected with
             | [] => None
             | l => Some (Statuses l)
             end) (TasksPage.filters ps)))).
  { unfold TasksPage.handleStatusToggle. cbn [snd].
    rewrite filters_updateFilters.
    assert (Heq : (if Nat.ltb 0 (length (TasksPage.toggled x selected))
                   then Some (Statuses (TasksPage.toggled x selected))
                   else None) =
                  match TasksPage.toggled x selected with
                  | [] => None
                  | l => Some (Statuses l)
                  end)
      by (destruct (TasksPage.toggled x selected); reflexivity).
    rewrite Heq.
    pose proof (read_back_first_page ps
                  (match TasksPage.toggled x selected with
                   | [] => None
                   | l => Some (Statuses l)
                   end)
                  (TaskFilters.assigneeId (TasksPage.filters ps))) as Hrb.
    assert (Hsame : forall st f,
              TaskFilters.with_assigneeId (TaskFilters.assigneeId f)
                (TaskFilters.with_status st f) = TaskFilters.with_status st f)
      by (intros st f; now destruct f).
    rewrite Hsame in Hrb. apply Hrb; [| exact Ha].
    destruct (TasksPage.toggled x selected) as [| y ys];
      [now left | right; exists y, ys; reflexivity]. }
  assert (Hchange :
    TasksPage.filters
      (TasksPage.handleAssigneeChange (TasksPage.filters ps) x) =
    TaskFilters.with_limit
      (match TaskFilters.limit (TasksPage.filters ps) with
       | Some l => if Z.eqb l 0 then Some 10%Z else Some l
       | None => Some 10%Z
       end)
      (TaskFilters.with_page (Some 1%Z)
         (TaskFilters.with_assigneeId
            (if String.eqb x "" then None else Some x)
            (TasksPage.filters ps)))).
  { unfold TasksPage.handleAssigneeChange.
    rewrite filters_updateFilters.
    assert (Heq : TasksPage.or_undefined (Some x) =
                  if String.eqb x "" then None else Some x).
    { unfold TasksPage.or_undefined, truthy_string.
      now destruct (String.eqb x ""). }
    rewrite Heq.
    pose proof (read_back_first_page ps
                  (TaskFilters.status (TasksPage.filters ps))
                  (if String.eqb x "" then None else Some x)) as Hrb.
    assert (Hsame : forall f,
              TaskFilters.with_status (TaskFilters.status f) f = f)
      by (intros f; now destruct f).
    rewrite Hsame in Hrb. apply Hrb; [exact Hst |].
    destruct (String.eqb_spec x "") as [-> | Hx]; [reflexivity |].
    unfold TasksPage.or_undefined.
    apply truthy_string_true in Hx. now rewrite Hx. }
  rewrite Htoggle, Hchange. split.
  - intros [l [Hl Hl0]]. rewrite Hl.
    destruct (Z.eqb_spec l 0); [contradiction |].
    split; destruct (TasksPage.filters ps); cbn in *; now subst.
  - intros [Hl | Hl]; rewrite Hl; split; reflexivity.
Qed.

(** [filter_change_returns_to_first_page] on the second page of Bob's open
    tasks, where [todo] is unticked and all assignees are chosen, and on a
    URL with a page size of zero, which is read back as 10. *)
Lemma filter_change_returns_to_first_page_witness :
  TasksPage.filters
    (snd (TasksPage.handleStatusToggle
            (TasksPage.filters (TasksPage.updateFilters bobs_open_tasks))
            ["todo"; "in_progress"] "todo")) =
    TaskFilters.mk (Some "foo") (Some (Statuses ["in_progress"]))
                   (Some "u-bob") (Some 1%Z) (Some 25%Z)
                   (Some "title") (Some "ASC") /\
  TasksPage.filters
    (TasksPage.handleAssigneeChange
       (TasksPage.filters (TasksPage.updateFilters bobs_open_tasks)) "") =
    TaskFilters.mk (Some "foo") (Some (Statuses ["todo"; "in_progress"]))
                   None (Some 1%Z) (Some 25%Z) (Some "title") (Some "ASC") /\
  TaskFilters.limit (TasksPage.filters limit_zero) = Some 0%Z /\
  TasksPage.filters
    (snd (TasksPage.handleStatusToggle (TasksPage.filters limit_zero)
            ["todo"] "done")) =
    TaskFilters.mk None (Some (Statuses ["todo"; "done"])) None
                   (Some 1%Z) (Some 10%Z) (Some "createdAt") (Some "DESC").
Proof.
  assert (Hsafe : forall ps l,
            TaskFilters.limit (TasksPage.filters ps) = Some l ->
            (l = 0 \/ l = 25)%Z ->
            safe_limit (TasksPage.filters ps)).
  { intros ps l Hl Hcases l' Hl'. rewrite Hl in Hl'. injection Hl' as <-.
    unfold safe_integer. lia. }
  split; [| split; [| split; [reflexivity |]]].
  - refine (proj1 (proj1 (filter_change_returns_to_first_page
                            (TasksPage.updateFilters bobs_open_tasks)
                            ["todo"; "in_progress"] "todo" _) _)).
    + apply (Hsafe _ 25%Z); [reflexivity | now right].
    + exists 25%Z. split; [reflexivity | discriminate].
  - refine (proj2 (proj1 (filter_change_returns_to_first_page
                            (TasksPage.updateFilters bobs_open_tasks)
                            [] "" _) _)).
    + apply (Hsafe _ 25%Z); [reflexivity | now right].
    + exists 25%Z. split; [reflexivity | discriminate].
  - refine (proj1 (proj2 (filter_change_returns_to_first_page
                            limit_zero ["todo"] "done" _) _)).
    + apply (Hsafe _ 0%Z); [reflexivity | now left].
    + now right.
Defined.

(* ===================================================================== *)
(** ** The pagination line and controls of the page *)
(* ===================================================================== *)

Lemma query_with_page_in_range (d : Dialect) (ds : DataSource) (q : Query.t)
  (p l : Z) :
  parseInt (or_default "10" (Query.limit q)) = Some l ->
  (1 <= p)%Z -> (1 <= l)%Z ->
  listTasks d ds (query_with_page (Some (number_toString p)) q) =
    page_json (firstn (Z.to_nat l)
                      (skipn (Z.to_nat ((p - 1) * l)) (sorted_matches d ds q)))
              (Some p) (Some l)
              (Z.of_nat (length (sorted_matches d ds q))).
Proof.
  intros Hl Hp1 Hl1.
  rewrite (listTasks_in_range d ds _ p l); try assumption.
  - reflexivity.
  - cbn. apply parseInt_toString.
Qed.

(** X19.  The line [Showing a - b of total tasks] above the list, for an
    answer of [list] to a page number and a page size of at least one whose
    product is a safe integer: on a page with tasks, [a] is at least 1, [b]
    is [a] plus the number of tasks shown minus one and at most the total,
    and the tasks shown are the entries [a] to [b] of the sorted sequence
    of the selected tasks; on a page without tasks the line reads
    [0 - total], also when the page lies beyond the last. *)
Theorem showing_line_counts_the_page (d : Dialect) (ds : DataSource)
  (q : Query.t) (p l : Z) :
  parseInt (or_default "1" (Query.page q)) = Some p ->
  parseInt (or_default "10" (Query.limit q)) = Some l ->
  (1 <= p)%Z -> (1 <= l)%Z -> safe_integer (p * l) ->
  exists tasks pagination,
    listTasks d ds q =
      {| code := 200; payload := TaskPageJson tasks pagination |} /\
    (tasks <> [] ->
       (1 <= TasksPage.showing_from tasks pagination)%Z /\
       (TasksPage.showing_to pagination
        = TasksPage.showing_from tasks pagination
          + Z.of_nat (length tasks) - 1)%Z /\
       (TasksPage.showing_to pagination <= pg_total pagination)%Z /\
       forall i : nat, i < length tasks ->
         nth_error tasks i =
           nth_error (sorted_matches d ds q)
             (Z.to_nat (TasksPage.showing_from tasks pagination - 1) + i)) /\
    (tasks = [] ->
       TasksPage.showing_from tasks pagination = 0%Z /\
       TasksPage.showing_to pagination = pg_total pagination).
Proof.
  intros Hp Hl Hp1 Hl1 _.
  rewrite (listTasks_in_range d ds q p l Hp Hl Hp1 Hl1).
  set (all := sorted_matches d ds q).
  set (tasks := firstn (Z.to_nat l) (skipn (Z.to_nat ((p - 1) * l)) all)).
  eexists tasks, _. split; [reflexivity |].
  assert (Hlen : Z.of_nat (length tasks) =
                 Z.max 0 (Z.min l (Z.of_nat (length all) - (p - 1) * l))).
  { unfold tasks. rewrite length_firstn, length_skipn. nia. }
  unfold TasksPage.showing_from, TasksPage.showing_to, TasksPage.number_of.
  cbn [pg_page pg_limit pg_total or_default].
  split.
  - intros Hne.
    assert (Hpos : 0 < length tasks)
      by (destruct tasks; [congruence | cbn; lia]).
    destruct (Nat.ltb_spec 0 (length tasks)) as [_ | ?]; [| lia].
    repeat split; try nia.
    intros i Hi. unfold tasks.
    rewrite nth_error_slice.
    destruct (Nat.ltb_spec i (Z.to_nat l)) as [_ | Hge].
    + f_equal. nia.
    + unfold tasks in Hi. rewrite length_firstn in Hi. lia.
  - intros Hnil. rewrite Hnil in *. cbn [length Nat.ltb Nat.leb].
    split; [reflexivity |]. cbn in Hlen. nia.
Qed.

(** [showing_line_counts_the_page] on the third page of ten over the
    twenty-five stored tasks: the line reads [21 - 25]. *)
Lemma showing_line_counts_the_page_witness :
  exists tasks pagination,
    listTasks binary_dialect twenty_five third_page =
      {| code := 200; payload := TaskPageJson tasks pagination |} /\
    TasksPage.showing_from tasks pagination = 21%Z /\
    TasksPage.showing_to pagination = 25%Z.
Proof.
  destruct (showing_line_counts_the_page binary_dialect twenty_five
              third_page 3 10 eq_refl eq_refl ltac:(lia) ltac:(lia)
              ltac:(unfold safe_integer; lia))
    as [tasks [pagination [Hr _]]].
  exists tasks, pagination. split; [exact Hr |].
  vm_compute in Hr. injection Hr as <- <-. split; reflexivity.
Defined.

(** X20.  The [Next] button and the answers of [list], for a page number and
    a page size of at least one, the end of the next page being a safe
    integer: when the button is enabled, the page shown is full and the
    page it asks for ([page + 1], written in decimal as [fetchTasks] sends
    it, the other parameters as they are) holds at least one task; when it
    is disabled, that page would be answered 200 with no task; and when the
    controls are not shown at all, the first page holds every selected
    task. *)
Theorem next_button_leads_to_tasks (d : Dialect) (ds : DataSource)
  (q : Query.t) (p l : Z) :
  parseInt (or_default "1" (Query.page q)) = Some p ->
  parseInt (or_default "10" (Query.limit q)) = Some l ->
  (1 <= p)%Z -> (1 <= l)%Z -> safe_integer ((p + 1) * l) ->
  exists tasks pagination,
    listTasks d ds q =
      {| code := 200; payload := TaskPageJson tasks pagination |} /\
    let next :=
      listTasks d ds
        (query_with_page
           (Some (number_toString (TasksPage.next_page pagination))) q) in
    (TasksPage.next_disabled pagination = false ->
       Z.of_nat (length tasks) = l /\ response_tasks next <> []) /\
    (TasksPage.next_disabled pagination = true ->
       code next = 200%Z /\ response_tasks next = []) /\
    (TasksPage.controls_shown pagination = false ->
       p = 1%Z -> tasks = sorted_matches d ds q).
Proof.
  intros Hp Hl Hp1 Hl1 _.
  rewrite (listTasks_in_range d ds q p l Hp Hl Hp1 Hl1).
  set (all := sorted_matches d ds q).
  set (tasks := firstn (Z.to_nat l) (skipn (Z.to_nat ((p - 1) * l)) all)).
  eexists tasks, _. split; [reflexivity |].
  destruct (math_ceil_div_spec (Z.of_nat (length all)) l ltac:(lia))
    as [k [Hk Hbounds]].
  unfold TasksPage.next_disabled, TasksPage.next_page,
    TasksPage.controls_shown, TasksPage.number_of.
  cbn [pg_page pg_limit pg_total pg_totalPages or_default js_ceil_div].
  rewrite Hk. cbn [or_default].
  rewrite (query_with_page_in_range d ds q (p + 1) l Hl ltac:(lia) Hl1).
  fold all. cbn [response_tasks page_json payload code].
  assert (Hlen : Z.of_nat (length tasks) =
                 Z.max 0 (Z.min l (Z.of_nat (length all) - (p - 1) * l))).
  { unfold tasks. rewrite length_firstn, length_skipn. nia. }
  set (next := firstn (Z.to_nat l) (skipn (Z.to_nat ((p + 1 - 1) * l)) all)).
  assert (Hnext : Z.of_nat (length next) =
                  Z.max 0 (Z.min l (Z.of_nat (length all) - p * l))).
  { unfold next. rewrite length_firstn, length_skipn. nia. }
  split; [| split].
  - intros Hdis. apply Z.leb_gt in Hdis.
    split; [nia |].
    intros Hnil. rewrite Hnil in Hnext. cbn in Hnext. nia.
  - intros Hdis. apply Z.leb_le in Hdis.
    split; [reflexivity |].
    apply length_zero_iff_nil. nia.
  - intros Hshown Hp_. apply Z.ltb_ge in Hshown. subst p.
    unfold tasks. change (Z.to_nat ((1 - 1) * l)) with 0.
    cbn [skipn]. apply firstn_all2. nia.
Qed.

(** [next_button_leads_to_tasks] on the first page of ten over the
    twenty-five stored tasks: [Next] is enabled and page 2 has tasks. *)
Lemma next_button_leads_to_tasks_witness :
  exists tasks pagination,
    listTasks binary_dialect twenty_five pages_of_ten =
      {| code := 200; payload := TaskPageJson tasks pagination |} /\
    TasksPage.next_disabled pagination = false /\
    length tasks = 10 /\
    response_tasks
      (listTasks binary_dialect twenty_five
         (query_with_page
            (Some (number_toString (TasksPage.next_page pagination)))
            pages_of_ten)) <> [].
Proof.
  destruct (next_button_leads_to_tasks binary_dialect twenty_five
              pages_of_ten 1 10 eq_refl eq_refl ltac:(lia) ltac:(lia)
              ltac:(unfold safe_integer; lia))
    as [tasks [pagination [Hr [Hnext _]]]].
  exists tasks, pagination. split; [exact Hr |].
  assert (Hdis : TasksPage.next_disabled pagination = false).
  { vm_compute in Hr. injection Hr as _ <-. reflexivity. }
  destruct (Hnext Hdis) as [Hlen Hne].
  repeat split; [exact Hdis | lia | exact Hne].
Defined.

(* ===================================================================== *)
(** ** [TaskForm] and the length rules of the DTOs *)
(* ===================================================================== *)

Lemma drop_spaces_blank (l : list ascii) :
  forallb is_space l = true -> TaskForm.drop_spaces l = [].
Proof.
  induction l as [| c l IH]; [reflexivity |].
  cbn. destruct (is_space c); [exact IH | discriminate].
Qed.

Lemma trim_blank (s : string) :
  forallb is_space (list_ascii_of_string s) = true -> TaskForm.trim s = "".
Proof.
  intros H. unfold TaskForm.trim. now rewrite (drop_spaces_blank _ H).
Qed.

Lemma length_zero_empty (s : string) : String.length s = 0 -> s = "".
Proof. destruct s; [reflexivity | discriminate]. Qed.

Lemma broken_between (lo hi : nat) (m1 m2 text : string) :
  lo <= String.length text <= hi ->
  broken [MinLength lo m1; MaxLength hi m2] text = [].
Proof.
  intros [Hlo Hhi]. unfold broken. cbn [flat_map app].
  destruct (Nat.ltb_spec (String.length text) lo); [lia |].
  destruct (Nat.ltb_spec hi (String.length text)); [lia | reflexivity].
Qed.

(** X21.  What [TaskForm] submits passes the length rules of the task DTOs:
    [handleSubmit] hands on the form unchanged, and only one whose title
    breaks no rule of [CreateTaskDto] or [UpdateTaskDto] (1 to 200
    characters), whose description, if any, breaks none (at most 2000), and
    whose title is more than white space. *)
Theorem submitted_form_passes_the_dto (form out : TaskInput.t) :
  TaskForm.handleSubmit form = Some out ->
  out = form /\
  broken CreateTaskDto_title (TaskInput.title out) = [] /\
  broken UpdateTaskDto_title (TaskInput.title out) = [] /\
  (forall text, TaskInput.description out = Some text ->
     broken TaskDto_description text = []) /\
  TaskForm.trim (TaskInput.title out) <> "".
Proof.
  unfold TaskForm.handleSubmit, TaskForm.validateForm,
    TaskForm.validateForm_errors. cbn [TaskForm.err_title
    TaskForm.err_description].
  destruct form as [title description status ids]. cbn [TaskInput.title
    TaskInput.description].
  destruct (negb (truthy_string title)
            || Nat.eqb (String.length (TaskForm.trim title)) 0) eqn:Hreq;
    [discriminate |].
  destruct (Nat.ltb_spec 200 (String.length title)) as [| Hmax];
    [discriminate |].
  apply orb_false_elim in Hreq. destruct Hreq as [Htruthy Htrim].
  apply negb_false_iff in Htruthy. apply Nat.eqb_neq in Htrim.
  assert (Hmin : 1 <= String.length title).
  { destruct title; [discriminate Htruthy | cbn; lia]. }
  intros Hsub.
  assert (Hdesc : forall text, description = Some text ->
                    broken TaskDto_description text = []).
  { intros text ->. unfold broken, TaskDto_description.
    cbn [flat_map app].
    destruct (Nat.ltb 2000 (String.length text)) eqn:Hlong; [| reflexivity].
    destruct (truthy_string text) eqn:Ht; [discriminate Hsub |].
    unfold truthy_string in Ht. apply negb_false_iff in Ht.
    apply String.eqb_eq in Ht. subst text. discriminate Hlong. }
  assert (Hout : out = TaskInput.mk title description status ids).
  { destruct description as [text |].
    - destruct (truthy_string text && Nat.ltb 2000 (String.length text));
        [discriminate | congruence].
    - congruence. }
  subst out. cbn [TaskInput.title TaskInput.description].
  split; [reflexivity |].
  split; [| split; [| split; [exact Hdesc |]]].
  - apply broken_between. lia.
  - apply broken_between. lia.
  - intros Hempty. rewrite Hempty in Htrim. now apply Htrim.
Qed.

(** [submitted_form_passes_the_dto] for a task with a title and an empty
    description. *)
Lemma submitted_form_passes_the_dto_witness :
  broken CreateTaskDto_title "Write report" = [] /\
  broken UpdateTaskDto_title "Write report" = [] /\
  TaskForm.trim "Write report" <> "".
Proof.
  destruct (submitted_form_passes_the_dto
              (TaskInput.mk "Write report" (Some "") todo (Some []))
              (TaskInput.mk "Write report" (Some "") todo (Some []))
              eq_refl)
    as [_ [Hc [Hu [_ Ht]]]].
  split; [exact Hc |]. split; [exact Hu | exact Ht].
Defined.

(** X22.  The form is stricter than the DTOs on blank titles: a title of
    one to 200 white-space characters breaks no length rule of
    [CreateTaskDto] or [UpdateTaskDto], while the form answers
    [Title is required] and submits nothing. *)
Theorem blank_title_passes_the_dto_only (form : TaskInput.t) :
  TaskInput.title form <> "" ->
  forallb is_space (list_ascii_of_string (TaskInput.title form)) = true ->
  String.length (TaskInput.title form) <= 200 ->
  broken CreateTaskDto_title (TaskInput.title form) = [] /\
  broken UpdateTaskDto_title (TaskInput.title form) = [] /\
  TaskForm.err_title (TaskForm.validateForm_errors form)
    = Some "Title is required" /\
  TaskForm.handleSubmit form = None.
Proof.
  intros Hne Hblank Hmax.
  assert (Hmin : 1 <= String.length (TaskInput.title form)).
  { destruct (TaskInput.title form); [congruence | cbn; lia]. }
  assert (Herr : TaskForm.err_title (TaskForm.validateForm_errors form)
                 = Some "Title is required").
  { unfold TaskForm.validateForm_errors. cbn [TaskForm.err_title].
    rewrite (trim_blank _ Hblank). cbn [String.length Nat.eqb].
    now rewrite orb_true_r. }
  split; [| split; [| split; [exact Herr |]]].
  - apply broken_between. lia.
  - apply broken_between. lia.
  - unfold TaskForm.handleSubmit, TaskForm.validateForm. now rewrite Herr.
Qed.

(** [blank_title_passes_the_dto_only] for a title of three spaces. *)
Lemma blank_title_passes_the_dto_only_witness :
  broken CreateTaskDto_title "   " = [] /\
  TaskForm.handleSubmit (TaskInput.mk "   " (Some "") todo (Some [])) = None.
Proof.
  destruct (blank_title_passes_the_dto_only
              (TaskInput.mk "   " (Some "") todo (Some [])))
    as [Hc [_ [_ Hs]]].
  - discriminate.
  - reflexivity.
  - cbn. lia.
  - split; [exact Hc | exact Hs].
Defined.
